(** * Call-state reconciliation of boostedcalls-server

    A shallow embedding of the call lifecycle code of the [calls] app:
    [calls/constants.py], [calls/models.py], [calls/utils.py],
    [calls/services/calls.py], [calls/services/webhook.py] and the management
    command [sync_stale_calls].

    Conventions of the embedding.
    - Python [str] values are [string]s of ASCII characters; [str.lower],
      [str.replace], [str.strip] and the [in] operator are written out below.
    - A status is a [string], as in the [CharField] of the model: the code
      compares and stores raw strings, and nothing in it restricts them to
      the members of [CallStatus].
    - JSON values of open shape (metadata values, analysis values, structured
      outputs) are the inductive [json]; a key that is absent and a key whose
      value is [null] both read as [JNull], as [dict.get] returns [None] for
      both.  Numbers are integers: the code only stores them and tests them
      against [None].
    - Provider payloads follow the shape documented in the docstrings of
      [_reconcile_call_from_vapi] and [_handle_end_of_call_report]: a slot
      that is a record or a typed field below holds a value of the documented
      type, or is absent.  A value of open shape is a [json], and what the
      code does with it is written out for every JSON value: a method
      called on a value that has no such method raises [AttributeError].
    - A [datetime] is the number of microseconds since the epoch, a [Z].
      The payload fields [startedAt], [endedAt] and [timestamp] hold strings;
      a [Stamp] is such a string taken by what Django's [parse_datetime]
      does with it: it returns a [datetime], returns [None], or raises.
    - A function that can raise returns an [Outcome]; a function that mutates
      the instance and can raise returns the instance as it has left it
      together with the [Outcome].
    - The in-memory model instance and the stored row are distinct: handlers
      mutate the instance and [save] copies the listed columns into the row. *)

From Stdlib Require Import ZArith String Ascii List Bool Lia Sorted.
From stdpp Require Import base option list gmap strings.

Local Open Scope string_scope.
Local Open Scope Z_scope.

(** ** Python string operations *)

Module PyStr.

(** [c.lower()] on one ASCII character. *)
Definition lower_char (c : ascii) : ascii :=
  let n := nat_of_ascii c in
  if ((65 <=? n)%nat && (n <=? 90)%nat)%bool then ascii_of_nat (n + 32) else c.

(** [s.lower()] *)
Fixpoint lower (s : string) : string :=
  match s with
  | EmptyString => EmptyString
  | String c t => String (lower_char c) (lower t)
  end.

(** [s.replace(a, b)] for one-character [a] and [b]. *)
Fixpoint replace (a b : ascii) (s : string) : string :=
  match s with
  | EmptyString => EmptyString
  | String c t => String (if Ascii.eqb c a then b else c) (replace a b t)
  end.

(** [s.startswith(p)] *)
Fixpoint startswith (p s : string) : bool :=
  match p, s with
  | EmptyString, _ => true
  | String _ _, EmptyString => false
  | String a p', String b s' => Ascii.eqb a b && startswith p' s'
  end.

(** [needle in hay] *)
Fixpoint contains (needle hay : string) : bool :=
  startswith needle hay ||
  match hay with
  | EmptyString => false
  | String _ t => contains needle t
  end.

(** The characters [str.strip()] removes, among ASCII ones. *)
Definition isspace (c : ascii) : bool :=
  let n := nat_of_ascii c in
  ((9 <=? n)%nat && (n <=? 13)%nat) || ((28 <=? n)%nat && (n <=? 32)%nat).

Fixpoint lstrip (s : string) : string :=
  match s with
  | EmptyString => EmptyString
  | String c t => if isspace c then lstrip t else s
  end.

(** Drops the trailing white space: a character is kept when something
    that is kept follows it, or when it is not white space itself. *)
Fixpoint rstrip (s : string) : string :=
  match s with
  | EmptyString => EmptyString
  | String c t =>
      match rstrip t with
      | EmptyString => if isspace c then EmptyString else String c EmptyString
      | r => String c r
      end
  end.

(** [s.strip()] *)
Definition strip (s : string) : string := rstrip (lstrip s).

(** [bool(s)] *)
Definition truthy (s : string) : bool :=
  match s with EmptyString => false | _ => true end.

(** [bool(o)] for a value that is a string or [None]. *)
Definition truthy_opt (o : option string) : bool :=
  match o with Some s => truthy s | None => false end.

(** [a or b] for values that are strings or [None]. *)
Definition or_ (a b : option string) : option string :=
  if truthy_opt a then a else b.

(** [o or ""] *)
Definition or_empty (o : option string) : string :=
  match o with Some s => s | None => "" end.

(** [needle] occurs in [hay]: the specification of [contains]. *)
Definition Occurs (needle hay : string) : Prop :=
  exists pre suf : string, hay = (pre ++ needle ++ suf)%string.

End PyStr.

(** ** calls/models.py: CallStatus *)

Module CallStatus.
Definition PENDING : string := "pending".
Definition QUEUED : string := "queued".
Definition INITIATED : string := "initiated".
Definition RINGING : string := "ringing".
Definition IN_PROGRESS : string := "in-progress".
Definition COMPLETED : string := "completed".
Definition FAILED : string := "failed".
Definition CANCELLED : string := "cancelled".
Definition NO_ANSWER : string := "no-answer".
Definition BUSY : string := "busy".
Definition VOICEMAIL : string := "voicemail".

(** [CallStatus.choices], the values only. *)
Definition choices : list string :=
  [PENDING; QUEUED; INITIATED; RINGING; IN_PROGRESS; COMPLETED; FAILED;
   CANCELLED; NO_ANSWER; BUSY; VOICEMAIL].
End CallStatus.

(** ** calls/constants.py *)

Definition MAX_PENDING_CALLS : Z := 2.

Definition ACTIVE_STATUSES : list string :=
  ["pending"; "queued"; "initiated"; "ringing"; "in-progress"].

Definition STALE_ELIGIBLE_STATUSES : list string := ["pending"; "queued"].

Definition TERMINAL_STATUSES : list string :=
  ["completed"; "failed"; "cancelled"; "no-answer"; "busy"; "voicemail"].

Definition STATUS_ORDER : gmap string Z :=
  list_to_map
    [("pending", 0); ("queued", 1); ("initiated", 2); ("ringing", 3);
     ("in-progress", 4); ("completed", 10); ("failed", 10);
     ("cancelled", 10); ("no-answer", 10); ("busy", 10); ("voicemail", 10)].

(** [x in xs] for a list of strings. *)
Definition str_in (x : string) (xs : list string) : bool :=
  existsb (String.eqb x) xs.

(** [STATUS_ORDER.get(s, 0)] *)
Definition order (s : string) : Z := default 0 (STATUS_ORDER !! s).

(** ** State transition guard *)

(** [calls.py: _is_valid_status_transition] *)
Definition _is_valid_status_transition (current new : string) : bool :=
  let current_order := order current in
  let new_order := order new in
  if 10 <=? new_order then true else current_order <=? new_order.

(** [webhook.py: _is_valid_transition] *)
Definition _is_valid_transition (current new : string) : bool :=
  let current_order := order current in
  let new_order := order new in
  if 10 <=? new_order then true else current_order <=? new_order.

(** ** End-reason mapping *)

(** [_map_ended_reason]: the two copies, in [calls.py] and in [webhook.py],
    are the same text. *)
Definition _map_ended_reason (reason current_status : string) : string :=
  let reason_lower :=
    if PyStr.truthy reason
    then PyStr.replace "-" "_" (PyStr.lower reason)
    else "" in
  if PyStr.contains "busy" reason_lower then CallStatus.BUSY
  else if PyStr.contains "no_answer" reason_lower
          || PyStr.contains "did_not_answer" reason_lower
       then CallStatus.NO_ANSWER
  else if PyStr.contains "voicemail" reason_lower then CallStatus.VOICEMAIL
  else if PyStr.contains "error" reason_lower then CallStatus.FAILED
  else if PyStr.contains "silence" reason_lower then CallStatus.COMPLETED
  else if str_in current_status TERMINAL_STATUSES then current_status
  else CallStatus.COMPLETED.

(** The reason as the rules see it: lower case, hyphens as underscores. *)
Definition normalized (reason : string) : string :=
  PyStr.replace "-" "_" (PyStr.lower reason).

(** No keyword of the five rules occurs in the normalized reason. *)
Definition unrecognized (reason : string) : Prop :=
  let r := normalized reason in
  ~ PyStr.Occurs "busy" r /\ ~ PyStr.Occurs "no_answer" r
  /\ ~ PyStr.Occurs "did_not_answer" r /\ ~ PyStr.Occurs "voicemail" r
  /\ ~ PyStr.Occurs "error" r /\ ~ PyStr.Occurs "silence" r.

(** ** JSON values *)

#[warnings="-register-all"]
Inductive json : Type :=
| JNull
| JBool (b : bool)
| JNum (n : Z)
| JStr (s : string)
| JArr (items : list json)
| JObj (fields : list (string * json)).

Module Json.

(** Python's [bool(v)]. *)
Definition truthy (v : json) : bool :=
  match v with
  | JNull => false
  | JBool b => b
  | JNum n => negb (n =? 0)
  | JStr s => PyStr.truthy s
  | JArr items => match items with [] => false | _ => true end
  | JObj fields => match fields with [] => false | _ => true end
  end.

(** [v is not None] *)
Definition is_not_none (v : json) : bool :=
  match v with JNull => false | _ => true end.

(** [a or b] *)
Definition or_ (a b : json) : json := if truthy a then a else b.

(** [d.get(key)] on an object given by its fields; the keys of a dict are
    distinct, so the first binding found is the binding. *)
Fixpoint lookup_fields (key : string) (fields : list (string * json)) : json :=
  match fields with
  | [] => JNull
  | (k, v) :: rest => if String.eqb k key then v else lookup_fields key rest
  end.

End Json.

(** Equality of JSON values is decidable; the maps that hold them compare
    with [decide]. *)
Fixpoint json_eq_dec (a b : json) {struct a} : {a = b} + {a <> b}.
Proof.
  decide equality.
  - apply bool_dec.
  - apply Z.eq_dec.
  - apply string_dec.
  - apply (List.list_eq_dec json_eq_dec).
  - apply List.list_eq_dec. decide equality. apply string_dec.
Defined.

#[global] Instance json_eqdec : EqDecision json := json_eq_dec.

(** ** calls/models.py: Call *)

(** One row of [bdc_calls], and equally one in-memory [Call] instance.  The
    columns [outcome] and [created_at] are left out: no code below reads or
    writes them. *)
Record Call : Type := mkCall {
  pk : string;
  user : string;
  contact : string;
  script_id : option string;
  vapi_call_id : option string;
  assistant_id : string;
  phone_number_id : option string;
  status : string;
  transcript : option string;
  summary : option string;
  analysis : option (gmap string json);
  started_at : option Z;
  ended_at : option Z;
  duration_seconds : option Z;
  metadata : option (gmap string json);
  error_message : option string;
  updated_at : Z
}.

(** Attribute assignment [call.f = v], one function per assigned attribute. *)
Definition set_vapi_call_id (v : option string) (c : Call) : Call :=
  {| pk := pk c; user := user c; contact := contact c;
     script_id := script_id c; vapi_call_id := v;
     assistant_id := assistant_id c;
     phone_number_id := phone_number_id c; status := status c;
     transcript := transcript c; summary := summary c;
     analysis := analysis c; started_at := started_at c;
     ended_at := ended_at c; duration_seconds := duration_seconds c;
     metadata := metadata c; error_message := error_message c;
     updated_at := updated_at c |}.

Definition set_status (v : string) (c : Call) : Call :=
  {| pk := pk c; user := user c; contact := contact c;
     script_id := script_id c; vapi_call_id := vapi_call_id c;
     assistant_id := assistant_id c;
     phone_number_id := phone_number_id c; status := v;
     transcript := transcript c; summary := summary c;
     analysis := analysis c; started_at := started_at c;
     ended_at := ended_at c; duration_seconds := duration_seconds c;
     metadata := metadata c; error_message := error_message c;
     updated_at := updated_at c |}.

Definition set_transcript (v : option string) (c : Call) : Call :=
  {| pk := pk c; user := user c; contact := contact c;
     script_id := script_id c; vapi_call_id := vapi_call_id c;
     assistant_id := assistant_id c;
     phone_number_id := phone_number_id c; status := status c;
     transcript := v; summary := summary c; analysis := analysis c;
     started_at := started_at c; ended_at := ended_at c;
     duration_seconds := duration_seconds c; metadata := metadata c;
     error_message := error_message c; updated_at := updated_at c |}.

Definition set_summary (v : option string) (c : Call) : Call :=
  {| pk := pk c; user := user c; contact := contact c;
     script_id := script_id c; vapi_call_id := vapi_call_id c;
     assistant_id := assistant_id c;
     phone_number_id := phone_number_id c; status := status c;
     transcript := transcript c; summary := v; analysis := analysis c;
     started_at := started_at c; ended_at := ended_at c;
     duration_seconds := duration_seconds c; metadata := metadata c;
     error_message := error_message c; updated_at := updated_at c |}.

Definition set_analysis (v : option (gmap string json)) (c : Call) : Call :=
  {| pk := pk c; user := user c; contact := contact c;
     script_id := script_id c; vapi_call_id := vapi_call_id c;
     assistant_id := assistant_id c;
     phone_number_id := phone_number_id c; status := status c;
     transcript := transcript c; summary := summary c; analysis := v;
     started_at := started_at c; ended_at := ended_at c;
     duration_seconds := duration_seconds c; metadata := metadata c;
     error_message := error_message c; updated_at := updated_at c |}.

Definition set_started_at (v : option Z) (c : Call) : Call :=
  {| pk := pk c; user := user c; contact := contact c;
     script_id := script_id c; vapi_call_id := vapi_call_id c;
     assistant_id := assistant_id c;
     phone_number_id := phone_number_id c; status := status c;
     transcript := transcript c; summary := summary c;
     analysis := analysis c; started_at := v; ended_at := ended_at c;
     duration_seconds := duration_seconds c; metadata := metadata c;
     error_message := error_message c; updated_at := updated_at c |}.

Definition set_ended_at (v : option Z) (c : Call) : Call :=
  {| pk := pk c; user := user c; contact := contact c;
     script_id := script_id c; vapi_call_id := vapi_call_id c;
     assistant_id := assistant_id c;
     phone_number_id := phone_number_id c; status := status c;
     transcript := transcript c; summary := summary c;
     analysis := analysis c; started_at := started_at c; ended_at := v;
     duration_seconds := duration_seconds c; metadata := metadata c;
     error_message := error_message c; updated_at := updated_at c |}.

Definition set_duration_seconds (v : option Z) (c : Call) : Call :=
  {| pk := pk c; user := user c; contact := contact c;
     script_id := script_id c; vapi_call_id := vapi_call_id c;
     assistant_id := assistant_id c;
     phone_number_id := phone_number_id c; status := status c;
     transcript := transcript c; summary := summary c;
     analysis := analysis c; started_at := started_at c;
     ended_at := ended_at c; duration_seconds := v;
     metadata := metadata c; error_message := error_message c;
     updated_at := updated_at c |}.

Definition set_metadata (v : option (gmap string json)) (c : Call) : Call :=
  {| pk := pk c; user := user c; contact := contact c;
     script_id := script_id c; vapi_call_id := vapi_call_id c;
     assistant_id := assistant_id c;
     phone_number_id := phone_number_id c; status := status c;
     transcript := transcript c; summary := summary c;
     analysis := analysis c; started_at := started_at c;
     ended_at := ended_at c; duration_seconds := duration_seconds c;
     metadata := v; error_message := error_message c;
     updated_at := updated_at c |}.

Definition set_error_message (v : option string) (c : Call) : Call :=
  {| pk := pk c; user := user c; contact := contact c;
     script_id := script_id c; vapi_call_id := vapi_call_id c;
     assistant_id := assistant_id c;
     phone_number_id := phone_number_id c; status := status c;
     transcript := transcript c; summary := summary c;
     analysis := analysis c; started_at := started_at c;
     ended_at := ended_at c; duration_seconds := duration_seconds c;
     metadata := metadata c; error_message := v;
     updated_at := updated_at c |}.

Definition set_updated_at (v : Z) (c : Call) : Call :=
  {| pk := pk c; user := user c; contact := contact c;
     script_id := script_id c; vapi_call_id := vapi_call_id c;
     assistant_id := assistant_id c;
     phone_number_id := phone_number_id c; status := status c;
     transcript := transcript c; summary := summary c;
     analysis := analysis c; started_at := started_at c;
     ended_at := ended_at c; duration_seconds := duration_seconds c;
     metadata := metadata c; error_message := error_message c;
     updated_at := v |}.

(** Truth values of model attributes, as Python's [not] and [and] read them. *)
Definition dict_truthy (d : option (gmap string json)) : bool :=
  match d with Some m => negb (bool_decide (m = ∅)) | None => false end.

Definition int_truthy (n : option Z) : bool :=
  match n with Some k => negb (k =? 0) | None => false end.

Definition is_set {A : Type} (o : option A) : bool :=
  match o with Some _ => true | None => false end.

(** ** calls/exceptions.py *)

Inductive Exc : Type :=
| MaxActiveCallsError (detail : string)
| ContactNotFoundError (detail : string)
| ScriptNotFoundError (detail : string)
| CallNotFoundError (detail : string)
| CallNotCancellableError (detail : string)
| VapiAPIError (detail : string)
| OtherException (text : string).

(** [str(exc)] *)
Definition str_of_exc (e : Exc) : string :=
  match e with
  | MaxActiveCallsError d | ContactNotFoundError d | ScriptNotFoundError d
  | CallNotFoundError d | CallNotCancellableError d | VapiAPIError d
  | OtherException d => d
  end.

(** A computation that returns a value or raises. *)
Inductive Outcome (A : Type) : Type :=
| Returned (value : A)
| Raised (exc : Exc).
Arguments Returned {A} value.
Arguments Raised {A} exc.

Definition bind {A B : Type} (o : Outcome A) (k : A -> Outcome B) : Outcome B :=
  match o with
  | Returned a => k a
  | Raised e => Raised e
  end.

Notation "'let*' x ':=' o 'in' k" := (bind o (fun x => k))
  (at level 10, x name, o at level 100, k at level 200).

(** The value returned, or [d] when the computation raised. *)
Definition returned_or {A : Type} (d : A) (o : Outcome A) : A :=
  match o with
  | Returned a => a
  | Raised _ => d
  end.

(** ** Method calls on values of open shape *)

(** [type(v).__name__] *)
Definition type_name (v : json) : string :=
  match v with
  | JNull => "NoneType"
  | JBool _ => "bool"
  | JNum _ => "int"
  | JStr _ => "str"
  | JArr _ => "list"
  | JObj _ => "dict"
  end.

(** The [AttributeError] of [v.attribute] on a value without it. *)
Definition AttributeError (v : json) (attribute : string) : Exc :=
  OtherException
    ("'" ++ type_name v ++ "' object has no attribute '" ++ attribute ++ "'").

(** [v.get(key)]: among JSON values only a dict has [get]. *)
Definition attr_get (key : string) (v : json) : Outcome json :=
  match v with
  | JObj fields => Returned (Json.lookup_fields key fields)
  | _ => Raised (AttributeError v "get")
  end.

(** The string on which [(v or "").method()] calls [method], a method of
    [str]: [""] for a falsy [v], [v] itself for a string, and for any other
    value the call raises. *)
Definition str_or_empty (method : string) (v : json) : Outcome string :=
  if Json.truthy v then
    match v with
    | JStr s => Returned s
    | _ => Raised (AttributeError v method)
    end
  else Returned "".

(** ** Timestamps of a payload *)

(** A timestamp slot: absent, null or empty; a string that
    [parse_datetime] turns into a [datetime]; a string that is not well
    formatted, for which it returns [None]; a string that is well formatted
    and not a date, for which it raises [ValueError] with that text. *)
Inductive Stamp : Type :=
| NoStamp
| Instant (t : Z)
| Unformatted
| NotADate (detail : string).

(** [bool(raw)] *)
Definition stamp_truthy (raw : Stamp) : bool :=
  match raw with NoStamp => false | _ => true end.

(** [django.utils.dateparse.parse_datetime] *)
Definition parse_datetime (raw : Stamp) : Outcome (option Z) :=
  match raw with
  | Instant t => Returned (Some t)
  | NoStamp | Unformatted => Returned None
  | NotADate detail => Raised (OtherException detail)
  end.

(** [webhook.py: _parse_ts]: [None] for [None], and for what
    [parse_datetime] raises on. *)
Definition _parse_ts (value : Stamp) : option Z :=
  match value with
  | NoStamp => None
  | _ =>
      match parse_datetime value with
      | Returned t => t
      | Raised _ => None
      end
  end.

(** The slot that holds the instant [t], or nothing. *)
Definition stamp (t : option Z) : Stamp :=
  match t with Some t => Instant t | None => NoStamp end.

(** ** Provider payloads *)

(** The [artifact] object.  [structuredOutputs] is a dict [{id: {name,
    result}}]; it is kept as the list of its items in insertion order, the
    order in which [.values()] yields them. *)
Record Artifact : Type := mkArtifact {
  art_transcript : option string;
  art_structuredOutputs : list (string * json)
}.

(** The response of [GET /call/{id}], top-level keys.  A string that the
    code reads with a default and only tests or compares ([status],
    [endedReason]) is [""] when absent or null; an absent object is the
    empty one. *)
Record VapiData : Type := mkVapiData {
  v_status : string;
  v_endedReason : string;
  v_startedAt : Stamp;
  v_endedAt : Stamp;
  v_transcript : option string;
  v_summary : option string;
  v_analysis : gmap string json;
  v_artifact : Artifact;
  v_recordingUrl : json;
  v_stereoRecordingUrl : json;
  v_messages : json;
  v_cost : json;
  v_costBreakdown : json
}.

(** The [message.call] object of a webhook. *)
Record CallData : Type := mkCallData {
  cd_id : string;
  cd_analysis : gmap string json;
  cd_recordingUrl : json;
  cd_stereoRecordingUrl : json;
  cd_messages : json;
  cd_cost : json;
  cd_costBreakdown : json;
  cd_startedAt : Stamp;
  cd_endedAt : Stamp
}.

(** The [message] object of a webhook. *)
Record Message : Type := mkMessage {
  m_type : string;
  m_call : CallData;
  m_status : string;
  m_timestamp : Stamp;
  m_artifact : Artifact;
  m_endedReason : string;
  m_transcript : option string;
  m_summary : option string;
  m_analysis : gmap string json;
  m_recordingUrl : json;
  m_stereoRecordingUrl : json;
  m_messages : json;
  m_cost : json;
  m_costBreakdown : json
}.

(** ** Summary extraction *)

(** [(entry.get("result") or "").strip()] for one entry of the outputs. *)
Definition output_result (entry : json) : Outcome string :=
  let* result := attr_get "result" entry in
  let* text := str_or_empty "strip" result in
  Returned (PyStr.strip text).

(** ["summary" in (entry.get("name") or "").lower()] *)
Definition output_is_summary (entry : json) : Outcome bool :=
  let* name := attr_get "name" entry in
  let* text := str_or_empty "lower" name in
  Returned (PyStr.contains "summary" (PyStr.lower text)).

(** The loop over [outputs.values()] shared by [_extract_summary] and
    [_extract_summary_from_webhook]; [fallback] is the loop variable. *)
Fixpoint scan_outputs (outputs : list (string * json)) (fallback : string)
    : Outcome string :=
  match outputs with
  | [] => Returned fallback
  | (_, entry) :: rest =>
      let* result := output_result entry in
      if negb (PyStr.truthy result) then scan_outputs rest fallback
      else
        let* is_summary := output_is_summary entry in
        if is_summary then Returned result
        else if negb (PyStr.truthy fallback) then scan_outputs rest result
        else scan_outputs rest fallback
  end.

(** [d.get(key)] on a dict held as a [gmap]. *)
Definition dict_get (key : string) (d : gmap string json) : json :=
  default JNull (d !! key).

(** [calls.py: _extract_summary] *)
Definition _extract_summary (vapi_data : VapiData) (artifact : Artifact)
    : Outcome string :=
  let s := PyStr.strip (PyStr.or_empty (v_summary vapi_data)) in
  if PyStr.truthy s then Returned s
  else
    let* text := str_or_empty "strip" (dict_get "summary" (v_analysis vapi_data)) in
    let s := PyStr.strip text in
    if PyStr.truthy s then Returned s
    else scan_outputs (art_structuredOutputs artifact) "".

(** [webhook.py: _extract_summary_from_webhook] *)
Definition _extract_summary_from_webhook (message : Message) (artifact : Artifact)
    : Outcome string :=
  let s := PyStr.strip (PyStr.or_empty (m_summary message)) in
  if PyStr.truthy s then Returned s
  else
    let* text := str_or_empty "strip" (dict_get "summary" (m_analysis message)) in
    let s := PyStr.strip text in
    if PyStr.truthy s then Returned s
    else scan_outputs (art_structuredOutputs artifact) "".

(** ** Pieces the two reconcilers have in common *)

(** [merged_analysis]: the analysis object, with the structured outputs
    under the key [structuredOutputs] when there are any. *)
Definition merge_analysis (analysis_obj : gmap string json)
    (structured_outputs : list (string * json)) : gmap string json :=
  let merged := if bool_decide (analysis_obj = ∅) then ∅ else analysis_obj in
  match structured_outputs with
  | [] => merged
  | _ => <["structuredOutputs" := JObj structured_outputs]> merged
  end.

(** [if v: d[key] = v] *)
Definition put_if_truthy (key : string) (v : json) (d : gmap string json) : gmap string json :=
  if Json.truthy v then <[key := v]> d else d.

(** [if v is not None: d[key] = v] *)
Definition put_if_not_none (key : string) (v : json) (d : gmap string json) : gmap string json :=
  if Json.is_not_none v then <[key := v]> d else d.

(** [enriched_meta], from the five values read off the payload. *)
Definition enrich_meta (base : gmap string json)
    (recording_url stereo_url msgs cost cost_breakdown : json) : gmap string json :=
  put_if_truthy "costBreakdown" cost_breakdown
    (put_if_not_none "cost" cost
       (put_if_truthy "messages" msgs
          (put_if_truthy "stereoRecordingUrl" stereo_url
             (put_if_truthy "recordingUrl" recording_url base)))).

(** [max(0, int(delta.total_seconds()))] for [delta = ended - started];
    [int] truncates toward zero. *)
Definition duration_of (started ended : Z) : Z :=
  Z.max 0 (Z.quot (ended - started) 1000000).

(** The mutable state of a handler: the instance and [update_fields]. *)
Definition Work : Type := Call * list string.

(** [if cond: call.f = v; update_fields.append(name)], where the condition
    and the value may read the instance as it is at that point. *)
Definition assign (cond : Call -> bool) (f : Call -> Call) (name : string)
    (w : Work) : Work :=
  if cond (fst w) then (f (fst w), (snd w ++ [name])%list) else w.

(** The closing [Duration] block, the same in both reconcilers. *)
Definition compute_duration (w : Work) : Work :=
  assign
    (fun call => is_set (started_at call) && is_set (ended_at call)
                 && negb (int_truthy (duration_seconds call)))
    (fun call =>
       match started_at call, ended_at call with
       | Some started, Some ended =>
           set_duration_seconds (Some (duration_of started ended)) call
       | _, _ => call
       end)
    "duration_seconds" w.

(** The [Metadata] block, from the five values read off the payload. *)
Definition enrich_metadata
    (recording_url stereo_url msgs cost cost_breakdown : json) (w : Work) : Work :=
  let enriched_meta (call : Call) :=
    enrich_meta (default ∅ (metadata call)) recording_url stereo_url msgs cost
      cost_breakdown in
  assign
    (fun call => negb (bool_decide (enriched_meta call = default ∅ (metadata call))))
    (fun call => set_metadata (Some (enriched_meta call)) call)
    "metadata" w.

(** What a reconciler leaves behind: the instance as it has mutated it, and
    the change list it returns or the exception it raises. *)
Definition Reconciled : Type := Call * Outcome (list string).

(** A step that can raise: the instance stays as it is at that point. *)
Definition attempt {A : Type} (o : Outcome A) (w : Work) (k : A -> Reconciled)
    : Reconciled :=
  match o with
  | Returned a => k a
  | Raised e => (fst w, Raised e)
  end.

(** [return update_fields] *)
Definition returns (w : Work) : Reconciled := (fst w, Returned (snd w)).

(** ** calls.py: _reconcile_call_from_vapi *)

Definition _reconcile_call_from_vapi (call : Call) (vapi_data : VapiData)
    : Reconciled :=
  let artifact := v_artifact vapi_data in
  let analysis_obj := v_analysis vapi_data in
  (* Status *)
  let vapi_status := v_status vapi_data in
  let new_status :=
    if String.eqb vapi_status "ended"
    then _map_ended_reason (v_endedReason vapi_data) (status call)
    else if PyStr.truthy vapi_status then vapi_status else status call in
  if negb (_is_valid_status_transition (status call) new_status)
  then (call, Returned [])
  else
    let w : Work := (set_status new_status call, ["status"; "updated_at"]) in
    (* Timestamps *)
    attempt (if stamp_truthy (v_startedAt vapi_data)
             then parse_datetime (v_startedAt vapi_data) else Returned None) w
      (fun started =>
    let w := assign (fun call => is_set started && negb (is_set (started_at call)))
               (set_started_at started) "started_at" w in
    attempt (if stamp_truthy (v_endedAt vapi_data)
             then parse_datetime (v_endedAt vapi_data) else Returned None) w
      (fun ended =>
    let w := assign (fun call => is_set ended && negb (is_set (ended_at call)))
               (set_ended_at ended) "ended_at" w in
    (* Transcript *)
    let transcript_ := PyStr.or_ (v_transcript vapi_data) (art_transcript artifact) in
    let w := assign (fun call => PyStr.truthy_opt transcript_
                                 && negb (PyStr.truthy_opt (transcript call)))
               (set_transcript transcript_) "transcript" w in
    (* Summary *)
    attempt (_extract_summary vapi_data artifact) w (fun summary_ =>
    let w := assign (fun call => PyStr.truthy summary_
                                 && negb (PyStr.truthy_opt (summary call)))
               (set_summary (Some summary_)) "summary" w in
    (* Analysis *)
    let merged_analysis := merge_analysis analysis_obj (art_structuredOutputs artifact) in
    let w := assign (fun call => negb (bool_decide (merged_analysis = ∅))
                                 && negb (dict_truthy (analysis call)))
               (set_analysis (Some merged_analysis)) "analysis" w in
    (* Metadata *)
    let w := enrich_metadata (v_recordingUrl vapi_data) (v_stereoRecordingUrl vapi_data)
               (v_messages vapi_data) (v_cost vapi_data) (v_costBreakdown vapi_data) w in
    (* Duration *)
    returns (compute_duration w)))).

(** ** webhook.py *)

Definition VAPI_STATUS_MAP : gmap string string :=
  list_to_map
    [("queued", CallStatus.QUEUED); ("ringing", CallStatus.RINGING);
     ("in-progress", CallStatus.IN_PROGRESS);
     ("forwarding", CallStatus.IN_PROGRESS); ("ended", CallStatus.COMPLETED)].

(** What [_handle_status_update] does to the instance it has found:
    [None] when it returns before touching it. *)
Definition status_update_apply (call : Call) (message : Message) : option Work :=
  let vapi_status := m_status message in
  match VAPI_STATUS_MAP !! vapi_status with
  | None => None
  | Some new_status =>
      if negb (PyStr.truthy new_status) then None
      else if negb (_is_valid_transition (status call) new_status) then None
      else
        let w : Work := (set_status new_status call, ["status"; "updated_at"]) in
        Some (assign (fun call => String.eqb new_status CallStatus.IN_PROGRESS
                                  && negb (is_set (started_at call)))
                (set_started_at (_parse_ts (m_timestamp message))) "started_at" w)
  end.

(** What [_handle_end_of_call_report] does to the instance it has found,
    up to the call of [save]. *)
Definition end_of_call_report_apply (call : Call) (message : Message) : Reconciled :=
  let artifact := m_artifact message in
  let call_data := m_call message in
  let w : Work := (call, ["updated_at"]) in
  (* Terminal status *)
  let ended_reason := m_endedReason message in
  let new_status := _map_ended_reason ended_reason (status call) in
  let w := assign (fun call => negb (String.eqb new_status (status call)))
             (set_status new_status) "status" w in
  (* Transcript *)
  let transcript_ := PyStr.or_ (m_transcript message) (art_transcript artifact) in
  let w := assign (fun call => PyStr.truthy_opt transcript_
                               && negb (PyStr.truthy_opt (transcript call)))
             (set_transcript transcript_) "transcript" w in
  (* Summary *)
  attempt (_extract_summary_from_webhook message artifact) w (fun summary_ =>
  let w := assign (fun call => PyStr.truthy summary_
                               && negb (PyStr.truthy_opt (summary call)))
             (set_summary (Some summary_)) "summary" w in
  (* Analysis *)
  let analysis_obj :=
    if negb (bool_decide (m_analysis message = ∅)) then m_analysis message
    else cd_analysis call_data in
  let merged_analysis := merge_analysis analysis_obj (art_structuredOutputs artifact) in
  let w := assign (fun call => negb (bool_decide (merged_analysis = ∅))
                               && negb (dict_truthy (analysis call)))
             (set_analysis (Some merged_analysis)) "analysis" w in
  (* Metadata *)
  let recording_url := Json.or_ (m_recordingUrl message) (cd_recordingUrl call_data) in
  let stereo_url :=
    Json.or_ (m_stereoRecordingUrl message) (cd_stereoRecordingUrl call_data) in
  let msgs := Json.or_ (m_messages message) (cd_messages call_data) in
  let cost :=
    if Json.is_not_none (cd_cost call_data) then cd_cost call_data
    else m_cost message in
  let cost_breakdown :=
    Json.or_ (cd_costBreakdown call_data) (m_costBreakdown message) in
  let w := enrich_metadata recording_url stereo_url msgs cost cost_breakdown w in
  (* Timestamps *)
  let started_at_ := _parse_ts (cd_startedAt call_data) in
  let w := assign (fun call => is_set started_at_ && negb (is_set (started_at call)))
             (set_started_at started_at_) "started_at" w in
  let ended_at_ := _parse_ts (cd_endedAt call_data) in
  let w := assign (fun call => is_set ended_at_ && negb (is_set (ended_at call)))
             (set_ended_at ended_at_) "ended_at" w in
  (* Duration *)
  returns (compute_duration w)).

(** ** The table of calls *)

(** [x in update_fields] selects the new value of a column. *)
Definition column {A : Type} (update_fields : list string) (name : string)
    (new old : A) : A :=
  if str_in name update_fields then new else old.

(** The row after [UPDATE ... SET] of the columns in [update_fields], taken
    from the instance [obj]. *)
Definition write_fields (update_fields : list string) (obj row : Call) : Call :=
  {| pk := pk row; user := user row; contact := contact row;
     script_id := script_id row;
     vapi_call_id := column update_fields "vapi_call_id" (vapi_call_id obj) (vapi_call_id row);
     assistant_id := assistant_id row;
     phone_number_id := phone_number_id row;
     status := column update_fields "status" (status obj) (status row);
     transcript := column update_fields "transcript" (transcript obj) (transcript row);
     summary := column update_fields "summary" (summary obj) (summary row);
     analysis := column update_fields "analysis" (analysis obj) (analysis row);
     started_at := column update_fields "started_at" (started_at obj) (started_at row);
     ended_at := column update_fields "ended_at" (ended_at obj) (ended_at row);
     duration_seconds :=
       column update_fields "duration_seconds" (duration_seconds obj) (duration_seconds row);
     metadata := column update_fields "metadata" (metadata obj) (metadata row);
     error_message :=
       column update_fields "error_message" (error_message obj) (error_message row);
     updated_at := column update_fields "updated_at" (updated_at obj) (updated_at row) |}.

(** [auto_now]: saving the column [updated_at] stamps the instance first. *)
Definition pre_save (now : Z) (update_fields : list string) (call : Call) : Call :=
  if str_in "updated_at" update_fields then set_updated_at now call else call.

(** [call.save(update_fields=...)]: the instance after the call, and the
    table. *)
Definition save (now : Z) (update_fields : list string) (call : Call)
    (db : list Call) : Call * list Call :=
  let call := pre_save now update_fields call in
  (call,
   map (fun row =>
          if String.eqb (pk row) (pk call) then write_fields update_fields call row
          else row) db).

(** The row [Call.objects.get(id=call_id, user=user)] finds. *)
Definition row_of (call_id user_ : string) (db : list Call) : option Call :=
  List.find (fun c => String.eqb (pk c) call_id && String.eqb (user c) user_) db.

(** [calls.py: find_by_vapi_call_id] *)
Definition find_by_vapi_call_id (db : list Call) (vapi_call_id_ : string) : option Call :=
  List.find (fun c => bool_decide (vapi_call_id c = Some vapi_call_id_)) db.

(** ** calls/models.py: Contact, CallScript *)

Record Contact : Type := mkContact {
  contact_pk : string;
  contact_user : string;
  contact_name : string;
  contact_phone : string
}.

Record CallScript : Type := mkCallScript {
  script_pk : string;
  script_user : string;
  script_custom_prompt : option string;
  script_first_message : option string;
  script_call_goals : json
}.

(** The keyword arguments of [vapi.create_outbound_call]. *)
Record OutboundCall : Type := mkOutboundCall {
  oc_assistant_id : string;
  oc_phone_number_id : string;
  oc_customer_number : string;
  oc_customer_name : string;
  oc_custom_prompt : option string;
  oc_first_message : option string;
  oc_call_goals : json;
  oc_metadata : gmap string json
}.

(** A request made to the provider. *)
Inductive Request : Type :=
| CreateCallRequest (payload : OutboundCall)
| GetCallRequest (vapi_call_id_ : string)
| StopCallRequest (vapi_call_id_ : string).

(** What a service function leaves behind: the table of calls, the requests
    it made to the provider, in order, and its result. *)
Record Served (A : Type) : Type := mkServed {
  table : list Call;
  requests : list Request;
  outcome : Outcome A
}.
Arguments mkServed {A} table requests outcome.
Arguments table {A} _.
Arguments requests {A} _.
Arguments outcome {A} _.

(** ** webhook.py: the handlers *)

(** [{"ok": True}], the answer of every handler that returns; a handler
    makes no request to the provider. *)
Definition acknowledged (db : list Call) : Served unit :=
  mkServed db [] (Returned tt).

(** [webhook.py: _handle_status_update] *)
Definition _handle_status_update (now : Z) (vapi_call_id_ : string)
    (message : Message) (db : list Call) : Served unit :=
  match VAPI_STATUS_MAP !! m_status message with
  | None => acknowledged db
  | Some new_status =>
      if negb (PyStr.truthy new_status) then acknowledged db
      else if negb (PyStr.truthy vapi_call_id_) then acknowledged db
      else
        match find_by_vapi_call_id db vapi_call_id_ with
        | None => acknowledged db
        | Some call =>
            match status_update_apply call message with
            | None => acknowledged db
            | Some (call', update_fields) =>
                acknowledged (snd (save now update_fields call' db))
            end
        end
  end.

(** [webhook.py: _handle_end_of_call_report]; an exception raised while the
    report is read leaves the handler before [save]. *)
Definition _handle_end_of_call_report (now : Z) (vapi_call_id_ : string)
    (message : Message) (db : list Call) : Served unit :=
  if negb (PyStr.truthy vapi_call_id_) then acknowledged db
  else
    match find_by_vapi_call_id db vapi_call_id_ with
    | None => acknowledged db
    | Some call =>
        match end_of_call_report_apply call message with
        | (_, Raised e) => mkServed db [] (Raised e)
        | (call', Returned update_fields) =>
            acknowledged (snd (save now update_fields call' db))
        end
    end.

(** [webhook.py: _handle_ignored] *)
Definition _handle_ignored (now : Z) (vapi_call_id_ : string)
    (message : Message) (db : list Call) : Served unit := acknowledged db.

(** [webhook.py: handle_webhook], with the registry [_HANDLERS] as a match. *)
Definition handle_webhook (now : Z) (message : Message) (db : list Call) : Served unit :=
  let event_type := m_type message in
  let vapi_call_id_ := cd_id (m_call message) in
  let handler :=
    if String.eqb event_type "status-update" then _handle_status_update
    else if String.eqb event_type "end-of-call-report" then _handle_end_of_call_report
    else _handle_ignored in
  handler now vapi_call_id_ message db.

(** ** calls.py: the service functions *)

Section Services.

(** The telephony provider, [calls/services/vapi.py], seen from the
    services: each request answers or raises.  [create_outbound_call]
    answers the [id] of the response, if it has one. *)
Variable vapi_create_outbound_call : OutboundCall -> Outcome (option string).
Variable vapi_get_call : string -> Outcome VapiData.
Variable vapi_end_call : string -> Outcome unit.

(** [_get_active_call_count] *)
Definition _get_active_call_count (db : list Call) (user_ : string) : Z :=
  Z.of_nat
    (length (List.filter (fun c => String.eqb (user c) user_
                                   && str_in (status c) ACTIVE_STATUSES) db)).

(** The [Resolve script] block of [create_call]: the prompt, first message
    and goals the provider is given. *)
Definition resolve_script (scripts : list CallScript) (user_ : string)
    (script_id_ custom_prompt first_message : option string) (call_goals : json)
    : Outcome (option string * option string * json) :=
  match script_id_ with
  | Some sid =>
      if PyStr.truthy sid then
        match List.find (fun k => String.eqb (script_pk k) sid
                                 && String.eqb (script_user k) user_) scripts with
        | None => Raised (ScriptNotFoundError ("Script " ++ sid ++ " not found."))
        | Some script =>
            Returned (PyStr.or_ custom_prompt (script_custom_prompt script),
                      PyStr.or_ first_message (script_first_message script),
                      Json.or_ call_goals (script_call_goals script))
        end
      else Returned (custom_prompt, first_message, call_goals)
  | None => Returned (custom_prompt, first_message, call_goals)
  end.

(** The row [Call.objects.create] inserts in [create_call]. *)
Definition pending_call (now : Z) (new_id user_ contact_ assistant_id_ phone_number_id_ : string)
    (script_id_ : option string) (metadata_ : option (gmap string json)) : Call :=
  {| pk := new_id; user := user_; contact := contact_;
     script_id := script_id_; vapi_call_id := None;
     assistant_id := assistant_id_;
     phone_number_id := Some phone_number_id_;
     status := CallStatus.PENDING; transcript := None;
     summary := None; analysis := None; started_at := None;
     ended_at := None; duration_seconds := None;
     metadata := metadata_; error_message := None;
     updated_at := now |}.

(** [create_call].  [new_id] is the primary key the insert draws. *)
Definition create_call (now : Z) (new_id : string)
    (contacts : list Contact) (scripts : list CallScript)
    (user_ contact_id assistant_id_ phone_number_id_ : string)
    (script_id_ custom_prompt first_message : option string)
    (call_goals : json) (metadata_ : option (gmap string json))
    (db : list Call) : Served Call :=
  (* Rate-limit check *)
  let active_count := _get_active_call_count db user_ in
  if MAX_PENDING_CALLS <=? active_count then
    mkServed db [] (Raised (MaxActiveCallsError
       "You can only have 2 active calls at a time. Please wait for existing calls to complete."))
  else
    (* Resolve contact *)
    match List.find (fun k => String.eqb (contact_pk k) contact_id
                             && String.eqb (contact_user k) user_) contacts with
    | None =>
        mkServed db []
          (Raised (ContactNotFoundError ("Contact " ++ contact_id ++ " not found.")))
    | Some contact_ =>
        (* Resolve script (optional) *)
        match resolve_script scripts user_ script_id_ custom_prompt first_message
                call_goals with
        | Raised e => mkServed db [] (Raised e)
        | Returned (custom_prompt, first_message, call_goals) =>
            (* Persist pending call *)
            let call :=
              pending_call now new_id user_ (contact_pk contact_) assistant_id_
                phone_number_id_ script_id_ metadata_ in
            let db := (db ++ [call])%list in
            (* Trigger Vapi *)
            let payload :=
              {| oc_assistant_id := assistant_id_;
                 oc_phone_number_id := phone_number_id_;
                 oc_customer_number := contact_phone contact_;
                 oc_customer_name := contact_name contact_;
                 oc_custom_prompt := custom_prompt;
                 oc_first_message := first_message;
                 oc_call_goals := call_goals;
                 oc_metadata :=
                   <["userId" := JStr user_]>
                     (<["contactId" := JStr (contact_pk contact_)]>
                        (<["internalCallId" := JStr (pk call)]>
                           (default ∅ metadata_))) |} in
            match vapi_create_outbound_call payload with
            | Returned response_id =>
                let call := set_vapi_call_id response_id call in
                let call := set_status CallStatus.QUEUED call in
                let '(call, db) :=
                  save now ["vapi_call_id"; "status"; "updated_at"] call db in
                mkServed db [CreateCallRequest payload] (Returned call)
            | Raised exc =>
                let call := set_status CallStatus.FAILED call in
                let call := set_error_message (Some (str_of_exc exc)) call in
                let '(call, db) :=
                  save now ["status"; "error_message"; "updated_at"] call db in
                mkServed db [CreateCallRequest payload] (Raised exc)
            end
        end
    end.

(** [get_call]: the lookup, then the opportunistic sync, whose exceptions
    are caught: those of the request, and those of the reconciler, which has
    then mutated the instance it was given. *)
Definition get_call (now : Z) (call_id user_ : string) (db : list Call)
    : Served Call :=
  match List.find (fun c => String.eqb (pk c) call_id
                           && String.eqb (user c) user_) db with
  | None =>
      mkServed db [] (Raised (CallNotFoundError ("Call " ++ call_id ++ " not found.")))
  | Some call =>
      if str_in (status call) ACTIVE_STATUSES && PyStr.truthy_opt (vapi_call_id call)
      then
        let vid := PyStr.or_empty (vapi_call_id call) in
        match vapi_get_call vid with
        | Raised _ => mkServed db [GetCallRequest vid] (Returned call)
        | Returned vapi_data =>
            match _reconcile_call_from_vapi call vapi_data with
            | (call, Raised _) =>
                (* except Exception: the instance is as the reconciler left it *)
                mkServed db [GetCallRequest vid] (Returned call)
            | (call, Returned []) => mkServed db [GetCallRequest vid] (Returned call)
            | (call, Returned update_fields) =>
                let '(call, db) := save now update_fields call db in
                mkServed db [GetCallRequest vid] (Returned call)
            end
        end
      else mkServed db [] (Returned call)
  end.

(** [cancel_call] *)
Definition cancel_call (now : Z) (call_id user_ : string) (db : list Call)
    : Served Call :=
  let got := get_call now call_id user_ db in
  match outcome got with
  | Raised e => mkServed (table got) (requests got) (Raised e)
  | Returned call =>
      if str_in (status call) TERMINAL_STATUSES then
        mkServed (table got) (requests got)
          (Raised (CallNotCancellableError
             "Cannot cancel a call that is already completed, failed, or cancelled."))
      else if negb (PyStr.truthy_opt (vapi_call_id call)) then
        mkServed (table got) (requests got)
          (Raised (CallNotCancellableError "Call has no provider reference to cancel."))
      else
        let vid := PyStr.or_empty (vapi_call_id call) in
        let sent := (requests got ++ [StopCallRequest vid])%list in
        match vapi_end_call vid with
        | Raised e => mkServed (table got) sent (Raised e)
        | Returned _ =>
            let call := set_status CallStatus.CANCELLED call in
            let '(call, db) := save now ["status"; "updated_at"] call (table got) in
            mkServed db sent (Returned call)
        end
  end.

(** [sync_call_status]: [get_call], then one more poll and reconciliation,
    whatever the status of the call. *)
Definition sync_call_status (now : Z) (call_id user_ : string) (db : list Call)
    : Served Call :=
  let got := get_call now call_id user_ db in
  match outcome got with
  | Raised e => mkServed (table got) (requests got) (Raised e)
  | Returned call =>
      if negb (PyStr.truthy_opt (vapi_call_id call)) then
        mkServed (table got) (requests got)
          (Raised (CallNotCancellableError "Call has no provider reference to sync."))
      else
        let vid := PyStr.or_empty (vapi_call_id call) in
        let sent := (requests got ++ [GetCallRequest vid])%list in
        match vapi_get_call vid with
        | Raised e => mkServed (table got) sent (Raised e)
        | Returned vapi_data =>
            match _reconcile_call_from_vapi call vapi_data with
            | (_, Raised e) => mkServed (table got) sent (Raised e)
            | (call, Returned []) => mkServed (table got) sent (Returned call)
            | (call, Returned update_fields) =>
                let '(call, db) := save now update_fields call (table got) in
                mkServed db sent (Returned call)
            end
        end
  end.

End Services.

(** ** What a reconciliation leaves in the instance *)

(** The conditions under which a value read off the payload is taken. *)
Definition takes_transcript (call : Call) (transcript_ : option string) : bool :=
  PyStr.truthy_opt transcript_ && negb (PyStr.truthy_opt (transcript call)).

Definition takes_summary (call : Call) (summary_ : string) : bool :=
  PyStr.truthy summary_ && negb (PyStr.truthy_opt (summary call)).

Definition takes_analysis (call : Call) (merged_analysis : gmap string json) : bool :=
  negb (bool_decide (merged_analysis = ∅)) && negb (dict_truthy (analysis call)).

Definition takes_metadata (call : Call) (enriched_meta : gmap string json) : bool :=
  negb (bool_decide (enriched_meta = default ∅ (metadata call))).

Definition takes_time (current incoming : option Z) : bool :=
  is_set incoming && negb (is_set current).

Definition merged_time (current incoming : option Z) : option Z :=
  if takes_time current incoming then incoming else current.

Definition takes_duration (call : Call) (started ended : option Z) : bool :=
  is_set (merged_time (started_at call) started)
  && is_set (merged_time (ended_at call) ended)
  && negb (int_truthy (duration_seconds call)).

(** The instance after one snapshot has been folded in, in closed form:
    [new_status] is the status written, the other arguments are the values
    the handler has read off the payload.  Both reconcilers are shown
    below to compute exactly this. *)
Definition folded (call : Call) (new_status : string)
    (transcript_ : option string) (summary_ : string)
    (merged_analysis enriched_meta : gmap string json)
    (started ended : option Z) : Call :=
  {| pk := pk call; user := user call; contact := contact call;
     script_id := script_id call; vapi_call_id := vapi_call_id call;
     assistant_id := assistant_id call;
     phone_number_id := phone_number_id call;
     status := new_status;
     transcript :=
       if takes_transcript call transcript_ then transcript_ else transcript call;
     summary :=
       if takes_summary call summary_ then Some summary_ else summary call;
     analysis :=
       if takes_analysis call merged_analysis then Some merged_analysis
       else analysis call;
     started_at := merged_time (started_at call) started;
     ended_at := merged_time (ended_at call) ended;
     duration_seconds :=
       match merged_time (started_at call) started,
             merged_time (ended_at call) ended with
       | Some s, Some e =>
           if negb (int_truthy (duration_seconds call))
           then Some (duration_of s e) else duration_seconds call
       | _, _ => duration_seconds call
       end;
     metadata :=
       if takes_metadata call enriched_meta then Some enriched_meta
       else metadata call;
     error_message := error_message call;
     updated_at := updated_at call |}.

(** [[name]] when the column was assigned, [[]] otherwise. *)
Definition named (assigned : bool) (name : string) : list string :=
  if assigned then [name] else [].

(** The status the pull reconciler is about to write. *)
Definition pull_status (call : Call) (vapi_data : VapiData) : string :=
  if String.eqb (v_status vapi_data) "ended"
  then _map_ended_reason (v_endedReason vapi_data) (status call)
  else if PyStr.truthy (v_status vapi_data) then v_status vapi_data
       else status call.

Definition pull_transcript (vapi_data : VapiData) : option string :=
  PyStr.or_ (v_transcript vapi_data) (art_transcript (v_artifact vapi_data)).

Definition pull_analysis (vapi_data : VapiData) : gmap string json :=
  merge_analysis (v_analysis vapi_data) (art_structuredOutputs (v_artifact vapi_data)).

Definition pull_meta (call : Call) (vapi_data : VapiData) : gmap string json :=
  enrich_meta (default ∅ (metadata call)) (v_recordingUrl vapi_data)
    (v_stereoRecordingUrl vapi_data) (v_messages vapi_data) (v_cost vapi_data)
    (v_costBreakdown vapi_data).

(** The two timestamps and the summary the pull reconciler reads, when
    reading them does not raise. *)
Definition pull_started (vapi_data : VapiData) : option Z :=
  _parse_ts (v_startedAt vapi_data).

Definition pull_ended (vapi_data : VapiData) : option Z :=
  _parse_ts (v_endedAt vapi_data).

Definition pull_summary (vapi_data : VapiData) : string :=
  returned_or "" (_extract_summary vapi_data (v_artifact vapi_data)).

(** The exception the pull reconciler raises on a payload that passes the
    guard: that of the first of its three steps that can raise. *)
Definition pull_raises (vapi_data : VapiData) : option Exc :=
  match parse_datetime (v_startedAt vapi_data) with
  | Raised e => Some e
  | Returned _ =>
      match parse_datetime (v_endedAt vapi_data) with
      | Raised e => Some e
      | Returned _ =>
          match _extract_summary vapi_data (v_artifact vapi_data) with
          | Raised e => Some e
          | Returned _ => None
          end
      end
  end.

(** The instance and the list [_reconcile_call_from_vapi] returns when the
    guard lets the snapshot through and nothing raises. *)
Definition pull_instance (call : Call) (vapi_data : VapiData) : Call :=
  folded call (pull_status call vapi_data) (pull_transcript vapi_data)
    (pull_summary vapi_data) (pull_analysis vapi_data)
    (pull_meta call vapi_data) (pull_started vapi_data) (pull_ended vapi_data).

Definition pull_fields (call : Call) (vapi_data : VapiData) : list string :=
  (["status"; "updated_at"]
   ++ named (takes_time (started_at call) (pull_started vapi_data)) "started_at"
   ++ named (takes_time (ended_at call) (pull_ended vapi_data)) "ended_at"
   ++ named (takes_transcript call (pull_transcript vapi_data)) "transcript"
   ++ named (takes_summary call (pull_summary vapi_data)) "summary"
   ++ named (takes_analysis call (pull_analysis vapi_data)) "analysis"
   ++ named (takes_metadata call (pull_meta call vapi_data)) "metadata"
   ++ named (takes_duration call (pull_started vapi_data) (pull_ended vapi_data))
        "duration_seconds")%list.

(** The instance the pull reconciler leaves when it raises: the status is
    assigned, and what was read before the step that raised. *)
Definition pull_partial (call : Call) (vapi_data : VapiData) : Call :=
  let c := set_status (pull_status call vapi_data) call in
  match parse_datetime (v_startedAt vapi_data) with
  | Raised _ => c
  | Returned started =>
      let c := set_started_at (merged_time (started_at call) started) c in
      match parse_datetime (v_endedAt vapi_data) with
      | Raised _ => c
      | Returned ended =>
          let c := set_ended_at (merged_time (ended_at call) ended) c in
          set_transcript
            (if takes_transcript call (pull_transcript vapi_data)
             then pull_transcript vapi_data else transcript call) c
      end
  end.

(** The same for the end-of-call report of the push channel. *)
Definition push_analysis (message : Message) : gmap string json :=
  merge_analysis
    (if negb (bool_decide (m_analysis message = ∅)) then m_analysis message
     else cd_analysis (m_call message))
    (art_structuredOutputs (m_artifact message)).

Definition push_transcript (message : Message) : option string :=
  PyStr.or_ (m_transcript message) (art_transcript (m_artifact message)).

Definition push_meta (call : Call) (message : Message) : gmap string json :=
  let call_data := m_call message in
  enrich_meta (default ∅ (metadata call))
    (Json.or_ (m_recordingUrl message) (cd_recordingUrl call_data))
    (Json.or_ (m_stereoRecordingUrl message) (cd_stereoRecordingUrl call_data))
    (Json.or_ (m_messages message) (cd_messages call_data))
    (if Json.is_not_none (cd_cost call_data) then cd_cost call_data
     else m_cost message)
    (Json.or_ (cd_costBreakdown call_data) (m_costBreakdown message)).

Definition push_status (call : Call) (message : Message) : string :=
  _map_ended_reason (m_endedReason message) (status call).

Definition push_summary (message : Message) : string :=
  returned_or "" (_extract_summary_from_webhook message (m_artifact message)).

Definition push_started (message : Message) : option Z :=
  _parse_ts (cd_startedAt (m_call message)).

Definition push_ended (message : Message) : option Z :=
  _parse_ts (cd_endedAt (m_call message)).

(** The exception the report handler raises while it reads the report. *)
Definition push_raises (message : Message) : option Exc :=
  match _extract_summary_from_webhook message (m_artifact message) with
  | Raised e => Some e
  | Returned _ => None
  end.

Definition push_instance (call : Call) (message : Message) : Call :=
  folded call (push_status call message) (push_transcript message)
    (push_summary message) (push_analysis message) (push_meta call message)
    (push_started message) (push_ended message).

Definition push_fields (call : Call) (message : Message) : list string :=
  (["updated_at"]
   ++ named (negb (String.eqb (push_status call message) (status call))) "status"
   ++ named (takes_transcript call (push_transcript message)) "transcript"
   ++ named (takes_summary call (push_summary message)) "summary"
   ++ named (takes_analysis call (push_analysis message)) "analysis"
   ++ named (takes_metadata call (push_meta call message)) "metadata"
   ++ named (takes_time (started_at call) (push_started message)) "started_at"
   ++ named (takes_time (ended_at call) (push_ended message)) "ended_at"
   ++ named (takes_duration call (push_started message) (push_ended message))
        "duration_seconds")%list.

(** The instance the report handler leaves when it raises: the status and
    the transcript are assigned. *)
Definition push_partial (call : Call) (message : Message) : Call :=
  set_transcript
    (if takes_transcript call (push_transcript message)
     then push_transcript message else transcript call)
    (set_status (push_status call message) call).

(** The instance after the values read off one payload have been folded
    in; [enrich] is the enrichment of the metadata by that payload. *)
Definition once (new_status : string) (transcript_ : option string)
    (summary_ : string) (merged_analysis : gmap string json)
    (enrich : gmap string json -> gmap string json) (started ended : option Z)
    (call : Call) : Call :=
  folded call new_status transcript_ summary_ merged_analysis
    (enrich (default ∅ (metadata call))) started ended.

(** ** Write-once fields *)

(** [after] is the same call as [before], and each of the five write-once
    fields that [before] holds, non-empty, is the same in [after]. *)
Definition keeps_written (before after : Call) : Prop :=
  pk after = pk before
  /\ (PyStr.truthy_opt (transcript before) = true ->
      transcript after = transcript before)
  /\ (PyStr.truthy_opt (summary before) = true -> summary after = summary before)
  /\ (dict_truthy (analysis before) = true -> analysis after = analysis before)
  /\ (is_set (started_at before) = true -> started_at after = started_at before)
  /\ (is_set (ended_at before) = true -> ended_at after = ended_at before).

(** ** One snapshot, two channels *)

(** The end-of-call report that carries what the pull response
    [vapi_data] carries: the same values under the keys the webhook handler
    reads, the two timestamps in [message.call]. *)
Definition report_of (vapi_call_id_ : string) (vapi_data : VapiData) : Message :=
  {| m_type := "end-of-call-report";
     m_call :=
       {| cd_id := vapi_call_id_; cd_analysis := ∅; cd_recordingUrl := JNull;
          cd_stereoRecordingUrl := JNull; cd_messages := JNull; cd_cost := JNull;
          cd_costBreakdown := JNull; cd_startedAt := v_startedAt vapi_data;
          cd_endedAt := v_endedAt vapi_data |};
     m_status := "";
     m_timestamp := NoStamp;
     m_artifact := v_artifact vapi_data;
     m_endedReason := v_endedReason vapi_data;
     m_transcript := v_transcript vapi_data;
     m_summary := v_summary vapi_data;
     m_analysis := v_analysis vapi_data;
     m_recordingUrl := v_recordingUrl vapi_data;
     m_stereoRecordingUrl := v_stereoRecordingUrl vapi_data;
     m_messages := v_messages vapi_data;
     m_cost := v_cost vapi_data;
     m_costBreakdown := v_costBreakdown vapi_data |}.

(** The status-update event for the live status [vapi_status]. *)
Definition status_update_of (vapi_call_id_ vapi_status : string)
    (timestamp : option Z) : Message :=
  {| m_type := "status-update";
     m_call :=
       {| cd_id := vapi_call_id_; cd_analysis := ∅; cd_recordingUrl := JNull;
          cd_stereoRecordingUrl := JNull; cd_messages := JNull; cd_cost := JNull;
          cd_costBreakdown := JNull; cd_startedAt := NoStamp; cd_endedAt := NoStamp |};
     m_status := vapi_status;
     m_timestamp := stamp timestamp;
     m_artifact := {| art_transcript := None; art_structuredOutputs := [] |};
     m_endedReason := "";
     m_transcript := None;
     m_summary := None;
     m_analysis := ∅;
     m_recordingUrl := JNull;
     m_stereoRecordingUrl := JNull;
     m_messages := JNull;
     m_cost := JNull;
     m_costBreakdown := JNull |}.

(** A pull response that carries a live status and nothing else. *)
Definition live_snapshot (vapi_status : string) : VapiData :=
  {| v_status := vapi_status; v_endedReason := ""; v_startedAt := NoStamp;
     v_endedAt := NoStamp; v_transcript := None; v_summary := None;
     v_analysis := ∅;
     v_artifact := {| art_transcript := None; art_structuredOutputs := [] |};
     v_recordingUrl := JNull; v_stereoRecordingUrl := JNull; v_messages := JNull;
     v_cost := JNull; v_costBreakdown := JNull |}.

(** The instance a status-update leaves: the one it wrote, or the one it
    found when it returned early. *)
Definition after_status_update (call : Call) (message : Message) : Call :=
  match status_update_apply call message with
  | Some w => fst w
  | None => call
  end.

(** ** Concrete calls and payloads *)

Module Sample.

(** A call of user [user-1], known to the provider as [vapi-1], with nothing
    recorded yet. *)
Definition call (status_ : string) : Call :=
  {| pk := "call-1"; user := "user-1"; contact := "contact-1";
     script_id := None; vapi_call_id := Some "vapi-1";
     assistant_id := "assistant-1"; phone_number_id := Some "line-1";
     status := status_; transcript := None; summary := None; analysis := None;
     started_at := None; ended_at := None; duration_seconds := None;
     metadata := None; error_message := None; updated_at := 0 |}.

(** A pull response: status, end reason, the two timestamps, a transcript. *)
Definition snapshot (vapi_status ended_reason : string) (started ended : option Z)
    (transcript_ : option string) : VapiData :=
  {| v_status := vapi_status; v_endedReason := ended_reason;
     v_startedAt := stamp started; v_endedAt := stamp ended;
     v_transcript := transcript_;
     v_summary := None; v_analysis := ∅;
     v_artifact := {| art_transcript := None; art_structuredOutputs := [] |};
     v_recordingUrl := JNull; v_stereoRecordingUrl := JNull; v_messages := JNull;
     v_cost := JNull; v_costBreakdown := JNull |}.

(** The end-of-call report for [vapi-1] with the same content. *)
Definition report (ended_reason : string) (started ended : option Z)
    (transcript_ : option string) : Message :=
  report_of "vapi-1" (snapshot "ended" ended_reason started ended transcript_).

(** The same response with structured outputs in its artifact. *)
Definition with_outputs (outputs : list (string * json)) (vapi_data : VapiData)
    : VapiData :=
  {| v_status := v_status vapi_data; v_endedReason := v_endedReason vapi_data;
     v_startedAt := v_startedAt vapi_data; v_endedAt := v_endedAt vapi_data;
     v_transcript := v_transcript vapi_data; v_summary := v_summary vapi_data;
     v_analysis := v_analysis vapi_data;
     v_artifact := {| art_transcript := art_transcript (v_artifact vapi_data);
                      art_structuredOutputs := outputs |};
     v_recordingUrl := v_recordingUrl vapi_data;
     v_stereoRecordingUrl := v_stereoRecordingUrl vapi_data;
     v_messages := v_messages vapi_data; v_cost := v_cost vapi_data;
     v_costBreakdown := v_costBreakdown vapi_data |}.

(** A structured output with a boolean result, as a success evaluation
    gives. *)
Definition graded : list (string * json) :=
  [("outcome", JObj [("name", JStr "Call success"); ("result", JBool true)])].

(** A provider whose [GET /call] answers [vapi_data]. *)
Definition answering (vapi_data : VapiData) : string -> Outcome VapiData :=
  fun _ => Returned vapi_data.

(** A provider that is down. *)
Definition failing {A : Type} (detail : string) : string -> Outcome A :=
  fun _ => Raised (VapiAPIError detail).

Definition contact_1 : Contact :=
  {| contact_pk := "contact-1"; contact_user := "user-1";
     contact_name := "Ada"; contact_phone := "+15550100" |}.

End Sample.

(** ** calls/utils.py *)

(** [c.isdigit()] for an ASCII character: what [\d] matches. *)
Definition isdigit (c : ascii) : bool :=
  let n := nat_of_ascii c in ((48 <=? n)%nat && (n <=? 57)%nat)%bool.

(** [re.sub(r"\D", "", s)] *)
Fixpoint digits_only (s : string) : string :=
  match s with
  | EmptyString => EmptyString
  | String c t => if isdigit c then String c (digits_only t) else digits_only t
  end.

(** [s[n:]] *)
Fixpoint str_drop (n : nat) (s : string) : string :=
  match n, s with
  | O, _ => s
  | S _, EmptyString => EmptyString
  | S n', String _ t => str_drop n' t
  end.

(** [normalize_phone_number] *)
Definition normalize_phone_number (phone : string) : string :=
  if negb (PyStr.truthy phone) then phone
  else
    let raw := PyStr.strip phone in
    if PyStr.startswith "+" raw then ("+" ++ digits_only (str_drop 1 raw))%string
    else
      let digits := digits_only raw in
      if PyStr.startswith "00" digits then ("+" ++ str_drop 2 digits)%string
      else if (String.length digits =? 10)%nat then
        match digits with
        | String d _ =>
            if PyStr.contains (String d EmptyString) "6789"
            then ("+91" ++ digits)%string
            else ("+1" ++ digits)%string
        | EmptyString => ("+1" ++ digits)%string
        end
      else if (String.length digits =? 9)%nat then ("+971" ++ digits)%string
      else if (String.length digits =? 11)%nat && PyStr.startswith "0" digits
           then ("+44" ++ str_drop 1 digits)%string
      else if (11 <=? String.length digits)%nat && (String.length digits <=? 15)%nat
           then ("+" ++ digits)%string
      else ("+91" ++ digits)%string.

(** Every character of [s] is a digit. *)
Fixpoint all_digits (s : string) : bool :=
  match s with
  | EmptyString => true
  | String c t => isdigit c && all_digits t
  end.

(** ** calls.py: listing and maintenance *)

(** [timedelta(seconds=s)], in microseconds. *)
Definition timedelta_seconds (s : Z) : Z := s * 1000000.

Definition STALE_CALL_THRESHOLD_SECONDS : Z := 10 * 60.

Definition STALE_QUEUED_SYNC_SECONDS : Z := 2 * 60.

(** The largest [OFFSET] the database takes, a signed 64-bit integer. *)
Definition MAX_OFFSET : Z := 2 ^ 63 - 1.

(** The answer of [list_calls]: the keys of its dict. *)
Record CallPage : Type := mkCallPage {
  p_data : list Call;
  p_total : Z;
  p_page : Z;
  p_limit : Z;
  p_total_pages : Z
}.

Section Maintenance.

(** The column [created_at], which the record [Call] does not carry: the
    instant at which the row with a given primary key was inserted.  It is
    set once ([auto_now_add]) and no code writes it. *)
Variable created_at : string -> Z.

(** The provider, as in the section of the service functions. *)
Variable vapi_get_call : string -> Outcome VapiData.

(** [order_by("-created_at")]: newest first.  Rows with the same instant
    keep the order of the table; the database promises no order for them. *)
Fixpoint insert_newest (c : Call) (l : list Call) : list Call :=
  match l with
  | [] => [c]
  | x :: r =>
      if created_at (pk x) <? created_at (pk c) then c :: l
      else x :: insert_newest c r
  end.

Fixpoint newest_first (l : list Call) : list Call :=
  match l with
  | [] => []
  | c :: r => insert_newest c (newest_first r)
  end.

(** The queryset of [list_calls]: the calls of the user, newest first. *)
Definition calls_of (user_ : string) (db : list Call) : list Call :=
  newest_first (List.filter (fun c => String.eqb (user c) user_) db).

(** [list_calls].  [page] is any integer, and the slice [qs[offset:offset +
    limit]] is a query with [OFFSET offset], which the database refuses when
    [offset] does not fit its integers; the text of its error depends on the
    backend. *)
Definition list_calls (user_ : string) (page limit : Z) (db : list Call)
    : Outcome CallPage :=
  let limit := Z.max 1 (Z.min limit 100) in
  let page := Z.max 1 page in
  let offset := (page - 1) * limit in
  let qs := calls_of user_ db in
  let total := Z.of_nat (length qs) in
  if MAX_OFFSET <? offset then Raised (OtherException "OFFSET out of range")
  else
    let calls := firstn (Z.to_nat limit) (skipn (Z.to_nat offset) qs) in
    Returned
      {| p_data := calls; p_total := total; p_page := page; p_limit := limit;
         p_total_pages := Z.max 1 (- (- total / limit)) |}.

(** The filter of [mark_stale_calls]: stale-eligible and created before the
    cutoff. *)
Definition is_stale (now : Z) (c : Call) : bool :=
  let cutoff := now - timedelta_seconds STALE_CALL_THRESHOLD_SECONDS in
  str_in (status c) STALE_ELIGIBLE_STATUSES && (created_at (pk c) <? cutoff).

(** [mark_stale_calls]: the table after the bulk update, and the count it
    returns.  [QuerySet.update] writes the two columns and no other: it does
    not stamp [updated_at]. *)
Definition mark_stale_calls (now : Z) (db : list Call) : list Call * Z :=
  let count := Z.of_nat (length (List.filter (is_stale now) db)) in
  if count =? 0 then (db, 0)
  else
    (map (fun c =>
            if is_stale now c
            then set_error_message (Some "Call timed out – no response from provider")
                   (set_status CallStatus.FAILED c)
            else c) db,
     count).

(** The filter of [sync_stale_queued_calls]: queued, created before the
    cutoff, with a provider id that is neither null nor empty. *)
Definition is_stale_queued (now : Z) (c : Call) : bool :=
  let cutoff := now - timedelta_seconds STALE_QUEUED_SYNC_SECONDS in
  String.eqb (status c) CallStatus.QUEUED && (created_at (pk c) <? cutoff)
  && PyStr.truthy_opt (vapi_call_id c).

(** The state of the loop of [sync_stale_queued_calls]: the table, the
    requests made so far, and [synced]. *)
Definition Sweep : Type := list Call * list Request * Z.

(** One turn of the loop, for the instance [call] loaded before the loop:
    the state after it, and the exception if the turn raised.  The request is
    inside the [try]; the reconciliation and the [save] are not. *)
Definition sync_one (now : Z) (st : Sweep) (call : Call) : Sweep * option Exc :=
  let '(db, sent, synced) := st in
  let vid := PyStr.or_empty (vapi_call_id call) in
  let sent := (sent ++ [GetCallRequest vid])%list in
  match vapi_get_call vid with
  | Raised _ => ((db, sent, synced), None)
  | Returned vapi_data =>
      match _reconcile_call_from_vapi call vapi_data with
      | (_, Raised e) => ((db, sent, synced), Some e)
      | (_, Returned []) => ((db, sent, synced), None)
      | (call, Returned update_fields) =>
          ((snd (save now update_fields call db), sent, synced + 1), None)
      end
  end.

(** The loop: it ends with the list, or with the first turn that raises. *)
Fixpoint sync_each (now : Z) (stale_calls : list Call) (st : Sweep)
    : Sweep * option Exc :=
  match stale_calls with
  | [] => (st, None)
  | call :: rest =>
      match sync_one now st call with
      | (st, None) => sync_each now rest st
      | (st, Some e) => (st, Some e)
      end
  end.

(** [sync_stale_queued_calls] *)
Definition sync_stale_queued_calls (now : Z) (db : list Call) : Served Z :=
  let stale_calls := List.filter (is_stale_queued now) db in
  match stale_calls with
  | [] => mkServed db [] (Returned 0)
  | _ =>
      match sync_each now stale_calls (db, [], 0) with
      | ((db, sent, synced), None) => mkServed db sent (Returned synced)
      | ((db, sent, _), Some e) => mkServed db sent (Raised e)
      end
  end.

End Maintenance.






(** ** calls/management/commands/sync_stale_calls.py *)


(** ** What every operation keeps *)

(** [after] is the row [before] some steps later: the same call of the same
    user for the same contact, known to the provider under the same id, and
    no earlier in the lifecycle. *)
Definition advances (before after : Call) : Prop :=
  pk after = pk before /\ user after = user before
  /\ contact after = contact before
  /\ vapi_call_id after = vapi_call_id before
  /\ order (status before) <= order (status after).

(** * Properties *)

(** Projections and setters of [Call], and nothing else, are computed. *)
Ltac call_simpl :=
  cbn [fst snd negb app
       pk user contact script_id vapi_call_id assistant_id phone_number_id
       status transcript summary analysis started_at ended_at
       duration_seconds metadata error_message updated_at
       set_vapi_call_id set_status set_transcript set_summary set_analysis
       set_started_at set_ended_at set_duration_seconds set_metadata
       set_error_message set_updated_at].

Ltac by_cases c b :=
  unfold assign, named; cbn [fst snd]; destruct b, c;
  rewrite ?app_nil_r; reflexivity.

(** ** Substring test *)

Section Substrings.

Lemma startswith_iff (p s : string) :
  PyStr.startswith p s = true <-> exists suf, s = (p ++ suf)%string.
Proof.
  revert s. induction p as [| a p IH]; intros s; simpl.
  - split; [intros _; exists s; reflexivity | reflexivity].
  - destruct s as [| b s].
    + split; [discriminate | intros [suf H]; discriminate].
    + rewrite andb_true_iff, Ascii.eqb_eq, IH. split.
      * intros [-> [suf ->]]. exists suf. reflexivity.
      * intros [suf H]. injection H as -> ->. split; [reflexivity | eauto].
Qed.

Lemma contains_iff (needle hay : string) :
  PyStr.contains needle hay = true <-> PyStr.Occurs needle hay.
Proof.
  unfold PyStr.Occurs. induction hay as [| c hay IH].
  - cbn [PyStr.contains]. rewrite orb_false_r, startswith_iff. split.
    + intros [suf H]. exists EmptyString, suf. exact H.
    + intros [[| a pre] [suf H]]; [exists suf; exact H | discriminate].
  - cbn [PyStr.contains]. rewrite orb_true_iff, startswith_iff, IH. split.
    + intros [[suf H] | [pre [suf H]]].
      * exists EmptyString, suf. exact H.
      * exists (String c pre), suf. simpl. rewrite H. reflexivity.
    + intros [[| a pre] [suf H]].
      * left. exists suf. exact H.
      * right. simpl in H. injection H as _ H. exists pre, suf. exact H.
Qed.

Lemma contains_false_iff (needle hay : string) :
  PyStr.contains needle hay = false <-> ~ PyStr.Occurs needle hay.
Proof.
  rewrite <- contains_iff. destruct (PyStr.contains needle hay); split;
    congruence.
Qed.

End Substrings.

(** ** The status lattice *)

Section Lattice.

Lemma str_in_iff (x : string) (xs : list string) :
  str_in x xs = true <-> In x xs.
Proof.
  unfold str_in. rewrite existsb_exists. split.
  - intros [y [Hy E]]. apply String.eqb_eq in E. subst. exact Hy.
  - intros H. exists x. split; [exact H | apply String.eqb_refl].
Qed.

(** A status that [STATUS_ORDER] knows is one of the eleven canonical
    ones, with the order the table gives it. *)
Lemma STATUS_ORDER_lookup (s : string) (n : Z) :
  STATUS_ORDER !! s = Some n ->
  In (s, n)
    [("pending", 0); ("queued", 1); ("initiated", 2); ("ringing", 3);
     ("in-progress", 4); ("completed", 10); ("failed", 10);
     ("cancelled", 10); ("no-answer", 10); ("busy", 10); ("voicemail", 10)].
Proof.
  intros H. apply list_elem_of_In. unfold STATUS_ORDER in H.
  apply elem_of_list_to_map_2 in H. exact H.
Qed.

Lemma order_cases (s : string) :
  order s = 0 \/ order s = 1 \/ order s = 2 \/ order s = 3 \/ order s = 4
  \/ (order s = 10 /\ In s TERMINAL_STATUSES).
Proof.
  unfold order. destruct (STATUS_ORDER !! s) as [n |] eqn:E; [| left; reflexivity].
  apply STATUS_ORDER_lookup in E. simpl in E.
  repeat (destruct E as [E | E]; [injection E as <- <-; simpl; tauto |]).
  destruct E.
Qed.

Lemma order_terminal (s : string) :
  In s TERMINAL_STATUSES <-> order s = 10.
Proof.
  split.
  - simpl. intros H.
    repeat (destruct H as [<- | H]; [vm_compute; reflexivity |]). destruct H.
  - intros H. destruct (order_cases s) as [E | [E | [E | [E | [E | [_ E]]]]]];
      try (rewrite E in H; discriminate). exact E.
Qed.

(** The guard, read as a relation between orders; the two copies agree. *)
Lemma guard_iff (current new : string) :
  _is_valid_status_transition current new = true <->
  10 <= order new \/ order current <= order new.
Proof.
  unfold _is_valid_status_transition.
  destruct (10 <=? order new) eqn:E.
  - apply Z.leb_le in E. tauto.
  - apply Z.leb_gt in E. rewrite Z.leb_le. lia.
Qed.

Lemma guards_agree (current new : string) :
  _is_valid_transition current new = _is_valid_status_transition current new.
Proof. reflexivity. Qed.

Lemma guard_refl (s : string) : _is_valid_status_transition s s = true.
Proof. apply guard_iff. right. lia. Qed.

Lemma guard_terminal (current new : string) :
  In new TERMINAL_STATUSES -> _is_valid_status_transition current new = true.
Proof. intros H. apply guard_iff. left. apply order_terminal in H. lia. Qed.

End Lattice.

(** ** End-reason mapping *)

Section EndedReason.

Lemma reason_lower_normalized (reason : string) :
  (if PyStr.truthy reason then PyStr.replace "-" "_" (PyStr.lower reason) else "")
  = normalized reason.
Proof. destruct reason; reflexivity. Qed.

Lemma map_ended_reason_unrecognized (reason current : string) :
  unrecognized reason ->
  _map_ended_reason reason current =
  if str_in current TERMINAL_STATUSES then current else CallStatus.COMPLETED.
Proof.
  intros (H1 & H2 & H3 & H4 & H5 & H6). unfold _map_ended_reason.
  rewrite reason_lower_normalized.
  apply contains_false_iff in H1, H2, H3, H4, H5, H6.
  rewrite H1, H2, H3, H4, H5, H6. reflexivity.
Qed.

(** Whatever the reason, the result is a terminal status. *)
Lemma map_ended_reason_terminal (reason current : string) :
  In (_map_ended_reason reason current) TERMINAL_STATUSES.
Proof.
  unfold _map_ended_reason.
  repeat match goal with
         | |- context [if ?b then _ else _] => destruct b eqn:?
         end;
    try (vm_compute; tauto).
  apply str_in_iff. assumption.
Qed.

(** Mapping the same reason over its own result gives the result again. *)
Lemma map_ended_reason_idem (reason current : string) :
  _map_ended_reason reason (_map_ended_reason reason current)
  = _map_ended_reason reason current.
Proof.
  unfold _map_ended_reason.
  repeat match goal with
         | |- context [if PyStr.contains ?k ?r then _ else _] =>
             destruct (PyStr.contains k r) eqn:?
         | |- context [if ?a || ?b then _ else _] => destruct (a || b) eqn:?
         end; try reflexivity.
  destruct (str_in current TERMINAL_STATUSES) eqn:E; [rewrite E |]; reflexivity.
Qed.

End EndedReason.

(** ** The reconcilers in closed form *)

Section Folding.

(** *** One assignment at a time *)

Lemma assign_status cond v name c l :
  assign cond (set_status v) name (c, l) =
  (set_status (if cond c then v else status c) c, (l ++ named (cond c) name)%list).
Proof. by_cases c (cond c). Qed.

Lemma assign_started_at cond v name c l :
  assign cond (set_started_at v) name (c, l) =
  (set_started_at (if cond c then v else started_at c) c,
   (l ++ named (cond c) name)%list).
Proof. by_cases c (cond c). Qed.

Lemma assign_ended_at cond v name c l :
  assign cond (set_ended_at v) name (c, l) =
  (set_ended_at (if cond c then v else ended_at c) c,
   (l ++ named (cond c) name)%list).
Proof. by_cases c (cond c). Qed.

Lemma assign_transcript cond v name c l :
  assign cond (set_transcript v) name (c, l) =
  (set_transcript (if cond c then v else transcript c) c,
   (l ++ named (cond c) name)%list).
Proof. by_cases c (cond c). Qed.

Lemma assign_summary cond v name c l :
  assign cond (set_summary v) name (c, l) =
  (set_summary (if cond c then v else summary c) c,
   (l ++ named (cond c) name)%list).
Proof. by_cases c (cond c). Qed.

Lemma assign_analysis cond v name c l :
  assign cond (set_analysis v) name (c, l) =
  (set_analysis (if cond c then v else analysis c) c,
   (l ++ named (cond c) name)%list).
Proof. by_cases c (cond c). Qed.

Lemma enrich_metadata_pair r st ms co cb c l :
  enrich_metadata r st ms co cb (c, l) =
  let enriched := enrich_meta (default ∅ (metadata c)) r st ms co cb in
  (set_metadata (if takes_metadata c enriched then Some enriched else metadata c) c,
   (l ++ named (takes_metadata c enriched) "metadata")%list).
Proof.
  unfold enrich_metadata, takes_metadata. cbn zeta.
  by_cases c (negb (bool_decide
    (enrich_meta (default ∅ (metadata c)) r st ms co cb = default ∅ (metadata c)))).
Qed.

Lemma compute_duration_pair c l :
  compute_duration (c, l) =
  (set_duration_seconds
     match started_at c, ended_at c with
     | Some s, Some e =>
         if negb (int_truthy (duration_seconds c))
         then Some (duration_of s e) else duration_seconds c
     | _, _ => duration_seconds c
     end c,
   (l ++ named (is_set (started_at c) && is_set (ended_at c)
                && negb (int_truthy (duration_seconds c))) "duration_seconds")%list).
Proof.
  unfold compute_duration, assign, named. cbn [fst snd].
  destruct c as [? ? ? ? ? ? ? ? ? ? ? [st |] [en |] d ? ? ?]; cbn;
    rewrite ?app_nil_r; try reflexivity.
  destruct (int_truthy d); cbn; rewrite ?app_nil_r; reflexivity.
Qed.

Lemma keep_or_change (a b : string) :
  (if negb (String.eqb a b) then a else b) = a.
Proof.
  destruct (String.eqb a b) eqn:E; [| reflexivity].
  apply String.eqb_eq in E. symmetry. exact E.
Qed.

(** *** The two reconcilers in closed form *)

Lemma parse_when_truthy (raw : Stamp) :
  (if stamp_truthy raw then parse_datetime raw else Returned None)
  = parse_datetime raw.
Proof. destruct raw; reflexivity. Qed.

Lemma parse_ts_returned (raw : Stamp) (t : option Z) :
  parse_datetime raw = Returned t -> _parse_ts raw = t.
Proof. destruct raw; cbn; intros H; congruence. Qed.

Lemma reconcile_closed (call : Call) (vapi_data : VapiData) :
  _reconcile_call_from_vapi call vapi_data =
  if _is_valid_status_transition (status call) (pull_status call vapi_data)
  then match pull_raises vapi_data with
       | Some e => (pull_partial call vapi_data, Raised e)
       | None => (pull_instance call vapi_data, Returned (pull_fields call vapi_data))
       end
  else (call, Returned []).
Proof.
  unfold _reconcile_call_from_vapi. fold (pull_status call vapi_data).
  destruct (_is_valid_status_transition (status call) (pull_status call vapi_data));
    [| reflexivity].
  cbn [negb]. cbv zeta. rewrite !parse_when_truthy.
  fold (pull_transcript vapi_data). fold (pull_analysis vapi_data).
  unfold pull_raises, pull_partial, pull_instance, pull_fields, pull_started,
    pull_ended, pull_summary.
  destruct (parse_datetime (v_startedAt vapi_data)) as [started | e] eqn:Ps;
    [| reflexivity].
  rewrite (parse_ts_returned _ _ Ps). cbn [attempt]. rewrite assign_started_at.
  destruct (parse_datetime (v_endedAt vapi_data)) as [ended | e] eqn:Pe.
  2: { cbn [attempt fst]. unfold merged_time, takes_time.
       destruct call. call_simpl. reflexivity. }
  rewrite (parse_ts_returned _ _ Pe). cbn [attempt].
  rewrite assign_ended_at, assign_transcript.
  destruct (_extract_summary vapi_data (v_artifact vapi_data)) as [summary_ | e].
  2: { cbn [attempt fst]. unfold merged_time, takes_time, takes_transcript.
       destruct call. call_simpl. reflexivity. }
  cbn [attempt returned_or].
  rewrite assign_summary, assign_analysis, enrich_metadata_pair. cbv zeta.
  rewrite compute_duration_pair. unfold returns. cbn [fst snd].
  unfold folded, pull_meta, takes_duration, merged_time,
    takes_time, takes_transcript, takes_summary, takes_analysis.
  destruct call. call_simpl. rewrite <- !app_assoc. reflexivity.
Qed.

Lemma end_of_call_report_closed (call : Call) (message : Message) :
  end_of_call_report_apply call message =
  match push_raises message with
  | Some e => (push_partial call message, Raised e)
  | None => (push_instance call message, Returned (push_fields call message))
  end.
Proof.
  unfold end_of_call_report_apply. cbv zeta.
  fold (push_status call message). fold (push_transcript message).
  fold (push_analysis message). fold (push_started message).
  fold (push_ended message).
  rewrite assign_status, assign_transcript.
  unfold push_raises, push_partial, push_instance, push_fields, push_summary.
  destruct (_extract_summary_from_webhook message (m_artifact message))
    as [summary_ | e].
  2: { cbn [attempt fst]. unfold takes_transcript. rewrite keep_or_change.
       destruct call. call_simpl. reflexivity. }
  cbn [attempt returned_or].
  rewrite assign_summary, assign_analysis, enrich_metadata_pair. cbv zeta.
  rewrite assign_started_at, assign_ended_at, compute_duration_pair.
  unfold returns. cbn [fst snd].
  unfold folded, push_meta, takes_duration, merged_time,
    takes_time, takes_transcript, takes_summary, takes_analysis.
  rewrite keep_or_change. generalize (push_status call message) as ns. intros ns.
  destruct call. call_simpl. rewrite <- !app_assoc. reflexivity.
Qed.

(** The reconcilers when they return. *)
Lemma reconcile_returned (call : Call) (vapi_data : VapiData) (fields : list string) :
  snd (_reconcile_call_from_vapi call vapi_data) = Returned fields ->
  (_is_valid_status_transition (status call) (pull_status call vapi_data) = false
   /\ _reconcile_call_from_vapi call vapi_data = (call, Returned []))
  \/ (_is_valid_status_transition (status call) (pull_status call vapi_data) = true
      /\ pull_raises vapi_data = None
      /\ _reconcile_call_from_vapi call vapi_data
         = (pull_instance call vapi_data, Returned (pull_fields call vapi_data))).
Proof.
  rewrite reconcile_closed.
  destruct (_is_valid_status_transition _ _); [| left; split; reflexivity].
  destruct (pull_raises vapi_data); [discriminate |].
  right. repeat split.
Qed.

Lemma report_returned (call : Call) (message : Message) (fields : list string) :
  snd (end_of_call_report_apply call message) = Returned fields ->
  push_raises message = None
  /\ end_of_call_report_apply call message
     = (push_instance call message, Returned (push_fields call message)).
Proof.
  rewrite end_of_call_report_closed.
  destruct (push_raises message); [discriminate |]. split; reflexivity.
Qed.

End Folding.

(** ** Folding the same values in twice *)

Section Stability.

Lemma put_if_truthy_lookup (k : string) (v : json) (d : gmap string json) (i : string) :
  put_if_truthy k v d !! i =
  if decide (k = i) then (if Json.truthy v then Some v else d !! i) else d !! i.
Proof.
  unfold put_if_truthy. destruct (Json.truthy v).
  - rewrite lookup_insert. reflexivity.
  - destruct (decide (k = i)); reflexivity.
Qed.

Lemma put_if_not_none_lookup (k : string) (v : json) (d : gmap string json) (i : string) :
  put_if_not_none k v d !! i =
  if decide (k = i) then (if Json.is_not_none v then Some v else d !! i) else d !! i.
Proof.
  unfold put_if_not_none. destruct (Json.is_not_none v).
  - rewrite lookup_insert. reflexivity.
  - destruct (decide (k = i)); reflexivity.
Qed.

Lemma enrich_meta_lookup (base : gmap string json) (r s ms co cb : json) (i : string) :
  enrich_meta base r s ms co cb !! i =
  if decide ("costBreakdown" = i) then (if Json.truthy cb then Some cb else base !! i)
  else if decide ("cost" = i) then (if Json.is_not_none co then Some co else base !! i)
  else if decide ("messages" = i) then (if Json.truthy ms then Some ms else base !! i)
  else if decide ("stereoRecordingUrl" = i)
       then (if Json.truthy s then Some s else base !! i)
  else if decide ("recordingUrl" = i) then (if Json.truthy r then Some r else base !! i)
  else base !! i.
Proof.
  unfold enrich_meta.
  rewrite put_if_truthy_lookup, put_if_not_none_lookup, !put_if_truthy_lookup.
  repeat case_decide; subst; try reflexivity; discriminate.
Qed.

(** Enriching twice with the same values is enriching once. *)
Lemma enrich_meta_idem (base : gmap string json) (r s ms co cb : json) :
  enrich_meta (enrich_meta base r s ms co cb) r s ms co cb
  = enrich_meta base r s ms co cb.
Proof.
  apply map_eq. intros i. rewrite !enrich_meta_lookup.
  repeat case_decide; try reflexivity;
    match goal with
    | |- context [if ?b then _ else _] => destruct b; reflexivity
    end.
Qed.

(** Keys the snapshot does not supply keep their local value; keys it
    supplies take the value of the snapshot. *)
Lemma enrich_meta_other (base : gmap string json) (r s ms co cb : json) (i : string) :
  ~ In i ["recordingUrl"; "stereoRecordingUrl"; "messages"; "cost"; "costBreakdown"] ->
  enrich_meta base r s ms co cb !! i = base !! i.
Proof.
  intros H. rewrite enrich_meta_lookup.
  repeat case_decide; subst; try reflexivity; exfalso; apply H; simpl; tauto.
Qed.

Lemma merged_time_idem (current incoming : option Z) :
  merged_time (merged_time current incoming) incoming = merged_time current incoming.
Proof. destruct current, incoming; reflexivity. Qed.

Lemma takes_time_merged (current incoming : option Z) :
  takes_time (merged_time current incoming) incoming = false.
Proof. destruct current, incoming; reflexivity. Qed.

Lemma int_truthy_keep (d : option Z) (x : Z) :
  (if negb (int_truthy (if negb (int_truthy d) then Some x else d))
   then Some x else (if negb (int_truthy d) then Some x else d))
  = (if negb (int_truthy d) then Some x else d).
Proof.
  destruct (int_truthy d) eqn:E; cbn [negb]; [rewrite E; reflexivity |].
  destruct (negb (int_truthy (Some x))); reflexivity.
Qed.

Section WithValues.

Variables (ns : string) (t : option string) (s : string) (a : gmap string json).
Variable enrich : gmap string json -> gmap string json.
Variables (st en : option Z).
Hypothesis enrich_idem : forall base, enrich (enrich base) = enrich base.

Let first_fold : Call -> Call := once ns t s a enrich st en.

Lemma transcript_folded (c : Call) (m : gmap string json) :
  takes_transcript (folded c ns t s a m st en) t = false.
Proof.
  unfold takes_transcript, folded. call_simpl. unfold takes_transcript.
  destruct (PyStr.truthy_opt t) eqn:Et; [| reflexivity].
  destruct (PyStr.truthy_opt (transcript c)) eqn:Ec; cbn [negb andb].
  - rewrite Ec. reflexivity.
  - rewrite Et. reflexivity.
Qed.

Lemma summary_folded (c : Call) (m : gmap string json) :
  takes_summary (folded c ns t s a m st en) s = false.
Proof.
  unfold takes_summary, folded. call_simpl. unfold takes_summary.
  destruct (PyStr.truthy s) eqn:Et; [| reflexivity].
  destruct (PyStr.truthy_opt (summary c)) eqn:Ec; cbn [negb andb].
  - rewrite Ec. reflexivity.
  - cbn [PyStr.truthy_opt]. rewrite Et. reflexivity.
Qed.

Lemma analysis_folded (c : Call) (m : gmap string json) :
  takes_analysis (folded c ns t s a m st en) a = false.
Proof.
  unfold takes_analysis, folded. call_simpl. unfold takes_analysis.
  destruct (negb (bool_decide (a = ∅))) eqn:Et; [| reflexivity].
  destruct (dict_truthy (analysis c)) eqn:Ec; cbn [negb andb].
  - rewrite Ec. reflexivity.
  - cbn [dict_truthy]. rewrite Et. reflexivity.
Qed.

Lemma metadata_once (c : Call) :
  default ∅ (metadata (first_fold c)) = enrich (default ∅ (metadata c)).
Proof.
  unfold first_fold, once, folded. call_simpl. unfold takes_metadata.
  destruct (bool_decide (enrich (default ∅ (metadata c)) = default ∅ (metadata c)))
    eqn:E; cbn [negb]; [| reflexivity].
  apply bool_decide_eq_true in E. symmetry. exact E.
Qed.

Lemma takes_metadata_once (c : Call) :
  takes_metadata (first_fold c) (enrich (default ∅ (metadata (first_fold c)))) = false.
Proof.
  unfold takes_metadata. rewrite metadata_once, enrich_idem.
  rewrite bool_decide_eq_true_2; reflexivity.
Qed.

(** Folding the same values in a second time changes nothing. *)
Lemma once_idem (c : Call) : first_fold (first_fold c) = first_fold c.
Proof.
  pose proof (transcript_folded c (enrich (default ∅ (metadata c)))) as Ht.
  pose proof (summary_folded c (enrich (default ∅ (metadata c)))) as Hs.
  pose proof (analysis_folded c (enrich (default ∅ (metadata c)))) as Ha.
  pose proof (takes_metadata_once c) as Hm.
  unfold first_fold, once in *. unfold folded at 1.
  rewrite Ht, Hs, Ha, Hm.
  unfold folded. call_simpl.
  rewrite !merged_time_idem.
  f_equal.
  destruct (merged_time (started_at c) st), (merged_time (ended_at c) en);
    try reflexivity.
  apply int_truthy_keep.
Qed.

End WithValues.

(** The end-of-call report, a second time. *)
Lemma push_instance_idem (call : Call) (message : Message) :
  push_instance (push_instance call message) message = push_instance call message.
Proof.
  unfold push_instance at 1.
  assert (push_status (push_instance call message) message = push_status call message)
    as ->.
  { unfold push_status, push_instance, folded. call_simpl. apply map_ended_reason_idem. }
  unfold push_meta at 1. cbv zeta.
  pose proof (once_idem (push_status call message) (push_transcript message)
    (push_summary message) (push_analysis message)
    (fun b => enrich_meta b
       (Json.or_ (m_recordingUrl message) (cd_recordingUrl (m_call message)))
       (Json.or_ (m_stereoRecordingUrl message) (cd_stereoRecordingUrl (m_call message)))
       (Json.or_ (m_messages message) (cd_messages (m_call message)))
       (if Json.is_not_none (cd_cost (m_call message)) then cd_cost (m_call message)
        else m_cost message)
       (Json.or_ (cd_costBreakdown (m_call message)) (m_costBreakdown message)))
    (push_started message) (push_ended message)) as H.
  unfold once in H. apply H. intros base. apply enrich_meta_idem.
Qed.

(** What the pull reconciler is about to write is what it wrote before. *)
Lemma pull_status_again (call call' : Call) (vapi_data : VapiData) :
  status call' = pull_status call vapi_data ->
  pull_status call' vapi_data = pull_status call vapi_data.
Proof.
  intros S. unfold pull_status at 1. rewrite S. unfold pull_status.
  destruct (String.eqb (v_status vapi_data) "ended").
  - apply map_ended_reason_idem.
  - destruct (PyStr.truthy (v_status vapi_data)); reflexivity.
Qed.

Lemma pull_status_stable (call : Call) (vapi_data : VapiData) :
  pull_status (pull_instance call vapi_data) vapi_data = pull_status call vapi_data.
Proof. apply pull_status_again. reflexivity. Qed.

Lemma pull_partial_status (call : Call) (vapi_data : VapiData) :
  status (pull_partial call vapi_data) = pull_status call vapi_data.
Proof.
  unfold pull_partial.
  destruct (parse_datetime (v_startedAt vapi_data)); [| reflexivity].
  destruct (parse_datetime (v_endedAt vapi_data)); reflexivity.
Qed.

Lemma takes_transcript_again (call c : Call) (t : option string) :
  transcript c = (if takes_transcript call t then t else transcript call) ->
  takes_transcript c t = false.
Proof.
  unfold takes_transcript. intros ->.
  destruct (PyStr.truthy_opt t) eqn:Et; [| reflexivity].
  destruct (PyStr.truthy_opt (transcript call)) eqn:Ec; cbn [negb andb].
  - rewrite Ec. reflexivity.
  - rewrite Et. reflexivity.
Qed.

(** The instance a raising reconciliation leaves is left as it is by the
    same reconciliation. *)
Lemma pull_partial_idem (call : Call) (vapi_data : VapiData) :
  pull_partial (pull_partial call vapi_data) vapi_data = pull_partial call vapi_data.
Proof.
  unfold pull_partial at 1.
  rewrite (pull_status_again call _ vapi_data (pull_partial_status call vapi_data)).
  unfold pull_partial.
  destruct (parse_datetime (v_startedAt vapi_data)) as [started |];
    [| destruct call; reflexivity].
  destruct (parse_datetime (v_endedAt vapi_data)) as [ended |].
  - call_simpl. rewrite !merged_time_idem.
    rewrite (takes_transcript_again call) by reflexivity.
    destruct call. reflexivity.
  - call_simpl. rewrite !merged_time_idem. destruct call. reflexivity.
Qed.

Lemma pull_instance_idem (call : Call) (vapi_data : VapiData) :
  pull_instance (pull_instance call vapi_data) vapi_data = pull_instance call vapi_data.
Proof.
  unfold pull_instance at 1. rewrite pull_status_stable.
  unfold pull_meta at 1.
  pose proof (once_idem (pull_status call vapi_data) (pull_transcript vapi_data)
    (pull_summary vapi_data) (pull_analysis vapi_data)
    (fun b => enrich_meta b (v_recordingUrl vapi_data) (v_stereoRecordingUrl vapi_data)
       (v_messages vapi_data) (v_cost vapi_data) (v_costBreakdown vapi_data))
    (pull_started vapi_data) (pull_ended vapi_data)) as H.
  unfold once in H. apply H. intros base. apply enrich_meta_idem.
Qed.

Lemma reconcile_idem (call : Call) (vapi_data : VapiData) :
  fst (_reconcile_call_from_vapi (fst (_reconcile_call_from_vapi call vapi_data))
         vapi_data)
  = fst (_reconcile_call_from_vapi call vapi_data).
Proof.
  rewrite (reconcile_closed call).
  destruct (_is_valid_status_transition (status call) (pull_status call vapi_data))
    eqn:G; [destruct (pull_raises vapi_data) eqn:R |]; cbn [fst];
    rewrite reconcile_closed.
  - rewrite (pull_status_again call _ vapi_data (pull_partial_status call vapi_data)).
    rewrite pull_partial_status, guard_refl, R. cbn [fst]. apply pull_partial_idem.
  - rewrite pull_status_stable.
    assert (status (pull_instance call vapi_data) = pull_status call vapi_data) as ->
      by reflexivity.
    rewrite guard_refl, R. cbn [fst]. apply pull_instance_idem.
  - rewrite G. reflexivity.
Qed.

Lemma push_partial_idem (call : Call) (message : Message) :
  push_partial (push_partial call message) message = push_partial call message.
Proof.
  unfold push_partial at 1.
  assert (push_status (push_partial call message) message = push_status call message)
    as ->.
  { unfold push_status, push_partial. call_simpl. apply map_ended_reason_idem. }
  unfold push_partial. call_simpl.
  rewrite (takes_transcript_again call) by reflexivity.
  destruct call. reflexivity.
Qed.

(** The report handler, a second time on the instance it has left. *)
Lemma report_idem (call : Call) (message : Message) :
  fst (end_of_call_report_apply (fst (end_of_call_report_apply call message)) message)
  = fst (end_of_call_report_apply call message).
Proof.
  rewrite !end_of_call_report_closed.
  destruct (push_raises message); cbn [fst];
    [apply push_partial_idem | apply push_instance_idem].
Qed.

(** The change list of a repeated end-of-call report. *)
Lemma push_fields_again (call : Call) (message : Message) :
  push_fields (push_instance call message) message =
  "updated_at"
  :: named (takes_duration (push_instance call message)
              (push_started message) (push_ended message))
       "duration_seconds".
Proof.
  unfold push_fields.
  assert (push_status (push_instance call message) message
          = status (push_instance call message)) as ->.
  { unfold push_status, push_instance, folded. call_simpl. apply map_ended_reason_idem. }
  rewrite String.eqb_refl. cbn [negb].
  pose proof (fun enrich => takes_metadata_once (push_status call message)
    (push_transcript message)
    (push_summary message) (push_analysis message)
    enrich (push_started message) (push_ended message)) as Hm.
  unfold once in Hm. unfold push_instance at 1 2 3.
  rewrite transcript_folded, summary_folded, analysis_folded.
  unfold push_instance at 1 2. unfold push_meta at 1 3. cbv zeta.
  rewrite (Hm (fun b => enrich_meta b
       (Json.or_ (m_recordingUrl message) (cd_recordingUrl (m_call message)))
       (Json.or_ (m_stereoRecordingUrl message) (cd_stereoRecordingUrl (m_call message)))
       (Json.or_ (m_messages message) (cd_messages (m_call message)))
       (if Json.is_not_none (cd_cost (m_call message)) then cd_cost (m_call message)
        else m_cost message)
       (Json.or_ (cd_costBreakdown (m_call message)) (m_costBreakdown message))))
    by (intros base; apply enrich_meta_idem).
  unfold push_instance, folded. call_simpl. rewrite !takes_time_merged.
  reflexivity.
Qed.

End Stability.

(** ** The change list covers the changes *)

Section Coverage.

Lemma column_takes {A : Type} (fields : list string) (b : bool) (name : string)
    (v old : A) :
  (b = true -> In name fields) ->
  column fields name (if b then v else old) old = (if b then v else old).
Proof.
  intros H. unfold column. destruct b.
  - rewrite (proj2 (str_in_iff name fields)); [reflexivity | apply H; reflexivity].
  - destruct (str_in name fields); reflexivity.
Qed.

Lemma column_same {A : Type} (fields : list string) (name : string) (v : A) :
  column fields name v v = v.
Proof. unfold column. destruct (str_in name fields); reflexivity. Qed.

Lemma named_in (b : bool) (name : string) : b = true -> In name (named b name).
Proof. intros ->. left. reflexivity. Qed.

(** The duration in closed form, as a choice between a new and the old
    value. *)
Lemma duration_choice (st en d : option Z) :
  match st, en with
  | Some s, Some e => if negb (int_truthy d) then Some (duration_of s e) else d
  | _, _ => d
  end
  = if is_set st && is_set en && negb (int_truthy d)
    then match st, en with
         | Some s, Some e => Some (duration_of s e)
         | _, _ => d
         end
    else d.
Proof. destruct st, en; reflexivity. Qed.

Ltac listed :=
  intros ?;
  repeat (apply in_or_app;
          first [ left; solve [apply named_in; assumption | simpl; tauto] | right ]);
  first [apply named_in; assumption | simpl; tauto].

(** A column that is either listed or was assigned its old value. *)
Ltac covered fields :=
  first [ apply column_same
        | apply column_takes; unfold fields; listed
        | unfold column, fields;
          cbn [app str_in existsb orb String.eqb Ascii.eqb Bool.eqb]; reflexivity ].

(** Saving the columns of the change list stores the whole instance: every
    field an end-of-call report has assigned is named in its list. *)
Lemma push_fields_cover (now : Z) (call : Call) (message : Message) :
  let fields := push_fields call message in
  let instance := pre_save now fields (push_instance call message) in
  instance = set_updated_at now (push_instance call message)
  /\ write_fields fields instance call = instance.
Proof.
  cbv zeta.
  assert (pre_save now (push_fields call message) (push_instance call message)
          = set_updated_at now (push_instance call message)) as ->.
  { unfold pre_save, push_fields.
    cbn [app str_in existsb orb String.eqb Ascii.eqb Bool.eqb]. reflexivity. }
  split; [reflexivity |].
  unfold write_fields, push_instance, folded, set_updated_at. call_simpl.
  rewrite duration_choice. unfold merged_time.
  f_equal; try (covered push_fields).
  destruct (negb (String.eqb (push_status call message) (status call))) eqn:E.
  - unfold column. rewrite (proj2 (str_in_iff "status" (push_fields call message)));
      [reflexivity |].
    unfold push_fields. rewrite E. simpl. tauto.
  - apply negb_false_iff, String.eqb_eq in E. rewrite E. apply column_same.
Qed.

(** The same for the pull reconciler. *)
Lemma pull_fields_cover (now : Z) (call : Call) (vapi_data : VapiData) :
  let fields := pull_fields call vapi_data in
  let instance := pre_save now fields (pull_instance call vapi_data) in
  instance = set_updated_at now (pull_instance call vapi_data)
  /\ write_fields fields instance call = instance.
Proof.
  cbv zeta.
  assert (pre_save now (pull_fields call vapi_data) (pull_instance call vapi_data)
          = set_updated_at now (pull_instance call vapi_data)) as ->.
  { unfold pre_save, pull_fields.
    cbn [app str_in existsb orb String.eqb Ascii.eqb Bool.eqb]. reflexivity. }
  split; [reflexivity |].
  unfold write_fields, pull_instance, folded, set_updated_at. call_simpl.
  rewrite duration_choice. unfold merged_time.
  f_equal; covered pull_fields.
Qed.

End Coverage.

(** ** The handlers on a table with unique primary keys *)

Section Tables.

(** Two rows with the same primary key are the same row. *)
Lemma unique_row (db : list Call) (r c : Call) :
  List.NoDup (map pk db) -> In r db -> In c db -> pk r = pk c -> r = c.
Proof.
  induction db as [| x db IH]; [intros _ [] |].
  cbn [map]. intros N Hr Hc E. apply List.NoDup_cons_iff in N. destruct N as [Nx N].
  destruct Hr as [-> | Hr], Hc as [-> | Hc].
  - reflexivity.
  - exfalso. apply Nx. rewrite E. apply in_map. exact Hc.
  - exfalso. apply Nx. rewrite <- E. apply in_map. exact Hr.
  - apply IH; assumption.
Qed.

Lemma find_map_ext {A : Type} (P : A -> bool) (f : A -> A) (l : list A) :
  (forall x, In x l -> P (f x) = P x) ->
  List.find P (map f l) = option_map f (List.find P l).
Proof.
  induction l as [| x l IH]; [reflexivity |].
  intros H. cbn [map List.find]. rewrite (H x) by (left; reflexivity).
  destruct (P x); [reflexivity |]. apply IH. intros y Hy. apply H. right. exact Hy.
Qed.

(** When the change list covers the changes, saving an instance loaded from
    the table replaces its row by the instance. *)
Lemma save_replaces (now : Z) (fields : list string) (instance call : Call)
    (db : list Call) :
  List.NoDup (map pk db) -> In call db ->
  pk (pre_save now fields instance) = pk call ->
  write_fields fields (pre_save now fields instance) call
  = pre_save now fields instance ->
  snd (save now fields instance db)
  = map (fun row => if String.eqb (pk row) (pk call)
                    then pre_save now fields instance else row) db.
Proof.
  intros N Hc Hp Hw. unfold save. cbn [snd]. rewrite Hp.
  apply map_ext_in. intros row Hrow.
  destruct (String.eqb (pk row) (pk call)) eqn:E; [| reflexivity].
  apply String.eqb_eq in E.
  rewrite (unique_row db row call N Hrow Hc E). exact Hw.
Qed.

(** The row an end-of-call report is about becomes the folded instance,
    stamped; the other rows stay. *)
Lemma report_table (now : Z) (message : Message) (db : list Call) (call : Call) :
  List.NoDup (map pk db) ->
  m_type message = "end-of-call-report" ->
  PyStr.truthy (cd_id (m_call message)) = true ->
  find_by_vapi_call_id db (cd_id (m_call message)) = Some call ->
  handle_webhook now message db
  = match push_raises message with
    | Some e => mkServed db [] (Raised e)
    | None =>
        acknowledged
          (map (fun row => if String.eqb (pk row) (pk call)
                           then set_updated_at now (push_instance call message)
                           else row) db)
    end.
Proof.
  intros N Ht Hv Hf. unfold handle_webhook. rewrite Ht.
  cbn [String.eqb Ascii.eqb Bool.eqb]. unfold _handle_end_of_call_report.
  rewrite Hv, Hf. cbn [negb]. rewrite end_of_call_report_closed.
  destruct (push_raises message); [reflexivity |].
  destruct (push_fields_cover now call message) as [Hi Hw].
  rewrite <- Hi. f_equal.
  apply save_replaces; try assumption.
  - apply List.find_some in Hf. tauto.
  - rewrite Hi. reflexivity.
Qed.

Lemma push_instance_stamped (now : Z) (call : Call) (message : Message) :
  push_instance (set_updated_at now call) message
  = set_updated_at now (push_instance call message).
Proof. reflexivity. Qed.

(** The same report delivered twice leaves the table that the second
    delivery alone would leave. *)
Lemma report_twice_table (now later : Z) (message : Message) (db : list Call)
    (call : Call) :
  List.NoDup (map pk db) ->
  m_type message = "end-of-call-report" ->
  PyStr.truthy (cd_id (m_call message)) = true ->
  find_by_vapi_call_id db (cd_id (m_call message)) = Some call ->
  handle_webhook later message (table (handle_webhook now message db))
  = handle_webhook later message db.
Proof.
  intros N Ht Hv Hf.
  rewrite (report_table now message db call N Ht Hv Hf).
  rewrite (report_table later message db call N Ht Hv Hf).
  destruct (push_raises message) as [e |] eqn:R; cbn [table acknowledged].
  { rewrite (report_table later message db call N Ht Hv Hf), R. reflexivity. }
  set (f := fun row : Call =>
              if String.eqb (pk row) (pk call)
              then set_updated_at now (push_instance call message) else row).
  assert (forall row, pk (f row) = pk row) as Hpk.
  { intros row. unfold f. destruct (String.eqb (pk row) (pk call)) eqn:E;
      [| reflexivity]. apply String.eqb_eq in E. rewrite E. reflexivity. }
  assert (find_by_vapi_call_id (map f db) (cd_id (m_call message)) = Some (f call))
    as Hf'.
  { unfold find_by_vapi_call_id in *. rewrite find_map_ext, Hf; [reflexivity |].
    intros row Hrow. unfold f.
    destruct (String.eqb (pk row) (pk call)) eqn:E; [| reflexivity].
    apply String.eqb_eq in E. apply List.find_some in Hf.
    rewrite (unique_row db row call N Hrow (proj1 Hf) E). reflexivity. }
  rewrite (report_table later message (map f db) (f call)); try assumption.
  - rewrite R. f_equal. rewrite map_map. apply map_ext. intros row. rewrite !Hpk.
    unfold f. destruct (String.eqb (pk row) (pk call)); [| reflexivity].
    rewrite String.eqb_refl, push_instance_stamped, push_instance_idem. reflexivity.
  - rewrite map_map. erewrite map_ext; [exact N |]. intros row. apply Hpk.
Qed.

End Tables.

(** ** Saving *)

Section Saving.

(** Rows with another primary key are not touched by [save]. *)
Lemma save_others (now : Z) (update_fields : list string) (call : Call)
    (db : list Call) :
  Forall (fun row => pk row <> pk call) db ->
  snd (save now update_fields call db) = db.
Proof.
  intros H. unfold save. cbn [snd].
  assert (pk (pre_save now update_fields call) = pk call) as ->
    by (unfold pre_save; destruct (str_in _ _); reflexivity).
  induction H as [| row db Hrow _ IH]; [reflexivity |].
  cbn [map]. rewrite IH. apply String.eqb_neq in Hrow. rewrite Hrow. reflexivity.
Qed.

Lemma save_app (now : Z) (update_fields : list string) (call : Call)
    (db1 db2 : list Call) :
  snd (save now update_fields call (db1 ++ db2))
  = (snd (save now update_fields call db1) ++ snd (save now update_fields call db2))%list.
Proof. unfold save. cbn [snd]. apply map_app. Qed.

(** A lookup by primary key and owner finds, after a [save], the saved
    form of the row it found before. *)
Lemma find_after_save (now : Z) (update_fields : list string) (call : Call)
    (db : list Call) (call_id user_ : string) :
  List.find (fun c => String.eqb (pk c) call_id && String.eqb (user c) user_)
    (snd (save now update_fields call db))
  = option_map
      (fun row =>
         if String.eqb (pk row) (pk (pre_save now update_fields call))
         then write_fields update_fields (pre_save now update_fields call) row
         else row)
      (List.find (fun c => String.eqb (pk c) call_id && String.eqb (user c) user_) db).
Proof.
  unfold save. cbn [snd].
  induction db as [| row db IH]; [reflexivity |].
  cbn [map List.find].
  destruct (String.eqb (pk row) (pk (pre_save now update_fields call))) eqn:E;
    cbn [pk user write_fields];
    destruct (String.eqb (pk row) call_id && String.eqb (user row) user_);
    cbn [option_map]; rewrite ?E; try reflexivity; exact IH.
Qed.

End Saving.

(** ** C1: a terminal status under reconciliation *)

Section TerminalStatus.

(** A reason that matches none of the rules leaves a terminal status as it
    is, on the push channel and on the pull channel. *)
Lemma terminal_kept_when_unrecognized (call : Call) (vapi_data : VapiData)
    (vapi_call_id_ : string) :
  In (status call) TERMINAL_STATUSES ->
  v_status vapi_data = "ended" ->
  unrecognized (v_endedReason vapi_data) ->
  status (fst (_reconcile_call_from_vapi call vapi_data)) = status call
  /\ status (fst (end_of_call_report_apply call (report_of vapi_call_id_ vapi_data)))
     = status call.
Proof.
  intros T E U.
  rewrite reconcile_closed, end_of_call_report_closed.
  assert (pull_status call vapi_data = status call) as P.
  { unfold pull_status. rewrite E. cbn [String.eqb Ascii.eqb Bool.eqb].
    rewrite (map_ended_reason_unrecognized _ _ U).
    apply str_in_iff in T. rewrite T. reflexivity. }
  split.
  - rewrite P, guard_refl. destruct (pull_raises vapi_data); cbn [fst].
    + rewrite pull_partial_status. exact P.
    + unfold pull_instance. rewrite P. reflexivity.
  - assert (push_status call (report_of vapi_call_id_ vapi_data) = status call) as S.
    { unfold push_status. cbn [report_of m_endedReason].
      rewrite (map_ended_reason_unrecognized _ _ U).
      apply str_in_iff in T. rewrite T. reflexivity. }
    destruct (push_raises (report_of vapi_call_id_ vapi_data)); cbn [fst].
    + unfold push_partial. call_simpl. exact S.
    + unfold push_instance, folded. call_simpl. exact S.
Qed.

(** C1 (the code departs from the claim).  A call that is [failed] and
    receives an end-of-call report whose end reason is [customer-busy] ends
    up [busy], and so does a [cancelled] call that is synced against a pull
    response with that reason: the keyword rules of [_map_ended_reason] come
    before its test for a terminal current status, the report handler
    writes whatever differs, and the guard lets every terminal candidate
    through. *)
Theorem terminal_status_overwritten :
  let report := Sample.report "customer-busy" None None None in
  let vapi_data := Sample.snapshot "ended" "customer-busy" None None None in
  map status (table (handle_webhook 100 report [Sample.call "failed"])) = ["busy"]
  /\ status (fst (_reconcile_call_from_vapi (Sample.call "failed") vapi_data)) = "busy"
  /\ snd (_reconcile_call_from_vapi (Sample.call "failed") vapi_data)
     = Returned ["status"; "updated_at"]
  /\ map status
       (table (sync_call_status (Sample.answering vapi_data) 100 "call-1" "user-1"
                 [Sample.call "cancelled"]))
     = ["busy"].
Proof. vm_compute. repeat split; reflexivity. Qed.

End TerminalStatus.

(** ** C2: the push channel and the pull channel *)

Section Channels.

Lemma put_if_truthy_or_null (k : string) (v : json) (d : gmap string json) :
  put_if_truthy k (Json.or_ v JNull) d = put_if_truthy k v d.
Proof.
  unfold put_if_truthy, Json.or_. destruct (Json.truthy v) eqn:E.
  - rewrite E. reflexivity.
  - reflexivity.
Qed.

(** The report built from a pull response hands the handler the values the
    pull reconciler reads. *)
Lemma report_of_values (call : Call) (vid : string) (vapi_data : VapiData) :
  push_transcript (report_of vid vapi_data) = pull_transcript vapi_data
  /\ _extract_summary_from_webhook (report_of vid vapi_data)
       (m_artifact (report_of vid vapi_data))
     = _extract_summary vapi_data (v_artifact vapi_data)
  /\ push_analysis (report_of vid vapi_data) = pull_analysis vapi_data
  /\ push_meta call (report_of vid vapi_data) = pull_meta call vapi_data.
Proof.
  repeat split.
  - unfold push_analysis, pull_analysis. cbn [report_of m_analysis m_call cd_analysis
      m_artifact]. destruct (bool_decide (v_analysis vapi_data = ∅)) eqn:E;
      [| reflexivity].
    apply bool_decide_eq_true in E. rewrite E. reflexivity.
  - unfold push_meta, pull_meta, enrich_meta.
    cbn [report_of m_call m_recordingUrl m_stereoRecordingUrl m_messages m_cost
         m_costBreakdown cd_recordingUrl cd_stereoRecordingUrl cd_messages cd_cost
         cd_costBreakdown Json.is_not_none].
    rewrite !put_if_truthy_or_null. reflexivity.
Qed.

(** Where the pull reconciler reads a payload without raising, so does the
    report handler read the report built from it. *)
Lemma report_of_raises (vid : string) (vapi_data : VapiData) :
  pull_raises vapi_data = None -> push_raises (report_of vid vapi_data) = None.
Proof.
  unfold pull_raises, push_raises.
  destruct (parse_datetime (v_startedAt vapi_data)); [| discriminate].
  destruct (parse_datetime (v_endedAt vapi_data)); [| discriminate].
  cbn [report_of m_artifact]. intros H. exact H.
Qed.

(** An end-of-call report and a pull response that says [ended] leave the
    same instance, when the pull reconciler returns. *)
Lemma ended_same_instance (call : Call) (vid : string) (vapi_data : VapiData)
    (fields : list string) :
  v_status vapi_data = "ended" ->
  snd (_reconcile_call_from_vapi call vapi_data) = Returned fields ->
  exists fields',
    end_of_call_report_apply call (report_of vid vapi_data)
    = (fst (_reconcile_call_from_vapi call vapi_data), Returned fields').
Proof.
  intros E R.
  assert (pull_status call vapi_data
          = _map_ended_reason (v_endedReason vapi_data) (status call)) as P.
  { unfold pull_status. rewrite E. reflexivity. }
  destruct (reconcile_returned call vapi_data fields R) as [[G _] | (_ & N & ->)].
  { rewrite P, guard_terminal in G by apply map_ended_reason_terminal. discriminate. }
  rewrite end_of_call_report_closed, (report_of_raises vid vapi_data N).
  eexists. cbn [fst]. f_equal.
  unfold push_instance, pull_instance, push_summary, pull_summary.
  destruct (report_of_values call vid vapi_data) as (-> & -> & -> & ->).
  rewrite P. reflexivity.
Qed.

(** A status-update and a pull response that report the same live status,
    one of [queued], [ringing] and [in-progress], assign the same status. *)
Lemma live_same_status (call : Call) (vid vapi_status : string)
    (timestamp : option Z) (vapi_data : VapiData) :
  In vapi_status ["queued"; "ringing"; "in-progress"] ->
  v_status vapi_data = vapi_status ->
  status (after_status_update call (status_update_of vid vapi_status timestamp))
  = status (fst (_reconcile_call_from_vapi call vapi_data)).
Proof.
  intros Hs Hv. rewrite reconcile_closed.
  assert (VAPI_STATUS_MAP !! vapi_status = Some vapi_status
          /\ pull_status call vapi_data = vapi_status
          /\ PyStr.truthy vapi_status = true) as (Hm & Hp & Ht).
  { unfold pull_status. rewrite Hv. simpl in Hs.
    destruct Hs as [<- | [<- | [<- | []]]]; repeat split; vm_compute; reflexivity. }
  unfold after_status_update, status_update_apply.
  cbn [status_update_of m_status]. rewrite Hm, Ht, Hp, guards_agree. cbn [negb].
  destruct (_is_valid_status_transition (status call) vapi_status); cbn [negb].
  - rewrite assign_started_at. call_simpl.
    destruct (pull_raises vapi_data); cbn [fst].
    + rewrite pull_partial_status. symmetry. exact Hp.
    + unfold pull_instance, folded. call_simpl. symmetry. exact Hp.
  - reflexivity.
Qed.

(** C2 (amended).  For a snapshot that reports the end of the call and that
    the pull reconciler reads without raising, the end-of-call report of
    the push channel and the pull reconciler leave the same record: the
    report handler returns too, with the same status and the same content
    fields in the instance.  For the live statuses [queued], [ringing] and
    [in-progress], the status-update of the push channel and the pull
    reconciler assign the same status. *)
Theorem channels_agree (call : Call) (vid : string) :
  (forall (vapi_data : VapiData) (fields : list string),
      v_status vapi_data = "ended" ->
      snd (_reconcile_call_from_vapi call vapi_data) = Returned fields ->
      exists fields',
        end_of_call_report_apply call (report_of vid vapi_data)
        = (fst (_reconcile_call_from_vapi call vapi_data), Returned fields'))
  /\ (forall (vapi_status : string) (timestamp : option Z) (vapi_data : VapiData),
         In vapi_status ["queued"; "ringing"; "in-progress"] ->
         v_status vapi_data = vapi_status ->
         status (after_status_update call (status_update_of vid vapi_status timestamp))
         = status (fst (_reconcile_call_from_vapi call vapi_data))).
Proof.
  split.
  - intros vapi_data fields. apply ended_same_instance.
  - intros vapi_status timestamp vapi_data. apply live_same_status.
Qed.

Lemma channels_agree_witness :
  let call := Sample.call "ringing" in
  let vapi_data :=
    Sample.snapshot "ended" "customer-did-not-answer" (Some 1000000) (Some 9000000)
      (Some "Hello?") in
  (exists fields',
      end_of_call_report_apply call (report_of "vapi-1" vapi_data)
      = (fst (_reconcile_call_from_vapi call vapi_data), Returned fields'))
  /\ status (after_status_update call (status_update_of "vapi-1" "in-progress" None))
     = status (fst (_reconcile_call_from_vapi call (live_snapshot "in-progress"))).
Proof.
  cbv zeta. split.
  - apply (proj1 (channels_agree (Sample.call "ringing") "vapi-1")
             (Sample.snapshot "ended" "customer-did-not-answer" (Some 1000000)
                (Some 9000000) (Some "Hello?"))
             ["status"; "updated_at"; "started_at"; "ended_at"; "transcript";
              "duration_seconds"]).
    + reflexivity.
    + reflexivity.
  - apply (proj2 (channels_agree (Sample.call "ringing") "vapi-1") "in-progress" None).
    + simpl. tauto.
    + reflexivity.
Defined.

(** The claim as stated fails by the design of the push channel.  The
    status-update handler takes the status from [VAPI_STATUS_MAP], in which
    [ended] stands for [completed], and does not read the end reason; the
    pull reconciler maps the end reason.  For the same call and the same
    news, the call has ended because the customer was busy, the two channels
    store different statuses. *)
Lemma ended_differs_by_channel :
  let call := Sample.call "in-progress" in
  let vapi_data := Sample.snapshot "ended" "customer-busy" None None None in
  let update :=
    {| m_type := "status-update"; m_call := m_call (report_of "vapi-1" vapi_data);
       m_status := v_status vapi_data; m_timestamp := NoStamp;
       m_artifact := v_artifact vapi_data;
       m_endedReason := v_endedReason vapi_data;
       m_transcript := None; m_summary := None; m_analysis := ∅;
       m_recordingUrl := JNull; m_stereoRecordingUrl := JNull; m_messages := JNull;
       m_cost := JNull; m_costBreakdown := JNull |} in
  VAPI_STATUS_MAP !! "ended" = Some CallStatus.COMPLETED
  /\ map status (table (handle_webhook 100 update [call])) = ["completed"]
  /\ map status
       (table (get_call (Sample.answering vapi_data) 100 "call-1" "user-1" [call]))
     = ["busy"]
  /\ status (after_status_update call update)
     <> status (fst (_reconcile_call_from_vapi call vapi_data)).
Proof. vm_compute. repeat split. discriminate. Qed.

End Channels.

(** ** C3: the transition guard *)

Section Guard.

Lemma order_at_most_10 (s : string) : order s <= 10.
Proof.
  destruct (order_cases s) as [E | [E | [E | [E | [E | [E _]]]]]]; rewrite E; lia.
Qed.

(** An event that the guard rejects leaves the table as it was. *)
Lemma status_update_rejected (now : Z) (db : list Call) (message : Message)
    (call : Call) (new_status : string) :
  m_type message = "status-update" ->
  VAPI_STATUS_MAP !! m_status message = Some new_status ->
  find_by_vapi_call_id db (cd_id (m_call message)) = Some call ->
  _is_valid_transition (status call) new_status = false ->
  handle_webhook now message db = acknowledged db.
Proof.
  intros Ht Hm Hf Hg. unfold handle_webhook. rewrite Ht. cbn [String.eqb Ascii.eqb Bool.eqb].
  unfold _handle_status_update. rewrite Hm, Hf.
  unfold status_update_apply. rewrite Hm, Hg. cbn [negb].
  destruct (negb (PyStr.truthy new_status)); [reflexivity |].
  destruct (negb (PyStr.truthy (cd_id (m_call message)))); reflexivity.
Qed.

(** C3.  For current and candidate statuses of the canonical lattice, each
    copy of the transition guard answers true exactly when the candidate
    has order 10 or an order at least that of the current status; and a
    status-update reporting [queued] for a call that is [in-progress]
    leaves the table of calls, hence every field of the call, unchanged. *)
Theorem transition_guard_spec :
  (forall current candidate : string,
      In current CallStatus.choices -> In candidate CallStatus.choices ->
      (_is_valid_status_transition current candidate = true <->
       order candidate = 10 \/ order candidate >= order current)
      /\ (_is_valid_transition current candidate = true <->
          order candidate = 10 \/ order candidate >= order current))
  /\ (forall (now : Z) (db : list Call) (message : Message) (call : Call),
         m_type message = "status-update" ->
         m_status message = "queued" ->
         find_by_vapi_call_id db (cd_id (m_call message)) = Some call ->
         status call = CallStatus.IN_PROGRESS ->
         handle_webhook now message db = acknowledged db).
Proof.
  split.
  - intros current candidate _ _.
    pose proof (order_at_most_10 candidate) as Hc.
    pose proof (guard_iff current candidate) as Hg.
    split; [| rewrite guards_agree]; split; intros H; try (apply Hg); try (apply Hg in H); lia.
  - intros now db message call Ht Hs Hf Hc.
    apply (status_update_rejected now db message call "queued"); try assumption.
    + rewrite Hs. vm_compute. reflexivity.
    + rewrite Hc. vm_compute. reflexivity.
Qed.

Lemma transition_guard_spec_witness :
  (_is_valid_status_transition "in-progress" "queued" = true <->
   order "queued" = 10 \/ order "queued" >= order "in-progress")
  /\ handle_webhook 100 (status_update_of "vapi-1" "queued" (Some 5))
       [Sample.call "in-progress"] = acknowledged [Sample.call "in-progress"].
Proof.
  split.
  - apply (proj1 transition_guard_spec "in-progress" "queued"); simpl; tauto.
  - apply (proj2 transition_guard_spec 100 [Sample.call "in-progress"]
             (status_update_of "vapi-1" "queued" (Some 5))
             (Sample.call "in-progress")); reflexivity.
Defined.

End Guard.

(** ** C4: end-reason classification *)

Section Classification.

Lemma map_ended_reason_chain (reason current : string) :
  _map_ended_reason reason current =
  let r := normalized reason in
  if PyStr.contains "busy" r then CallStatus.BUSY
  else if PyStr.contains "no_answer" r || PyStr.contains "did_not_answer" r
       then CallStatus.NO_ANSWER
  else if PyStr.contains "voicemail" r then CallStatus.VOICEMAIL
  else if PyStr.contains "error" r then CallStatus.FAILED
  else if PyStr.contains "silence" r then CallStatus.COMPLETED
  else if str_in current TERMINAL_STATUSES then current
  else CallStatus.COMPLETED.
Proof. unfold _map_ended_reason. rewrite reason_lower_normalized. reflexivity. Qed.

(** C4.  On the lower-cased reason with hyphens turned into underscores the
    rules apply in this order: [busy]; else [no_answer] or [did_not_answer]
    gives no-answer; else [voicemail]; else [error] gives failed; else
    [silence] gives completed; else a terminal current status is returned
    unchanged; else completed.  So a reason in which both [busy] and [error]
    occur gives busy, and the reasons the specification lists are classified
    as it says. *)
Theorem ended_reason_priority (reason current : string) :
  let r := normalized reason in
  (PyStr.Occurs "busy" r -> _map_ended_reason reason current = "busy")
  /\ (~ PyStr.Occurs "busy" r ->
      PyStr.Occurs "no_answer" r \/ PyStr.Occurs "did_not_answer" r ->
      _map_ended_reason reason current = "no-answer")
  /\ (~ PyStr.Occurs "busy" r -> ~ PyStr.Occurs "no_answer" r ->
      ~ PyStr.Occurs "did_not_answer" r -> PyStr.Occurs "voicemail" r ->
      _map_ended_reason reason current = "voicemail")
  /\ (~ PyStr.Occurs "busy" r -> ~ PyStr.Occurs "no_answer" r ->
      ~ PyStr.Occurs "did_not_answer" r -> ~ PyStr.Occurs "voicemail" r ->
      PyStr.Occurs "error" r ->
      _map_ended_reason reason current = "failed")
  /\ (~ PyStr.Occurs "busy" r -> ~ PyStr.Occurs "no_answer" r ->
      ~ PyStr.Occurs "did_not_answer" r -> ~ PyStr.Occurs "voicemail" r ->
      ~ PyStr.Occurs "error" r -> PyStr.Occurs "silence" r ->
      _map_ended_reason reason current = "completed")
  /\ (unrecognized reason -> In current TERMINAL_STATUSES ->
      _map_ended_reason reason current = current)
  /\ (unrecognized reason -> ~ In current TERMINAL_STATUSES ->
      _map_ended_reason reason current = "completed")
  /\ (PyStr.Occurs "busy" r -> PyStr.Occurs "error" r ->
      _map_ended_reason reason current = "busy")
  /\ _map_ended_reason "customer-busy" current = "busy"
  /\ _map_ended_reason "customer-did-not-answer" current = "no-answer"
  /\ _map_ended_reason "silence-timed-out" current = "completed"
  /\ _map_ended_reason "assistant-error" current = "failed"
  /\ (unrecognized reason -> _map_ended_reason reason "in-progress" = "completed")
  /\ (unrecognized reason -> _map_ended_reason reason "failed" = "failed").
Proof.
  cbv zeta. rewrite map_ended_reason_chain. cbv zeta.
  repeat split.
  - intros H. apply contains_iff in H. rewrite H. reflexivity.
  - intros H1 H2. apply contains_false_iff in H1. rewrite H1.
    assert (PyStr.contains "no_answer" (normalized reason)
            || PyStr.contains "did_not_answer" (normalized reason) = true) as ->.
    { apply orb_true_iff. rewrite !contains_iff. exact H2. }
    reflexivity.
  - intros H1 H2 H3 H4. apply contains_false_iff in H1, H2, H3.
    apply contains_iff in H4. rewrite H1, H2, H3, H4. reflexivity.
  - intros H1 H2 H3 H4 H5. apply contains_false_iff in H1, H2, H3, H4.
    apply contains_iff in H5. rewrite H1, H2, H3, H4, H5. reflexivity.
  - intros H1 H2 H3 H4 H5 H6. apply contains_false_iff in H1, H2, H3, H4, H5.
    apply contains_iff in H6. rewrite H1, H2, H3, H4, H5, H6. reflexivity.
  - intros U T. rewrite <- map_ended_reason_chain.
    rewrite (map_ended_reason_unrecognized _ _ U).
    apply str_in_iff in T. rewrite T. reflexivity.
  - intros U T. rewrite <- map_ended_reason_chain.
    rewrite (map_ended_reason_unrecognized _ _ U).
    destruct (str_in current TERMINAL_STATUSES) eqn:E; [| reflexivity].
    apply str_in_iff in E. contradiction.
  - intros H _. apply contains_iff in H. rewrite H. reflexivity.
  - intros U. rewrite (map_ended_reason_unrecognized _ _ U). reflexivity.
  - intros U. rewrite (map_ended_reason_unrecognized _ _ U). reflexivity.
Qed.

Lemma ended_reason_priority_witness :
  _map_ended_reason "Customer-Busy-Error" "ringing" = "busy"
  /\ _map_ended_reason "customer-ended-call" "cancelled" = "cancelled".
Proof.
  split.
  - apply (proj1 (ended_reason_priority "Customer-Busy-Error" "ringing")).
    exists "customer_", "_error". reflexivity.
  - apply (proj1 (proj2 (proj2 (proj2 (proj2 (proj2
             (ended_reason_priority "customer-ended-call" "cancelled"))))))).
    + unfold unrecognized. cbv zeta. rewrite <- !contains_false_iff.
      vm_compute. tauto.
    + simpl. tauto.
Defined.

End Classification.

(** ** C5: the same end-of-call snapshot, twice *)

Section Idempotence.

(** C5 (amended).  Applying the same end-of-call snapshot a second time
    leaves the instance that the first application produced, on the push
    channel and on the pull channel; and a report delivered twice leaves
    the table that its second delivery alone would leave.  On the push
    channel the change list of the second application is not empty: it
    names [updated_at], which is saved with every report, and no field
    other than [updated_at] and [duration_seconds]; the second application
    raises only where the first did.  The change list of a report names every
    field the report has assigned: saving the listed columns stores the whole
    instance. *)
Theorem end_of_call_snapshot_idempotent :
  (forall (call : Call) (message : Message),
      let first := end_of_call_report_apply call message in
      let second := end_of_call_report_apply (fst first) message in
      fst second = fst first
      /\ match snd second with
         | Returned fields =>
             In "updated_at" fields
             /\ (forall name, In name fields ->
                              name = "updated_at" \/ name = "duration_seconds")
         | Raised exc => snd first = Raised exc
         end)
  /\ (forall (call : Call) (vapi_data : VapiData),
         let first := _reconcile_call_from_vapi call vapi_data in
         fst (_reconcile_call_from_vapi (fst first) vapi_data) = fst first)
  /\ (forall (now : Z) (call : Call) (message : Message) (fields : list string),
         let first := end_of_call_report_apply call message in
         snd first = Returned fields ->
         let instance := pre_save now fields (fst first) in
         write_fields fields instance call = instance)
  /\ (forall (now later : Z) (message : Message) (db : list Call) (call : Call),
         List.NoDup (map pk db) ->
         m_type message = "end-of-call-report" ->
         PyStr.truthy (cd_id (m_call message)) = true ->
         find_by_vapi_call_id db (cd_id (m_call message)) = Some call ->
         handle_webhook later message (table (handle_webhook now message db))
         = handle_webhook later message db).
Proof.
  split; [| split; [| split]].
  - intros call message. cbv zeta. split; [apply report_idem |].
    rewrite !end_of_call_report_closed.
    destruct (push_raises message); cbn [fst snd]; [reflexivity |].
    rewrite push_fields_again.
    split; [left; reflexivity |].
    intros name [<- | H]; [left; reflexivity |]. right.
    unfold named in H. destruct (takes_duration _ _ _); simpl in H.
    + destruct H as [<- | []]. reflexivity.
    + destruct H.
  - intros call vapi_data. apply reconcile_idem.
  - intros now call message fields. cbv zeta. intros R.
    destruct (report_returned _ _ _ R) as [_ E]. rewrite E in R. cbn [snd] in R.
    injection R as <-. rewrite E. cbn [fst].
    apply (proj2 (push_fields_cover now call message)).
  - intros now later message db call. apply report_twice_table.
Qed.

Lemma end_of_call_snapshot_idempotent_witness :
  let message := Sample.report "customer-ended-call" (Some 0) (Some 42000000)
                   (Some "Hello.") in
  let db := [Sample.call "in-progress"] in
  handle_webhook 200 message (table (handle_webhook 100 message db))
  = handle_webhook 200 message db.
Proof.
  cbv zeta.
  apply (proj2 (proj2 (proj2 end_of_call_snapshot_idempotent)) 100 200
           (Sample.report "customer-ended-call" (Some 0) (Some 42000000) (Some "Hello."))
           [Sample.call "in-progress"] (Sample.call "in-progress")).
  - constructor; [simpl; tauto | constructor].
  - reflexivity.
  - reflexivity.
  - reflexivity.
Defined.

(** The claim as stated fails: the second application of a snapshot still
    returns a change list, on either channel, and the save that the report
    handler makes stamps the row again. *)
Lemma second_report_is_saved :
  let call := Sample.call "in-progress" in
  let vapi_data := Sample.snapshot "ended" "customer-ended-call" (Some 0)
                     (Some 42000000) (Some "Hello.") in
  let message := report_of "vapi-1" vapi_data in
  let reported := end_of_call_report_apply call message in
  let pulled := _reconcile_call_from_vapi call vapi_data in
  snd (end_of_call_report_apply (fst reported) message) = Returned ["updated_at"]
  /\ snd (end_of_call_report_apply (fst reported) message) <> Returned []
  /\ snd (_reconcile_call_from_vapi (fst pulled) vapi_data)
     = Returned ["status"; "updated_at"]
  /\ map updated_at
       (table (handle_webhook 200 message (table (handle_webhook 100 message [call]))))
     <> map updated_at (table (handle_webhook 100 message [call])).
Proof. vm_compute. repeat split; discriminate. Qed.

End Idempotence.

(** ** C6: provider statuses outside the map *)

Section UnmappedStatus.

(** On the push channel a status that [VAPI_STATUS_MAP] does not know
    changes nothing. *)
Lemma unmapped_status_update_skipped (now : Z) (message : Message) (db : list Call) :
  m_type message = "status-update" ->
  VAPI_STATUS_MAP !! m_status message = None ->
  handle_webhook now message db = acknowledged db.
Proof.
  intros Ht Hm. unfold handle_webhook. rewrite Ht.
  cbn [String.eqb Ascii.eqb Bool.eqb]. unfold _handle_status_update.
  rewrite Hm. reflexivity.
Qed.

(** On the pull channel a string that [STATUS_ORDER] does not know changes
    nothing either when the call is past [pending]: the string has order 0,
    and the guard rejects it. *)
Lemma unmapped_pull_rejected (call : Call) (vapi_data : VapiData) :
  v_status vapi_data <> "ended" ->
  STATUS_ORDER !! v_status vapi_data = None ->
  PyStr.truthy (v_status vapi_data) = true ->
  0 < order (status call) ->
  _reconcile_call_from_vapi call vapi_data = (call, Returned []).
Proof.
  intros He Hn Ht Ho. rewrite reconcile_closed.
  assert (pull_status call vapi_data = v_status vapi_data) as P.
  { unfold pull_status. rewrite Ht.
    destruct (String.eqb (v_status vapi_data) "ended") eqn:E; [| reflexivity].
    apply String.eqb_eq in E. contradiction. }
  rewrite P.
  destruct (_is_valid_status_transition (status call) (v_status vapi_data)) eqn:G;
    [| reflexivity].
  apply guard_iff in G.
  assert (order (v_status vapi_data) = 0) as Z0 by (unfold order; rewrite Hn; reflexivity).
  lia.
Qed.

(** C6 (the code departs from the claim).  The call is the one [create_call]
    leaves when the provider accepts it: [queued], with a provider id.
    [initiated] and [completed] are not keys of [VAPI_STATUS_MAP]: a
    status-update that reports one of them changes nothing, while a pull
    response that reports it has the raw string stored as the status of the
    call, the pull reconciler having no map. *)
Theorem unmapped_status_stored_by_pull :
  let created :=
    create_call (fun _ => Returned (Some "vapi-1")) 0 "call-1" [Sample.contact_1] []
      "user-1" "contact-1" "assistant-1" "line-1" None None None JNull None [] in
  let db := table created in
  let pulled (raw : string) :=
    table (get_call (Sample.answering (live_snapshot raw)) 100 "call-1" "user-1" db) in
  db = [Sample.call "queued"]
  /\ VAPI_STATUS_MAP !! "initiated" = None
  /\ VAPI_STATUS_MAP !! "completed" = None
  /\ handle_webhook 100 (status_update_of "vapi-1" "initiated" None) db
     = acknowledged db
  /\ handle_webhook 100 (status_update_of "vapi-1" "completed" None) db
     = acknowledged db
  /\ map status (pulled "initiated") = ["initiated"]
  /\ map status (pulled "completed") = ["completed"]
  /\ status (fst (_reconcile_call_from_vapi (Sample.call "queued")
                    (live_snapshot "initiated")))
     = "initiated".
Proof. vm_compute. repeat split; reflexivity. Qed.

End UnmappedStatus.

(** ** C7: the duration *)

Section Duration.

Lemma duration_of_nonneg (started ended : Z) : 0 <= duration_of started ended.
Proof. unfold duration_of. lia. Qed.

Lemma duration_of_forward (started ended : Z) :
  started <= ended -> duration_of started ended = (ended - started) / 1000000.
Proof.
  intros H. unfold duration_of. rewrite Z.quot_div_nonneg by lia.
  apply Z.max_r. apply Z.div_pos; lia.
Qed.

Lemma duration_of_backward (started ended : Z) :
  ended < started -> duration_of started ended = 0.
Proof.
  intros H. unfold duration_of. apply Z.max_l.
  assert (0 <= Z.quot (started - ended) 1000000) by (apply Z.quot_pos; lia).
  replace (ended - started) with (- (started - ended)) by lia.
  rewrite Z.quot_opp_l by lia. lia.
Qed.

(** The duration a reconciliation leaves, when none was recorded: computed
    from the two merged timestamps if both are there, in whole seconds and
    never negative; left alone otherwise, and when a non-zero duration is
    already recorded. *)
Lemma folded_duration (call : Call) (ns : string) (t : option string) (s : string)
    (a m : gmap string json) (st en : option Z) :
  let call' := folded call ns t s a m st en in
  (forall d, duration_seconds call = Some d -> d <> 0 ->
             duration_seconds call' = Some d)
  /\ (started_at call' = None \/ ended_at call' = None ->
      duration_seconds call' = duration_seconds call)
  /\ (forall t0 t1, duration_seconds call = None ->
        started_at call' = Some t0 -> ended_at call' = Some t1 ->
        duration_seconds call' = Some (duration_of t0 t1)).
Proof.
  cbv zeta. unfold folded. call_simpl. repeat split.
  - intros d Hd Hz.
    destruct (merged_time (started_at call) st), (merged_time (ended_at call) en);
      try assumption.
    rewrite Hd. cbn [int_truthy]. apply Z.eqb_neq in Hz. rewrite Hz. reflexivity.
  - intros [H | H]; rewrite H; [reflexivity |].
    destruct (merged_time (started_at call) st); reflexivity.
  - intros t0 t1 Hd H0 H1. rewrite H0, H1, Hd. reflexivity.
Qed.

(** C7 (the code departs from the claim).  The test [not
    call.duration_seconds] reads a recorded duration of zero as no duration.
    A report for a call that lasted 0.4 s records the duration 0 and names
    [duration_seconds] among the changed fields; the same report, applied
    again, computes the duration again and names the field again.  And a row
    that holds the duration 0 next to timestamps five seconds apart has its
    duration replaced by 5 on the next reconciliation. *)
Theorem zero_duration_recomputed :
  let call := Sample.call "in-progress" in
  let message :=
    Sample.report "customer-ended-call" (Some 5000000) (Some 5400000) None in
  let first := end_of_call_report_apply call message in
  let second := end_of_call_report_apply (fst first) message in
  let stale :=
    set_duration_seconds (Some 0)
      (set_ended_at (Some 15000000) (set_started_at (Some 10000000) call)) in
  duration_seconds (fst first) = Some 0
  /\ snd first
     = Returned ["updated_at"; "status"; "started_at"; "ended_at"; "duration_seconds"]
  /\ snd second = Returned ["updated_at"; "duration_seconds"]
  /\ duration_seconds (fst (_reconcile_call_from_vapi stale (live_snapshot "in-progress")))
     = Some 5
  /\ snd (_reconcile_call_from_vapi stale (live_snapshot "in-progress"))
     = Returned ["status"; "updated_at"; "duration_seconds"].
Proof. vm_compute. repeat split; reflexivity. Qed.

End Duration.

(** ** C8: first write wins *)

Section FirstWrite.

(** A status-update touches the status and, at most, [started_at], and the
    latter only while it is unset. *)
Lemma status_update_instance (call : Call) (message : Message) (w : Work) :
  status_update_apply call message = Some w ->
  exists new_status : string,
    fst w =
    set_started_at
      (if String.eqb new_status CallStatus.IN_PROGRESS && negb (is_set (started_at call))
       then _parse_ts (m_timestamp message) else started_at call)
      (set_status new_status call).
Proof.
  unfold status_update_apply.
  destruct (VAPI_STATUS_MAP !! m_status message) as [new_status |]; [| discriminate].
  destruct (negb (PyStr.truthy new_status)); [discriminate |].
  destruct (negb (_is_valid_transition (status call) new_status)); [discriminate |].
  rewrite assign_started_at. intros H. injection H as <-.
  exists new_status. reflexivity.
Qed.

Lemma after_status_update_fields (call : Call) (message : Message) :
  let call' := after_status_update call message in
  transcript call' = transcript call /\ summary call' = summary call
  /\ analysis call' = analysis call /\ ended_at call' = ended_at call
  /\ duration_seconds call' = duration_seconds call
  /\ metadata call' = metadata call
  /\ (is_set (started_at call) = true -> started_at call' = started_at call).
Proof.
  cbv zeta. unfold after_status_update.
  destruct (status_update_apply call message) as [w |] eqn:E; [| tauto].
  apply status_update_instance in E. destruct E as [ns ->]. call_simpl.
  repeat split. intros ->. rewrite andb_false_r. reflexivity.
Qed.

Lemma keeps_written_refl (call : Call) : keeps_written call call.
Proof. unfold keeps_written. tauto. Qed.

Lemma folded_keeps (call : Call) (ns : string) (t : option string) (s : string)
    (a m : gmap string json) (st en : option Z) :
  keeps_written call (folded call ns t s a m st en).
Proof.
  unfold keeps_written, folded, takes_transcript, takes_summary, takes_analysis,
    merged_time, takes_time. call_simpl.
  repeat split; intros ->; rewrite andb_false_r; reflexivity.
Qed.

Lemma pull_partial_keeps (call : Call) (vapi_data : VapiData) :
  keeps_written call (pull_partial call vapi_data).
Proof.
  unfold keeps_written, pull_partial.
  destruct (parse_datetime (v_startedAt vapi_data));
    [destruct (parse_datetime (v_endedAt vapi_data)) |];
    call_simpl; unfold merged_time, takes_time, takes_transcript;
    repeat split; try (intros _; reflexivity);
    intros ->; rewrite andb_false_r; reflexivity.
Qed.

Lemma push_partial_keeps (call : Call) (message : Message) :
  keeps_written call (push_partial call message).
Proof.
  unfold keeps_written, push_partial. call_simpl. unfold takes_transcript.
  repeat split; try (intros _; reflexivity).
  intros ->. rewrite andb_false_r. reflexivity.
Qed.

Lemma pull_keeps (call : Call) (vapi_data : VapiData) :
  keeps_written call (fst (_reconcile_call_from_vapi call vapi_data)).
Proof.
  rewrite reconcile_closed.
  destruct (_is_valid_status_transition _ _); [| apply keeps_written_refl].
  destruct (pull_raises vapi_data); cbn [fst];
    [apply pull_partial_keeps | apply folded_keeps].
Qed.

Lemma report_keeps (call : Call) (message : Message) :
  keeps_written call (fst (end_of_call_report_apply call message)).
Proof.
  rewrite end_of_call_report_closed.
  destruct (push_raises message); cbn [fst];
    [apply push_partial_keeps | apply folded_keeps].
Qed.

Lemma update_keeps (call : Call) (message : Message) :
  keeps_written call (after_status_update call message).
Proof.
  destruct (after_status_update_fields call message) as (Ut & Us & Ua & Ue & _ & _ & Ust).
  unfold keeps_written. rewrite Ut, Us, Ua, Ue. repeat split; try tauto.
  unfold after_status_update.
  destruct (status_update_apply call message) as [w |] eqn:E; [| reflexivity].
  apply status_update_instance in E. destruct E as [ns ->]. reflexivity.
Qed.

(** Saving an instance that keeps what its row has written leaves a table
    whose rows all keep what they had written. *)
Lemma save_keeps (now : Z) (fields : list string) (instance call : Call)
    (db : list Call) :
  List.NoDup (map pk db) -> In call db -> keeps_written call instance ->
  Forall2 keeps_written db (snd (save now fields instance db)).
Proof.
  intros N Hc K. unfold save. cbn [snd].
  assert (forall row, In row db ->
            keeps_written row
              (if String.eqb (pk row) (pk (pre_save now fields instance))
               then write_fields fields (pre_save now fields instance) row else row))
    as H.
  { intros row Hrow.
    destruct (String.eqb (pk row) (pk (pre_save now fields instance))) eqn:E;
      [| apply keeps_written_refl].
    apply String.eqb_eq in E.
    assert (pk (pre_save now fields instance) = pk call) as Hp.
    { unfold pre_save. destruct (str_in _ _); apply K. }
    rewrite Hp in E. rewrite (unique_row db row call N Hrow Hc E).
    destruct K as (_ & Kt & Ks & Ka & Kst & Ken).
    unfold keeps_written, write_fields, column, pre_save. call_simpl.
    repeat split; intros Hx; destruct (str_in _ fields); try reflexivity;
      destruct (str_in "updated_at" fields); call_simpl; auto. }
  clear Hc K. induction db as [| row db IH]; [constructor |].
  cbn [map]. constructor.
  - apply H. left. reflexivity.
  - apply IH.
    + cbn [map] in N. apply List.NoDup_cons_iff in N. tauto.
    + intros r Hr. apply H. right. exact Hr.
Qed.

Lemma Forall2_keeps_refl (db : list Call) : Forall2 keeps_written db db.
Proof. induction db; constructor; [apply keeps_written_refl | assumption]. Qed.

Lemma handle_webhook_keeps (now : Z) (message : Message) (db : list Call) :
  List.NoDup (map pk db) ->
  Forall2 keeps_written db (table (handle_webhook now message db)).
Proof.
  intros N. unfold handle_webhook, acknowledged.
  destruct (String.eqb (m_type message) "status-update").
  - unfold _handle_status_update, acknowledged.
    destruct (VAPI_STATUS_MAP !! m_status message) as [ns |];
      [| apply Forall2_keeps_refl].
    destruct (negb (PyStr.truthy ns)); [apply Forall2_keeps_refl |].
    destruct (negb (PyStr.truthy (cd_id (m_call message))));
      [apply Forall2_keeps_refl |].
    destruct (find_by_vapi_call_id db (cd_id (m_call message))) as [call |] eqn:F;
      [| apply Forall2_keeps_refl].
    pose proof (update_keeps call message) as K. unfold after_status_update in K.
    destruct (status_update_apply call message) as [[call' fields] |];
      [| apply Forall2_keeps_refl].
    apply List.find_some in F. apply (save_keeps now fields call' call); tauto.
  - destruct (String.eqb (m_type message) "end-of-call-report");
      [| apply Forall2_keeps_refl].
    unfold _handle_end_of_call_report, acknowledged.
    destruct (negb (PyStr.truthy (cd_id (m_call message))));
      [apply Forall2_keeps_refl |].
    destruct (find_by_vapi_call_id db (cd_id (m_call message))) as [call |] eqn:F;
      [| apply Forall2_keeps_refl].
    pose proof (report_keeps call message) as K.
    destruct (end_of_call_report_apply call message) as [call' [fields | e]];
      [| apply Forall2_keeps_refl].
    apply List.find_some in F. apply (save_keeps now fields call' call); tauto.
Qed.

Lemma get_call_keeps (get : string -> Outcome VapiData) (now : Z)
    (call_id user_ : string) (db : list Call) :
  List.NoDup (map pk db) ->
  Forall2 keeps_written db (table (get_call get now call_id user_ db)).
Proof.
  intros N. unfold get_call.
  destruct (List.find _ db) as [call |] eqn:F; [| apply Forall2_keeps_refl].
  destruct (str_in (status call) ACTIVE_STATUSES && PyStr.truthy_opt (vapi_call_id call));
    [| apply Forall2_keeps_refl].
  destruct (get _) as [vapi_data | e]; [| apply Forall2_keeps_refl].
  pose proof (pull_keeps call vapi_data) as K.
  destruct (_reconcile_call_from_vapi call vapi_data) as [call' [fields | e]];
    [| apply Forall2_keeps_refl].
  destruct fields as [| f fields]; [apply Forall2_keeps_refl |].
  destruct (save now (f :: fields) call' db) as [c d] eqn:S.
  cbn [table]. change d with (snd (c, d)). rewrite <- S.
  apply List.find_some in F. apply (save_keeps now (f :: fields) call' call); tauto.
Qed.

(** C8.  A transcript, summary, analysis, start time or end time that the
    call already holds is left as it is by every reconciliation, whatever
    the snapshot carries: in the instance, by the pull reconciler, by the
    end-of-call report and by the status-update of the push channel; and in
    every row of the table, by a webhook and by the sync of [get_call]. *)
Theorem first_write_wins :
  (forall (call : Call) (vapi_data : VapiData),
      keeps_written call (fst (_reconcile_call_from_vapi call vapi_data)))
  /\ (forall (call : Call) (report : Message),
         keeps_written call (fst (end_of_call_report_apply call report)))
  /\ (forall (call : Call) (update : Message),
         keeps_written call (after_status_update call update))
  /\ (forall (now : Z) (message : Message) (db : list Call),
         List.NoDup (map pk db) ->
         Forall2 keeps_written db (table (handle_webhook now message db)))
  /\ (forall (get : string -> Outcome VapiData) (now : Z) (call_id user_ : string)
             (db : list Call),
         List.NoDup (map pk db) ->
         Forall2 keeps_written db (table (get_call get now call_id user_ db))).
Proof.
  split; [| split; [| split; [| split]]].
  - apply pull_keeps.
  - apply report_keeps.
  - apply update_keeps.
  - apply handle_webhook_keeps.
  - apply get_call_keeps.
Qed.

Lemma first_write_wins_witness :
  let call := set_transcript (Some "Hi, this is Ada.") (Sample.call "in-progress") in
  let report := Sample.report "customer-ended-call" None None (Some "Another.") in
  Forall2 keeps_written [call] (table (handle_webhook 100 report [call]))
  /\ map transcript (table (handle_webhook 100 report [call]))
     = [Some "Hi, this is Ada."].
Proof.
  cbv zeta. split.
  - apply (proj1 (proj2 (proj2 (proj2 first_write_wins))) 100).
    constructor; [simpl; tauto | constructor].
  - vm_compute. reflexivity.
Defined.

End FirstWrite.

(** ** C9: a provider error while creating a call *)

Section Creation.

Variable create : OutboundCall -> Outcome (option string).
Variables (now : Z) (new_id : string).
Variables (contacts : list Contact) (scripts : list CallScript).
Variables (user_ contact_id assistant_id_ phone_number_id_ : string).
Variables (script_id_ custom_prompt first_message : option string).
Variables (call_goals : json) (metadata_ : option (gmap string json)).
Variable db : list Call.

Hypothesis new_id_fresh : Forall (fun row => pk row <> new_id) db.

Let served : Served Call :=
  create_call create now new_id contacts scripts user_ contact_id assistant_id_
    phone_number_id_ script_id_ custom_prompt first_message call_goals metadata_ db.

(** The three ways [create_call] ends: rejected before any row exists;
    the provider raised; the provider answered. *)
Lemma create_call_cases :
  (requests served = [] /\ table served = db /\ exists exc, outcome served = Raised exc)
  \/ (exists payload exc row,
         requests served = [CreateCallRequest payload]
         /\ create payload = Raised exc /\ outcome served = Raised exc
         /\ table served = (db ++ [row])%list /\ pk row = new_id
         /\ status row = CallStatus.FAILED
         /\ error_message row = Some (str_of_exc exc))
  \/ (exists payload response_id row,
         requests served = [CreateCallRequest payload]
         /\ create payload = Returned response_id /\ outcome served = Returned row
         /\ table served = (db ++ [row])%list /\ pk row = new_id
         /\ status row = CallStatus.QUEUED /\ vapi_call_id row = response_id).
Proof.
  unfold served, create_call.
  destruct (MAX_PENDING_CALLS <=? _get_active_call_count db user_);
    [left; cbn; eauto |].
  destruct (List.find _ contacts) as [contact_ |]; [| left; cbn; eauto].
  destruct (resolve_script scripts user_ script_id_ custom_prompt first_message
              call_goals) as [[[cp fm] cg] | e]; [| left; cbn; eauto].
  cbv zeta.
  match goal with
  | |- context [create ?p] => set (payload := p); destruct (create payload) eqn:E
  end.
  - right. right. exists payload, value.
    destruct (save now ["vapi_call_id"; "status"; "updated_at"] _ _) as [c d] eqn:S.
    pose proof (f_equal fst S) as Sc. pose proof (f_equal snd S) as Sd.
    cbn [fst snd] in Sc, Sd. rewrite save_app, save_others in Sd by exact new_id_fresh.
    exists c. cbn [table requests outcome]. clear S. subst c d.
    unfold save. cbn. rewrite String.eqb_refl.
    repeat split; try exact E; reflexivity.
  - right. left. exists payload, exc.
    destruct (save now ["status"; "error_message"; "updated_at"] _ _) as [c d] eqn:S.
    pose proof (f_equal snd S) as Sd.
    cbn [fst snd] in Sd. rewrite save_app, save_others in Sd by exact new_id_fresh.
    eexists. cbn [table requests outcome]. clear S. subst d.
    unfold save. cbn. rewrite String.eqb_refl.
    repeat split; try exact E; reflexivity.
Qed.

(** C9.  When the create-call request to the provider raises, [create_call]
    raises the same error, and the row it has just inserted is [failed] and
    carries the text of the error; and whenever [create_call] raises, no row
    with the new primary key is left [pending]. *)
Theorem create_call_marks_failed :
  (forall payload exc,
      In (CreateCallRequest payload) (requests served) ->
      create payload = Raised exc ->
      outcome served = Raised exc
      /\ exists row,
           table served = (db ++ [row])%list /\ pk row = new_id
           /\ status row = CallStatus.FAILED
           /\ error_message row = Some (str_of_exc exc))
  /\ (forall exc row,
         outcome served = Raised exc -> In row (table served) -> pk row = new_id ->
         status row <> CallStatus.PENDING).
Proof.
  destruct create_call_cases
    as [(Hr & Ht & e & Ho)
       | [(p & e & r & Hr & Hc & Ho & Ht & Hp & Hs & He)
         | (p & i & r & Hr & Hc & Ho & Ht & Hp & Hs & Hv)]].
  - split.
    + intros payload exc Hin. rewrite Hr in Hin. destruct Hin.
    + intros exc row _ Hin Hpk. rewrite Ht in Hin.
      rewrite List.Forall_forall in new_id_fresh.
      apply new_id_fresh in Hin. contradiction.
  - split.
    + intros payload exc Hin Hraise. rewrite Hr in Hin.
      destruct Hin as [Hin | []]. injection Hin as <-.
      rewrite Hc in Hraise. injection Hraise as <-.
      split; [exact Ho |]. exists r. repeat split; assumption.
    + intros exc row _ Hin Hpk. rewrite Ht in Hin. apply in_app_or in Hin.
      destruct Hin as [Hin | [<- | []]].
      * rewrite List.Forall_forall in new_id_fresh.
        apply new_id_fresh in Hin. contradiction.
      * rewrite Hs. discriminate.
  - split.
    + intros payload exc Hin Hraise. rewrite Hr in Hin.
      destruct Hin as [Hin | []]. injection Hin as <-.
      rewrite Hc in Hraise. discriminate.
    + intros exc row Hraise. rewrite Ho in Hraise. discriminate.
Qed.

End Creation.

(** A provider that is down, one contact, an empty table. *)
Lemma create_call_marks_failed_witness :
  let served :=
    create_call (fun _ => Raised (VapiAPIError "Vapi error 500: down")) 100 "call-9"
      [Sample.contact_1] [] "user-1" "contact-1" "assistant-1" "line-1" None None None
      JNull None [] in
  outcome served = Raised (VapiAPIError "Vapi error 500: down")
  /\ map status (table served) = ["failed"]
  /\ map error_message (table served) = [Some "Vapi error 500: down"].
Proof.
  cbv zeta.
  destruct (proj1 (create_call_marks_failed
              (fun _ => Raised (VapiAPIError "Vapi error 500: down")) 100 "call-9"
              [Sample.contact_1] [] "user-1" "contact-1" "assistant-1" "line-1" None
              None None JNull None [] (List.Forall_nil _))
              {| oc_assistant_id := "assistant-1"; oc_phone_number_id := "line-1";
                 oc_customer_number := "+15550100"; oc_customer_name := "Ada";
                 oc_custom_prompt := None; oc_first_message := None;
                 oc_call_goals := JNull;
                 oc_metadata :=
                   <["userId" := JStr "user-1"]>
                     (<["contactId" := JStr "contact-1"]>
                        (<["internalCallId" := JStr "call-9"]> ∅)) |}
              (VapiAPIError "Vapi error 500: down"))
    as (Ho & row & Ht & _ & Hs & He).
  - left. reflexivity.
  - reflexivity.
  - split; [exact Ho |]. rewrite Ht. cbn [app map]. rewrite Hs, He. split; reflexivity.
Defined.

(** ** C10: cancelling after the opportunistic sync *)

Section Cancellation.

Variable get : string -> Outcome VapiData.
Variable stop : string -> Outcome unit.
Variables (now : Z) (call_id user_ : string) (db : list Call).

Let got : Served Call := get_call get now call_id user_ db.
Let served : Served Call := cancel_call get stop now call_id user_ db.

Lemma pull_fields_head (call : Call) (vapi_data : VapiData) :
  exists rest, pull_fields call vapi_data = "status" :: rest.
Proof. unfold pull_fields. cbn [app]. eauto. Qed.

Lemma pre_save_keeps (fields : list string) (call : Call) :
  pk (pre_save now fields call) = pk call
  /\ status (pre_save now fields call) = status call
  /\ vapi_call_id (pre_save now fields call) = vapi_call_id call.
Proof. unfold pre_save. destruct (str_in _ _); repeat split; reflexivity. Qed.

(** [get_call] asks the provider for the call at most, never to stop it. *)
Lemma get_call_never_stops (vid : string) : ~ In (StopCallRequest vid) (requests got).
Proof.
  unfold got, get_call.
  destruct (List.find _ db) as [call0 |]; [| intros []].
  destruct (str_in (status call0) ACTIVE_STATUSES && PyStr.truthy_opt (vapi_call_id call0));
    [| intros []].
  destruct (get _) as [vapi_data | e]; [| intros [H | []]; discriminate].
  destruct (_reconcile_call_from_vapi call0 vapi_data) as [c [[| f fs] | e]];
    intros [H | []]; discriminate.
Qed.

(** What [cancel_call] does with the call [get_call] has returned: the
    instance, which is what [get_call] left of it.  If [get_call] raises, so
    does [cancel_call].  If the instance is terminal, or has no provider id,
    [cancel_call] raises the not-cancellable error, sends no stop request
    and leaves the table as [get_call] left it.  Otherwise the stop request
    is sent, and the status becomes [cancelled] exactly when that request
    succeeds. *)
Lemma cancel_call_cases :
  (forall exc, outcome got = Raised exc ->
               outcome served = Raised exc /\ table served = table got
               /\ requests served = requests got)
  /\ (forall call, outcome got = Returned call ->
        (In (status call) TERMINAL_STATUSES
         \/ PyStr.truthy_opt (vapi_call_id call) = false ->
         (exists detail, outcome served = Raised (CallNotCancellableError detail))
         /\ table served = table got
         /\ (forall vid, ~ In (StopCallRequest vid) (requests served)))
        /\ (~ In (status call) TERMINAL_STATUSES ->
            PyStr.truthy_opt (vapi_call_id call) = true ->
            exists vid,
              vapi_call_id call = Some vid
              /\ requests served = (requests got ++ [StopCallRequest vid])%list
              /\ match stop vid with
                 | Returned _ =>
                     (exists call', outcome served = Returned call'
                                    /\ status call' = CallStatus.CANCELLED)
                     /\ table served
                        = snd (save now ["status"; "updated_at"]
                                 (set_status CallStatus.CANCELLED call) (table got))
                 | Raised exc =>
                     outcome served = Raised exc /\ table served = table got
                 end)).
Proof.
  pose proof get_call_never_stops as Hstop. fold got in Hstop.
  unfold served, cancel_call. fold got. split.
  - intros exc H. rewrite H. repeat split.
  - intros call H. rewrite H. split.
    + intros Hc.
      destruct (str_in (status call) TERMINAL_STATUSES) eqn:T.
      * cbn [table requests outcome]. repeat split; eauto.
      * destruct Hc as [Hc | Hc]; [apply str_in_iff in Hc; congruence |].
        rewrite Hc. cbn [negb table requests outcome]. repeat split; eauto.
    + intros Hn Hv.
      destruct (str_in (status call) TERMINAL_STATUSES) eqn:T;
        [apply str_in_iff in T; contradiction |].
      rewrite Hv. cbn [negb].
      destruct (vapi_call_id call) as [vid |] eqn:V; [| discriminate].
      exists vid. cbn [PyStr.or_empty]. split; [reflexivity |].
      destruct (stop vid) as [[] | exc].
      * destruct (save now ["status"; "updated_at"] _ _) as [c d] eqn:S.
        pose proof (f_equal fst S) as Sc. pose proof (f_equal snd S) as Sd.
        cbn [fst snd] in Sc, Sd. cbn [table requests outcome].
        split; [reflexivity |]. split; [| reflexivity].
        exists c. split; [reflexivity |]. subst c.
        unfold pre_save. destruct (str_in _ _); reflexivity.
      * cbn [table requests outcome]. repeat split.
Qed.

End Cancellation.

(** C10 (the code departs from the claim).  The call is stored as [queued].
    The provider reports that it has ended, with a structured output whose
    result is a boolean.  The reconciler assigns [completed] to the instance
    and then raises on the boolean; [get_call] catches the exception and
    returns that instance, not the stale call its comment promises, and has
    saved nothing.  [cancel_call] finds the instance terminal and refuses,
    while the record is still [queued]: the record does not hold the status
    the sync arrived at. *)
Theorem cancel_refused_on_unsaved_sync :
  let db := [Sample.call "queued"] in
  let vapi_data :=
    Sample.with_outputs Sample.graded
      (Sample.snapshot "ended" "customer-ended-call" None None None) in
  let provider := Sample.answering vapi_data in
  let got := get_call provider 100 "call-1" "user-1" db in
  let served := cancel_call provider (fun _ => Returned tt) 100 "call-1" "user-1" db in
  _reconcile_call_from_vapi (Sample.call "queued") vapi_data
  = (Sample.call "completed",
     Raised (OtherException "'bool' object has no attribute 'strip'"))
  /\ got = mkServed db [GetCallRequest "vapi-1"] (Returned (Sample.call "completed"))
  /\ served
     = mkServed db [GetCallRequest "vapi-1"]
         (Raised (CallNotCancellableError
            "Cannot cancel a call that is already completed, failed, or cancelled."))
  /\ map status (table served) = ["queued"].
Proof. vm_compute. repeat split; reflexivity. Qed.

(** ** Phone numbers *)

Section PhoneNumbers.

Lemma isdigit_not_space (c : ascii) : isdigit c = true -> PyStr.isspace c = false.
Proof. destruct c as [[] [] [] [] [] [] [] []]; vm_compute; congruence. Qed.

Lemma isdigit_not_plus (c : ascii) : isdigit c = true -> Ascii.eqb "+" c = false.
Proof. destruct c as [[] [] [] [] [] [] [] []]; vm_compute; congruence. Qed.

Lemma digits_only_all_digits (s : string) : all_digits (digits_only s) = true.
Proof.
  induction s as [| c t IH]; [reflexivity |]. cbn [digits_only].
  destruct (isdigit c) eqn:E; [| exact IH]. cbn [all_digits]. rewrite E. exact IH.
Qed.

Lemma digits_only_fixed (s : string) : all_digits s = true -> digits_only s = s.
Proof.
  induction s as [| c t IH]; [reflexivity |]. cbn [all_digits digits_only].
  intros H. apply andb_true_iff in H. destruct H as [Hc Ht].
  rewrite Hc, (IH Ht). reflexivity.
Qed.

Lemma all_digits_app (a b : string) :
  all_digits (a ++ b) = all_digits a && all_digits b.
Proof.
  induction a as [| c t IH]; [reflexivity |]. simpl.
  rewrite IH, andb_assoc. reflexivity.
Qed.

Lemma all_digits_drop (n : nat) (s : string) :
  all_digits s = true -> all_digits (str_drop n s) = true.
Proof.
  revert s. induction n as [| n IH]; intros s H; [exact H |].
  destruct s as [| c t]; [reflexivity |]. cbn [str_drop]. apply IH.
  cbn [all_digits] in H. apply andb_true_iff in H. tauto.
Qed.

Lemma lstrip_digits (s : string) : digits_only (PyStr.lstrip s) = digits_only s.
Proof.
  induction s as [| c t IH]; [reflexivity |]. cbn [PyStr.lstrip].
  destruct (PyStr.isspace c) eqn:E; [| reflexivity].
  rewrite IH. cbn [digits_only].
  destruct (isdigit c) eqn:D; [| reflexivity].
  apply isdigit_not_space in D. congruence.
Qed.

Lemma rstrip_digits (s : string) : digits_only (PyStr.rstrip s) = digits_only s.
Proof.
  induction s as [| c t IH]; [reflexivity |]. cbn [PyStr.rstrip].
  destruct (PyStr.rstrip t) as [| d r] eqn:R.
  - cbn [digits_only] in IH. cbn [digits_only]. rewrite <- IH.
    destruct (PyStr.isspace c) eqn:E; [| reflexivity].
    destruct (isdigit c) eqn:D; [| reflexivity].
    apply isdigit_not_space in D. congruence.
  - cbn [digits_only]. rewrite <- IH. reflexivity.
Qed.

Lemma strip_digits (s : string) : digits_only (PyStr.strip s) = digits_only s.
Proof. unfold PyStr.strip. rewrite rstrip_digits. apply lstrip_digits. Qed.

(** White space has nothing to take from a plus sign followed by digits. *)
Lemma rstrip_all_digits (s : string) : all_digits s = true -> PyStr.rstrip s = s.
Proof.
  induction s as [| c t IH]; [reflexivity |]. cbn [all_digits PyStr.rstrip].
  intros H. apply andb_true_iff in H. destruct H as [Hc Ht].
  rewrite (IH Ht). destruct t; [| reflexivity].
  rewrite (isdigit_not_space c Hc). reflexivity.
Qed.

Lemma strip_e164 (ds : string) :
  all_digits ds = true -> PyStr.strip (String "+" ds) = String "+" ds.
Proof.
  intros H. unfold PyStr.strip. cbn [PyStr.lstrip].
  change (PyStr.isspace "+") with false. cbn iota.
  cbn [PyStr.rstrip]. rewrite (rstrip_all_digits ds H).
  destruct ds; reflexivity.
Qed.

(** A number in E.164 form, a plus sign and digits, is returned as it is. *)
Lemma normalize_e164 (ds : string) :
  all_digits ds = true -> normalize_phone_number (String "+" ds) = String "+" ds.
Proof.
  intros H. unfold normalize_phone_number. cbn [PyStr.truthy negb].
  rewrite (strip_e164 ds H). cbn [PyStr.startswith Ascii.eqb Bool.eqb andb str_drop].
  rewrite (digits_only_fixed ds H). reflexivity.
Qed.

(** X1.  Whatever is entered, the normalised number of a non-empty input is
    a plus sign followed by digits only. *)
Theorem normalize_phone_number_shape (phone : string) :
  phone <> "" ->
  exists ds : string,
    normalize_phone_number phone = String "+" ds /\ all_digits ds = true.
Proof.
  intros Hne. unfold normalize_phone_number.
  destruct phone as [| c t]; [contradiction |]. cbn [PyStr.truthy negb].
  set (raw := PyStr.strip (String c t)).
  pose proof (digits_only_all_digits raw) as Hd.
  pose proof (digits_only_all_digits (str_drop 1 raw)) as Hp.
  assert (forall k a, all_digits k = true -> all_digits a = true ->
            exists ds, (String "+" k ++ a)%string = String "+" ds
                       /\ all_digits ds = true) as K.
  { intros k a Hk Ha. exists (k ++ a)%string. split; [reflexivity |].
    rewrite all_digits_app, Hk, Ha. reflexivity. }
  repeat match goal with
         | |- context [if ?b then _ else _] => destruct b
         | |- context [match digits_only raw with _ => _ end] =>
             destruct (digits_only raw) eqn:?
         end;
    first [ apply (K "" _ eq_refl); first [assumption | apply all_digits_drop; assumption]
          | apply (K "91" _ eq_refl); assumption
          | apply (K "1" _ eq_refl); assumption
          | apply (K "971" _ eq_refl); assumption
          | apply (K "44" _ eq_refl); apply all_digits_drop; assumption
          | apply (K "44" _ eq_refl); assumption ].
Qed.

Lemma normalize_phone_number_shape_witness :
  exists ds : string,
    normalize_phone_number " (415) 555-0100 " = String "+" ds
    /\ all_digits ds = true.
Proof. apply normalize_phone_number_shape. discriminate. Defined.

(** X2.  Normalising is idempotent: a normalised number is left as it is,
    so a number stored normalised and normalised again on the way to the
    provider is the stored number. *)
Theorem normalize_phone_number_idempotent (phone : string) :
  normalize_phone_number (normalize_phone_number phone)
  = normalize_phone_number phone.
Proof.
  destruct phone as [| c t]; [reflexivity |].
  destruct (normalize_phone_number_shape (String c t)) as (ds & -> & H);
    [discriminate |].
  apply normalize_e164. exact H.
Qed.

(** X3.  Only the digits count: two inputs that do not start with a plus
    sign and have the same digits, in whatever punctuation and spacing,
    normalise to the same number. *)
Theorem normalize_phone_number_punctuation (p q : string) :
  p <> "" -> q <> "" ->
  PyStr.startswith "+" (PyStr.strip p) = false ->
  PyStr.startswith "+" (PyStr.strip q) = false ->
  digits_only p = digits_only q ->
  normalize_phone_number p = normalize_phone_number q.
Proof.
  intros Hp Hq Sp Sq E. unfold normalize_phone_number.
  destruct p; [contradiction |]. destruct q; [contradiction |].
  cbn [PyStr.truthy negb]. rewrite Sp, Sq, !strip_digits, E. reflexivity.
Qed.

Lemma normalize_phone_number_punctuation_witness :
  normalize_phone_number "(415) 555-0100" = normalize_phone_number "415.555.0100".
Proof.
  apply normalize_phone_number_punctuation; try discriminate; reflexivity.
Defined.

(** X4.  The international prefix [00] stands for the plus sign. *)
Theorem normalize_phone_number_00 (ds : string) :
  all_digits ds = true ->
  normalize_phone_number ("00" ++ ds) = normalize_phone_number ("+" ++ ds).
Proof.
  intros H. change ("+" ++ ds)%string with (String "+" ds).
  rewrite (normalize_e164 ds H).
  change ("00" ++ ds)%string with (String "0" (String "0" ds)).
  unfold normalize_phone_number. cbn [PyStr.truthy negb].
  assert (all_digits (String "0" (String "0" ds)) = true) as H2
    by (cbn [all_digits]; rewrite H; reflexivity).
  assert (PyStr.strip (String "0" (String "0" ds)) = String "0" (String "0" ds)) as ->.
  { unfold PyStr.strip. cbn [PyStr.lstrip]. change (PyStr.isspace "0") with false.
    cbn iota. apply rstrip_all_digits. exact H2. }
  cbn [PyStr.startswith Ascii.eqb Bool.eqb andb].
  rewrite (digits_only_fixed _ H2). reflexivity.
Qed.

Lemma normalize_phone_number_00_witness :
  normalize_phone_number ("00" ++ "442071838750")
  = normalize_phone_number ("+" ++ "442071838750").
Proof. apply normalize_phone_number_00. reflexivity. Defined.

End PhoneNumbers.

(** ** Listing calls *)

Section Listing.

Variable created_at : string -> Z.

Lemma insert_newest_perm (c : Call) (l : list Call) :
  Permutation (insert_newest created_at c l) (c :: l).
Proof.
  induction l as [| x r IH]; [reflexivity |]. cbn [insert_newest].
  destruct (created_at (pk x) <? created_at (pk c)); [reflexivity |].
  rewrite IH. apply perm_swap.
Qed.

Lemma newest_first_perm (l : list Call) : Permutation (newest_first created_at l) l.
Proof.
  induction l as [| c r IH]; [reflexivity |]. cbn [newest_first].
  rewrite insert_newest_perm, IH. reflexivity.
Qed.

Lemma insert_newest_sorted (c : Call) (l : list Call) :
  StronglySorted (fun a b => created_at (pk b) <= created_at (pk a)) l ->
  StronglySorted (fun a b => created_at (pk b) <= created_at (pk a))
    (insert_newest created_at c l).
Proof.
  induction 1 as [| x r Hr IH Hx]; cbn [insert_newest].
  - constructor; constructor.
  - destruct (created_at (pk x) <? created_at (pk c)) eqn:E.
    + apply Z.ltb_lt in E. constructor; [constructor; assumption |].
      constructor; [lia |]. eapply List.Forall_impl; [| exact Hx].
      cbn beta. intros b Hb. lia.
    + apply Z.ltb_ge in E. constructor; [exact IH |].
      eapply Permutation_Forall; [symmetry; apply insert_newest_perm |].
      constructor; [exact E | exact Hx].
Qed.

Lemma newest_first_sorted (l : list Call) :
  StronglySorted (fun a b => created_at (pk b) <= created_at (pk a))
    (newest_first created_at l).
Proof.
  induction l as [| c r IH]; [constructor |]. cbn [newest_first].
  apply insert_newest_sorted. exact IH.
Qed.

(** The queryset holds the calls of the user, each once, and no other. *)
Lemma calls_of_perm (user_ : string) (db : list Call) :
  Permutation (calls_of created_at user_ db)
    (List.filter (fun c => String.eqb (user c) user_) db).
Proof. apply newest_first_perm. Qed.

Lemma firstn_add {A : Type} (a b : nat) (l : list A) :
  firstn (a + b) l = (firstn a l ++ firstn b (skipn a l))%list.
Proof.
  revert l. induction a as [| a IH]; intros l; [reflexivity |].
  destruct l as [| x l]; [cbn; rewrite firstn_nil; reflexivity |].
  cbn. rewrite IH. reflexivity.
Qed.

Lemma in_slice {A : Type} (offset n : nat) (l : list A) (x : A) :
  In x (firstn n (skipn offset l)) -> In x l.
Proof.
  intros H. rewrite <- (firstn_skipn offset l). apply in_or_app. right.
  rewrite <- (firstn_skipn n (skipn offset l)). apply in_or_app. left. exact H.
Qed.

(** Pages of [n] rows, one after the other, are a prefix of the list. *)
Lemma chunks_prefix {A : Type} (n k : nat) (l : list A) :
  flat_map (fun i => firstn n (skipn ((i - 1) * n) l)) (seq 1 k) = firstn (k * n) l.
Proof.
  induction k as [| k IH]; [reflexivity |].
  rewrite seq_S, flat_map_app, IH. cbn [flat_map]. rewrite app_nil_r.
  replace (1 + k - 1)%nat with k by lia.
  replace (S k * n)%nat with (k * n + n)%nat by lia.
  symmetry. apply firstn_add.
Qed.

Lemma flat_map_seq_ext {A : Type} (f g : nat -> list A) (k : nat) :
  (forall i, (1 <= i)%nat -> f i = g i) ->
  flat_map f (seq 1 k) = flat_map g (seq 1 k).
Proof.
  intros H. induction k as [| k IH]; [reflexivity |].
  rewrite seq_S, !flat_map_app, IH. cbn [flat_map]. rewrite (H (1 + k)%nat) by lia.
  reflexivity.
Qed.

(** The number of pages: the least number of pages of [n] rows that hold
    [t] rows, and 1 for no row. *)
Lemma page_count (t n : Z) :
  0 <= t -> 1 <= n ->
  let k := Z.max 1 (- (- t / n)) in
  1 <= k /\ t <= k * n /\ (0 < t -> (k - 1) * n < t).
Proof.
  intros Ht Hn. cbv zeta.
  pose proof (Z.div_mod (- t) n ltac:(lia)) as D.
  pose proof (Z.mod_pos_bound (- t) n ltac:(lia)) as B.
  set (q := - t / n) in *. set (r := (- t) mod n) in *.
  destruct (Z.max_spec 1 (- q)) as [[H ->] | [H ->]]; repeat split; try lia; nia.
Qed.

Lemma page_count_zero (n : Z) : Z.max 1 (- (- 0 / n)) = 1.
Proof. cbn [Z.opp]. rewrite Zdiv_0_l. reflexivity. Qed.

Section OneListing.

Variables (user_ : string) (page limit : Z) (db : list Call).

Let listing : Outcome CallPage := list_calls created_at user_ page limit db.

(** The offset of the query. *)
Let offset : Z := (Z.max 1 page - 1) * Z.max 1 (Z.min limit 100).

(** X5.  [list_calls] raises exactly when the offset of the page asked for
    does not fit the integers of the database.  When it returns, the limit
    applied lies between 1 and 100 and the page is at least 1, whatever was
    asked for; the page holds no more rows than the limit, only calls of the
    user, and [total] counts the calls of the user. *)
Theorem list_calls_bounds :
  match listing with
  | Raised _ => MAX_OFFSET < offset
  | Returned answer =>
      offset <= MAX_OFFSET
      /\ 1 <= p_limit answer <= 100
      /\ 1 <= p_page answer
      /\ Z.of_nat (length (p_data answer)) <= p_limit answer
      /\ Forall (fun c => user c = user_) (p_data answer)
      /\ p_total answer
         = Z.of_nat (length (List.filter (fun c => String.eqb (user c) user_) db))
  end.
Proof.
  unfold listing, list_calls. fold offset.
  destruct (MAX_OFFSET <? offset) eqn:O; [apply Z.ltb_lt in O; exact O |].
  apply Z.ltb_ge in O. cbn [p_limit p_page p_data p_total].
  split; [exact O |]. split; [lia |]. split; [lia |]. split; [| split].
  - rewrite length_firstn. lia.
  - apply List.Forall_forall. intros c Hc.
    apply in_slice in Hc.
    apply (Permutation_in _ (calls_of_perm user_ db)) in Hc.
    apply filter_In in Hc. destruct Hc as [_ Hc]. apply String.eqb_eq. exact Hc.
  - rewrite (Permutation_length (calls_of_perm user_ db)). reflexivity.
Qed.

(** X6.  When [list_calls] returns, [total_pages] is the least number of
    pages that hold the calls of the user, and 1 when there is none; a page
    up to the last one holds at least one row when there is any, and a page
    after the last one is empty.  It returns for every page up to the last
    one when the number of calls fits the integers of the database; where
    it raises, the page asked for lies beyond that bound. *)
Theorem list_calls_total_pages :
  match listing with
  | Raised _ => MAX_OFFSET < offset
  | Returned answer =>
      1 <= p_total_pages answer
      /\ p_total answer <= p_total_pages answer * p_limit answer
      /\ (0 < p_total answer ->
          (p_total_pages answer - 1) * p_limit answer < p_total answer)
      /\ (0 < p_total answer -> p_page answer <= p_total_pages answer ->
          p_data answer <> [])
      /\ (p_total_pages answer < p_page answer -> p_data answer = [])
  end.
Proof.
  unfold listing, list_calls. fold offset.
  destruct (MAX_OFFSET <? offset) eqn:O; [apply Z.ltb_lt in O; exact O |].
  clear O. unfold offset.
  cbn [p_limit p_page p_data p_total p_total_pages].
  set (n := Z.max 1 (Z.min limit 100)). set (p := Z.max 1 page).
  set (qs := calls_of created_at user_ db).
  destruct (page_count (Z.of_nat (length qs)) n ltac:(lia) ltac:(lia)) as (K1 & K2 & K3).
  set (k := Z.max 1 (- (- Z.of_nat (length qs) / n))) in *.
  split; [exact K1 |]. split; [exact K2 |]. split; [exact K3 |]. split.
  - intros Ht Hp E. specialize (K3 Ht).
    assert (Z.to_nat ((p - 1) * n) < length qs)%nat as L by nia.
    apply (f_equal (@length Call)) in E. rewrite length_firstn, length_skipn in E.
    cbn [length] in E. lia.
  - intros Hp. rewrite skipn_all2; [apply firstn_nil |]. nia.
Qed.

End OneListing.

Lemma calls_of_length (user_ : string) (db : list Call) :
  (length (calls_of created_at user_ db) <= length db)%nat.
Proof.
  rewrite (Permutation_length (calls_of_perm user_ db)). apply List.filter_length_le.
Qed.

(** X7.  For a table whose number of rows fits the integers of the
    database, [list_calls] returns for the first page and for every page up
    to [total_pages], and these pages, one after the other, are the calls of
    the user, newest first: every call of the user is on exactly one page,
    and the pages hold nothing else. *)
Theorem list_calls_pages_cover (user_ : string) (limit : Z) (db : list Call) :
  Z.of_nat (length db) <= MAX_OFFSET ->
  exists first,
    list_calls created_at user_ 1 limit db = Returned first
    /\ (forall i, In i (seq 1 (Z.to_nat (p_total_pages first))) ->
          exists answer,
            list_calls created_at user_ (Z.of_nat i) limit db = Returned answer)
    /\ flat_map
         (fun i =>
            match list_calls created_at user_ (Z.of_nat i) limit db with
            | Returned answer => p_data answer
            | Raised _ => []
            end)
         (seq 1 (Z.to_nat (p_total_pages first)))
       = calls_of created_at user_ db
    /\ Permutation (calls_of created_at user_ db)
         (List.filter (fun c => String.eqb (user c) user_) db)
    /\ StronglySorted (fun a b => created_at (pk b) <= created_at (pk a))
         (calls_of created_at user_ db).
Proof.
  intros Fits. pose proof (calls_of_length user_ db) as Len.
  set (n := Z.max 1 (Z.min limit 100)). set (qs := calls_of created_at user_ db).
  destruct (page_count (Z.of_nat (length qs)) n ltac:(lia) ltac:(lia)) as (K1 & K2 & K3).
  set (k := Z.max 1 (- (- Z.of_nat (length qs) / n))) in *.
  assert (forall i, (1 <= i <= Z.to_nat k)%nat ->
            list_calls created_at user_ (Z.of_nat i) limit db
            = Returned
                {| p_data := firstn (Z.to_nat n) (skipn ((i - 1) * Z.to_nat n) qs);
                   p_total := Z.of_nat (length qs); p_page := Z.of_nat i;
                   p_limit := n; p_total_pages := k |}) as Page.
  { intros i Hi. unfold list_calls. fold n qs k.
    assert ((Z.max 1 (Z.of_nat i) - 1) * n <= MAX_OFFSET) as O.
    { replace (Z.max 1 (Z.of_nat i)) with (Z.of_nat i) by lia.
      destruct (Z.eq_dec (Z.of_nat (length qs)) 0) as [E | E].
      - assert (k = 1) as K by (unfold k; rewrite E; apply page_count_zero).
        assert (Z.of_nat i = 1) as -> by lia. unfold MAX_OFFSET. lia.
      - assert (0 < Z.of_nat (length qs)) as P by lia. specialize (K3 P).
        fold qs in Len.
        assert ((Z.of_nat i - 1) * n <= (k - 1) * n) by nia. lia. }
    apply Z.ltb_ge in O. rewrite O. f_equal.
    replace (Z.max 1 (Z.of_nat i)) with (Z.of_nat i) by lia.
    f_equal. f_equal. f_equal. nia. }
  eexists. split; [apply (Page 1%nat); lia |]. cbn [p_total_pages].
  split; [| split; [| split; [apply calls_of_perm | apply newest_first_sorted]]].
  - intros i Hi. apply in_seq in Hi. eexists. apply Page. lia.
  - rewrite <- (firstn_all2 qs (n := (Z.to_nat k * Z.to_nat n)%nat)) by nia.
    rewrite <- chunks_prefix.
    assert (forall m, (m <= Z.to_nat k)%nat ->
              flat_map
                (fun i =>
                   match list_calls created_at user_ (Z.of_nat i) limit db with
                   | Returned answer => p_data answer
                   | Raised _ => []
                   end) (seq 1 m)
              = flat_map (fun i => firstn (Z.to_nat n) (skipn ((i - 1) * Z.to_nat n) qs))
                  (seq 1 m)) as Fm.
    { induction m as [| m IH]; intros Hm; [reflexivity |].
      rewrite seq_S, !flat_map_app, IH by lia. cbn [flat_map].
      rewrite (Page (1 + m)%nat) by lia. reflexivity. }
    apply Fm. lia.
Qed.

End Listing.

Lemma list_calls_pages_cover_witness :
  let created := fun _ : string => 0 in
  exists first,
    list_calls created "user-1" 1 20 [Sample.call "queued"] = Returned first
    /\ p_data first = [Sample.call "queued"] /\ p_total_pages first = 1.
Proof.
  cbv zeta.
  destruct (list_calls_pages_cover (fun _ => 0) "user-1" 20 [Sample.call "queued"])
    as (first & F & _).
  - vm_compute. discriminate.
  - exists first. split; [exact F |].
    vm_compute in F. injection F as <-. split; reflexivity.
Defined.

(** ** What every operation keeps *)

Section Invariants.

Lemma advances_refl (call : Call) : advances call call.
Proof. unfold advances. repeat split; lia. Qed.

Lemma advances_trans (a b c : Call) : advances a b -> advances b c -> advances a c.
Proof.
  unfold advances. intros (P1 & U1 & C1 & V1 & O1) (P2 & U2 & C2 & V2 & O2).
  repeat split; try congruence. lia.
Qed.

Lemma keeps_written_pk (a b : Call) : keeps_written a b -> pk b = pk a.
Proof. intros H. apply H. Qed.

Lemma order_bounds (s : string) : 0 <= order s <= 10.
Proof.
  destruct (order_cases s) as [E | [E | [E | [E | [E | [E _]]]]]]; rewrite E; lia.
Qed.

(** A status of order 10 is above every status. *)
Lemma advances_to_terminal (call call' : Call) :
  pk call' = pk call -> user call' = user call -> contact call' = contact call ->
  vapi_call_id call' = vapi_call_id call -> In (status call') TERMINAL_STATUSES ->
  advances call call'.
Proof.
  intros P U C V T. unfold advances. repeat split; try assumption.
  apply order_terminal in T. pose proof (order_bounds (status call)). lia.
Qed.

Lemma folded_advances (call : Call) (ns : string) (t : option string) (s : string)
    (a m : gmap string json) (st en : option Z) :
  order (status call) <= order ns -> advances call (folded call ns t s a m st en).
Proof. intros H. unfold advances, folded. call_simpl. repeat split. exact H. Qed.

Lemma pull_partial_advances (call : Call) (vapi_data : VapiData) :
  order (status call) <= order (pull_status call vapi_data) ->
  advances call (pull_partial call vapi_data).
Proof.
  intros H. unfold advances, pull_partial.
  destruct (parse_datetime (v_startedAt vapi_data));
    [destruct (parse_datetime (v_endedAt vapi_data)) |];
    call_simpl; repeat split; exact H.
Qed.

Lemma push_partial_advances (call : Call) (message : Message) :
  order (status call) <= order (push_status call message) ->
  advances call (push_partial call message).
Proof. intros H. unfold advances, push_partial. call_simpl. repeat split. exact H. Qed.

Lemma pull_advances (call : Call) (vapi_data : VapiData) :
  advances call (fst (_reconcile_call_from_vapi call vapi_data)).
Proof.
  rewrite reconcile_closed.
  destruct (_is_valid_status_transition _ _) eqn:G; cbn [fst];
    [| apply advances_refl].
  apply guard_iff in G. pose proof (order_bounds (status call)) as B.
  destruct (pull_raises vapi_data); cbn [fst];
    [apply pull_partial_advances | apply folded_advances]; lia.
Qed.

Lemma report_advances (call : Call) (message : Message) :
  advances call (fst (end_of_call_report_apply call message)).
Proof.
  rewrite end_of_call_report_closed.
  pose proof (map_ended_reason_terminal (m_endedReason message) (status call)) as T.
  apply order_terminal in T. pose proof (order_bounds (status call)) as B.
  destruct (push_raises message); cbn [fst];
    [apply push_partial_advances | apply folded_advances];
    unfold push_status; rewrite T; apply B.
Qed.

Lemma update_advances (call : Call) (message : Message) :
  advances call (after_status_update call message).
Proof.
  unfold after_status_update.
  destruct (status_update_apply call message) as [w |] eqn:E; [| apply advances_refl].
  pose proof E as E'. apply status_update_instance in E'. destruct E' as [ns Hw].
  unfold status_update_apply in E.
  destruct (VAPI_STATUS_MAP !! m_status message) as [ns' |]; [| discriminate].
  destruct (negb (PyStr.truthy ns')); [discriminate |].
  destruct (negb (_is_valid_transition (status call) ns')) eqn:G; [discriminate |].
  rewrite assign_started_at in E. injection E as E. rewrite <- E. cbn [fst].
  unfold advances. call_simpl. repeat split.
  apply negb_false_iff in G. rewrite guards_agree in G. apply guard_iff in G.
  pose proof (order_bounds (status call)). lia.
Qed.

(** Saving an instance leaves the primary keys of the table as they are. *)
Lemma save_pks (now : Z) (fields : list string) (instance : Call) (db : list Call) :
  map pk (snd (save now fields instance db)) = map pk db.
Proof.
  unfold save. cbn [snd]. rewrite map_map. apply map_ext. intros row.
  destruct (String.eqb _ _); reflexivity.
Qed.

Lemma pre_save_pk (now : Z) (fields : list string) (instance : Call) :
  pk (pre_save now fields instance) = pk instance.
Proof. unfold pre_save. destruct (str_in _ _); reflexivity. Qed.

(** The rows of a table after a save, related one by one to the rows
    before: the row of the instance to what was written, every other row to
    itself. *)
Lemma save_pointwise (R : Call -> Call -> Prop) (now : Z) (fields : list string)
    (instance call : Call) (db : list Call) :
  List.NoDup (map pk db) -> In call db -> pk instance = pk call ->
  (forall row, R row row) ->
  R call (write_fields fields (pre_save now fields instance) call) ->
  Forall2 R db (snd (save now fields instance db)).
Proof.
  intros N Hc Hp Rr Rw. unfold save. cbn [snd]. rewrite pre_save_pk, Hp.
  assert (forall row, In row db ->
            R row (if String.eqb (pk row) (pk call)
                   then write_fields fields (pre_save now fields instance) row
                   else row)) as H.
  { intros row Hrow. destruct (String.eqb (pk row) (pk call)) eqn:E; [| apply Rr].
    apply String.eqb_eq in E. rewrite (unique_row db row call N Hrow Hc E). exact Rw. }
  clear Hc Rw N. induction db as [| row db IH]; [constructor |].
  cbn [map]. constructor.
  - apply H. left. reflexivity.
  - apply IH. intros r Hr. apply H. right. exact Hr.
Qed.

Lemma written_advances (now : Z) (fields : list string) (instance call : Call) :
  advances call instance ->
  advances call (write_fields fields (pre_save now fields instance) call).
Proof.
  intros (P & U & C & V & O). unfold advances, write_fields, column, pre_save.
  call_simpl. repeat split.
  - destruct (str_in "vapi_call_id" fields); [| reflexivity].
    destruct (str_in "updated_at" fields); exact V.
  - destruct (str_in "status" fields); [| lia].
    destruct (str_in "updated_at" fields); exact O.
Qed.

Lemma written_keeps (now : Z) (fields : list string) (instance call : Call) :
  keeps_written call instance ->
  keeps_written call (write_fields fields (pre_save now fields instance) call).
Proof.
  intros (_ & Kt & Ks & Ka & Kst & Ken).
  unfold keeps_written, write_fields, column, pre_save. call_simpl.
  repeat split; intros Hx; destruct (str_in _ fields); try reflexivity;
    destruct (str_in "updated_at" fields); call_simpl; auto.
Qed.

Lemma Forall2_refl_on {A : Type} (R : A -> A -> Prop) (l : list A) :
  (forall x, R x x) -> Forall2 R l l.
Proof. intros H. induction l; constructor; [apply H | assumption]. Qed.

Lemma Forall2_trans_on {A : Type} (R : A -> A -> Prop) (l1 l2 l3 : list A) :
  (forall a b c, R a b -> R b c -> R a c) ->
  Forall2 R l1 l2 -> Forall2 R l2 l3 -> Forall2 R l1 l3.
Proof.
  intros T H. revert l3. induction H as [| a b l1 l2 Hab _ IH]; intros l3 H3.
  - inversion H3. constructor.
  - inversion H3 as [| b' c l2' l3' Hbc H3' E1 E2]; subst. constructor.
    + exact (T _ _ _ Hab Hbc).
    + apply IH. exact H3'.
Qed.

Lemma Forall2_pks (R : Call -> Call -> Prop) (l1 l2 : list Call) :
  (forall a b, R a b -> pk b = pk a) -> Forall2 R l1 l2 -> map pk l2 = map pk l1.
Proof.
  intros P H. induction H as [| a b l1 l2 Hab _ IH]; [reflexivity |].
  cbn [map]. rewrite IH, (P _ _ Hab). reflexivity.
Qed.

End Invariants.

(** ** The periodic tasks: [mark_stale_calls], [sync_stale_queued_calls] *)

Section Sweeps.

Variable created_at : string -> Z.

Lemma keeps_written_trans (a b c : Call) :
  keeps_written a b -> keeps_written b c -> keeps_written a c.
Proof.
  intros (P1 & T1 & S1 & A1 & B1 & E1) (P2 & T2 & S2 & A2 & B2 & E2).
  unfold keeps_written. repeat split.
  - congruence.
  - intros H. rewrite <- (T1 H). apply T2. rewrite (T1 H). exact H.
  - intros H. rewrite <- (S1 H). apply S2. rewrite (S1 H). exact H.
  - intros H. rewrite <- (A1 H). apply A2. rewrite (A1 H). exact H.
  - intros H. rewrite <- (B1 H). apply B2. rewrite (B1 H). exact H.
  - intros H. rewrite <- (E1 H). apply E2. rewrite (E1 H). exact H.
Qed.

Lemma filter_none {A : Type} (P : A -> bool) (l : list A) :
  Forall (fun x => P x = false) l -> List.filter P l = [].
Proof.
  induction 1 as [| x l Hx _ IH]; [reflexivity |]. cbn [List.filter].
  rewrite Hx. exact IH.
Qed.

Lemma filter_none_inv {A : Type} (P : A -> bool) (l : list A) :
  List.filter P l = [] -> Forall (fun x => P x = false) l.
Proof.
  induction l as [| x l IH]; intros H; [constructor |]. cbn [List.filter] in H.
  destruct (P x) eqn:E; [discriminate |]. constructor; [exact E | exact (IH H)].
Qed.

Lemma map_fixed {A : Type} (f : A -> A) (l : list A) :
  map f l = l -> Forall (fun x => f x = x) l.
Proof.
  induction l as [| x l IH]; intros H; [constructor |]. cbn [map] in H.
  injection H as Hx Hl. constructor; [exact Hx | exact (IH Hl)].
Qed.

Lemma filter_shrinks {A : Type} (P : A -> bool) (l l' : list A) :
  Forall2 (fun x x' => P x' = true -> P x = true) l l' ->
  (length (List.filter P l') <= length (List.filter P l))%nat.
Proof.
  induction 1 as [| x x' l l' Hx _ IH]; [reflexivity |]. cbn [List.filter].
  destruct (P x') eqn:E'.
  - rewrite (Hx eq_refl). cbn [length]. lia.
  - destruct (P x); cbn [length]; lia.
Qed.

(** The row [mark_stale_calls] writes for a stale call. *)
Lemma timed_out_not_stale (now : Z) (c : Call) :
  is_stale created_at now
    (set_error_message (Some "Call timed out – no response from provider")
       (set_status CallStatus.FAILED c)) = false.
Proof. unfold is_stale. call_simpl. reflexivity. Qed.

Lemma is_stale_eligible (now : Z) (c : Call) :
  is_stale created_at now c = true ->
  In (status c) STALE_ELIGIBLE_STATUSES
  /\ created_at (pk c) < now - timedelta_seconds STALE_CALL_THRESHOLD_SECONDS.
Proof.
  unfold is_stale. intros H. apply andb_prop in H. destruct H as [E L].
  split; [apply str_in_iff; exact E | lia].
Qed.

Lemma mark_stale_calls_rows (now : Z) (db : list Call) :
  fst (mark_stale_calls created_at now db)
  = map (fun c =>
           if is_stale created_at now c
           then set_error_message (Some "Call timed out – no response from provider")
                  (set_status CallStatus.FAILED c)
           else c) db.
Proof.
  unfold mark_stale_calls.
  destruct (Z.of_nat (length (List.filter (is_stale created_at now) db)) =? 0) eqn:E;
    [| reflexivity].
  cbn [fst]. apply Z.eqb_eq in E.
  assert (List.filter (is_stale created_at now) db = []) as F.
  { destruct (List.filter (is_stale created_at now) db); [reflexivity |].
    cbn [length] in E. lia. }
  apply filter_none_inv in F. clear E. induction F as [| c l Hc _ IH]; [reflexivity |].
  cbn [map]. rewrite Hc, <- IH. reflexivity.
Qed.

Lemma mark_stale_calls_count (now : Z) (db : list Call) :
  snd (mark_stale_calls created_at now db)
  = Z.of_nat (length (List.filter (is_stale created_at now) db)).
Proof.
  unfold mark_stale_calls.
  destruct (Z.of_nat (length (List.filter (is_stale created_at now) db)) =? 0) eqn:E;
    [| reflexivity].
  apply Z.eqb_eq in E. rewrite E. reflexivity.
Qed.

(** X8.  After [mark_stale_calls] no call of the table is pending or queued
    and older than the threshold.  The count it returns is 0 exactly when it
    left the table as it was, and a second run at the same instant returns 0
    and changes nothing. *)
Theorem mark_stale_calls_settles (now : Z) (db : list Call) :
  let swept := mark_stale_calls created_at now db in
  Forall (fun row => is_stale created_at now row = false) (fst swept)
  /\ (snd swept = 0 <-> fst swept = db)
  /\ mark_stale_calls created_at now (fst swept) = (fst swept, 0).
Proof.
  cbn zeta.
  assert (Forall (fun row => is_stale created_at now row = false)
            (fst (mark_stale_calls created_at now db))) as Settled.
  { rewrite mark_stale_calls_rows. apply List.Forall_forall. intros row Hrow.
    apply in_map_iff in Hrow. destruct Hrow as (c & Hc & _). subst row.
    destruct (is_stale created_at now c) eqn:E;
      [apply timed_out_not_stale | exact E]. }
  split; [exact Settled |]. split.
  - rewrite mark_stale_calls_count. split.
    + intros Z0. rewrite mark_stale_calls_rows.
      assert (List.filter (is_stale created_at now) db = []) as F.
      { destruct (List.filter (is_stale created_at now) db); [reflexivity |].
        cbn [length] in Z0. lia. }
      apply filter_none_inv in F. clear - F.
      induction F as [| c l Hc _ IH]; [reflexivity |].
      cbn [map]. rewrite Hc, IH. reflexivity.
    + intros Same. rewrite mark_stale_calls_rows in Same. apply map_fixed in Same.
      rewrite filter_none; [reflexivity |].
      eapply List.Forall_impl; [| exact Same]. cbn beta. intros row Hrow.
      destruct (is_stale created_at now row) eqn:E; [| reflexivity].
      apply is_stale_eligible in E. destruct E as [E _].
      rewrite <- Hrow in E. call_simpl. cbn in E.
      destruct E as [E | [E | []]]; discriminate.
  - unfold mark_stale_calls at 1. rewrite (filter_none _ _ Settled). reflexivity.
Qed.

(** X9.  [mark_stale_calls] changes a row only if it was pending or queued
    and created before the cutoff; such a row becomes failed, keeps its
    [updated_at] and every other column but the error message.  No row moves
    back in the lifecycle, and no user has more active calls than before. *)
Theorem mark_stale_calls_frame (now : Z) (db : list Call) :
  let db' := fst (mark_stale_calls created_at now db) in
  Forall2
    (fun row row' =>
       advances row row' /\ keeps_written row row'
       /\ (row' <> row ->
           In (status row) STALE_ELIGIBLE_STATUSES
           /\ created_at (pk row) < now - timedelta_seconds STALE_CALL_THRESHOLD_SECONDS
           /\ row' = set_error_message
                       (Some "Call timed out – no response from provider")
                       (set_status CallStatus.FAILED row)
           /\ updated_at row' = updated_at row))
    db db'
  /\ forall user_, _get_active_call_count db' user_ <= _get_active_call_count db user_.
Proof.
  cbn zeta. rewrite mark_stale_calls_rows.
  assert (Forall2
    (fun row row' =>
       advances row row' /\ keeps_written row row'
       /\ (row' <> row ->
           In (status row) STALE_ELIGIBLE_STATUSES
           /\ created_at (pk row) < now - timedelta_seconds STALE_CALL_THRESHOLD_SECONDS
           /\ row' = set_error_message
                       (Some "Call timed out – no response from provider")
                       (set_status CallStatus.FAILED row)
           /\ updated_at row' = updated_at row))
    db
    (map (fun c =>
           if is_stale created_at now c
           then set_error_message (Some "Call timed out – no response from provider")
                  (set_status CallStatus.FAILED c)
           else c) db)) as Rows.
  { induction db as [| c db IH]; [constructor |]. cbn [map]. constructor; [| exact IH].
    destruct (is_stale created_at now c) eqn:E.
    - apply is_stale_eligible in E. destruct E as [E L]. split; [| split].
      + apply advances_to_terminal; try reflexivity. call_simpl.
        cbn. tauto.
      + unfold keeps_written. call_simpl. tauto.
      + intros _. repeat split; assumption.
    - split; [apply advances_refl |]. split; [apply keeps_written_refl |].
      intros N. contradiction N. reflexivity. }
  split; [exact Rows |]. clear Rows. intros user_. unfold _get_active_call_count.
  apply inj_le. apply filter_shrinks.
  induction db as [| c db IH]; [constructor |]. cbn [map]. constructor; [| exact IH].
  destruct (is_stale created_at now c); [| tauto].
  call_simpl. cbn. rewrite andb_false_r. discriminate.
Qed.

Variable get : string -> Outcome VapiData.









Lemma sync_one_down (now : Z) (st : Sweep) (call : Call) :
  (exists e, get (PyStr.or_empty (vapi_call_id call)) = Raised e) ->
  sync_one get now st call
  = ((fst (fst st), (snd (fst st)
                     ++ [GetCallRequest (PyStr.or_empty (vapi_call_id call))])%list,
      snd st), None).
Proof.
  intros [e E]. destruct st as [[db sent] n]. unfold sync_one. rewrite E.
  reflexivity.
Qed.

Lemma sync_one_in_sync (now : Z) (st : Sweep) (call : Call) (vapi_data : VapiData) :
  get (PyStr.or_empty (vapi_call_id call)) = Returned vapi_data ->
  snd (_reconcile_call_from_vapi call vapi_data) = Returned [] ->
  sync_one get now st call
  = ((fst (fst st), (snd (fst st)
                     ++ [GetCallRequest (PyStr.or_empty (vapi_call_id call))])%list,
      snd st), None).
Proof.
  intros E U. destruct st as [[db sent] n]. unfold sync_one. rewrite E.
  destruct (_reconcile_call_from_vapi call vapi_data) as [c fs]. cbn [snd] in U.
  subst fs. reflexivity.
Qed.

(** X11.  A call whose request fails, or whose answer holds nothing new, is
    left alone by [sync_stale_queued_calls]: if that is so for every selected
    call, the table is unchanged and the function returns 0. *)
Theorem sync_stale_queued_calls_nothing_new (now : Z) (db : list Call) :
  (forall call, In call db -> is_stale_queued created_at now call = true ->
     (exists e, get (PyStr.or_empty (vapi_call_id call)) = Raised e)
     \/ (exists vapi_data,
           get (PyStr.or_empty (vapi_call_id call)) = Returned vapi_data
           /\ snd (_reconcile_call_from_vapi call vapi_data) = Returned [])) ->
  table (sync_stale_queued_calls created_at get now db) = db
  /\ outcome (sync_stale_queued_calls created_at get now db) = Returned 0.
Proof.
  intros H. unfold sync_stale_queued_calls.
  assert (forall call, In call (List.filter (is_stale_queued created_at now) db) ->
     (exists e, get (PyStr.or_empty (vapi_call_id call)) = Raised e)
     \/ (exists vapi_data,
           get (PyStr.or_empty (vapi_call_id call)) = Returned vapi_data
           /\ snd (_reconcile_call_from_vapi call vapi_data) = Returned [])) as H'.
  { intros call Hc. apply filter_In in Hc. destruct Hc as [Hc Hs].
    exact (H call Hc Hs). }
  clear H.
  destruct (List.filter (is_stale_queued created_at now) db) as [| c calls];
    [split; reflexivity |].
  assert (forall l st,
            (forall call, In call l ->
               (exists e, get (PyStr.or_empty (vapi_call_id call)) = Raised e)
               \/ (exists vapi_data,
                     get (PyStr.or_empty (vapi_call_id call)) = Returned vapi_data
                     /\ snd (_reconcile_call_from_vapi call vapi_data) = Returned [])) ->
            fst (fst (fst (sync_each get now l st))) = fst (fst st)
            /\ snd (fst (sync_each get now l st)) = snd st
            /\ snd (sync_each get now l st) = None) as Loop.
  { induction l as [| x l IH]; intros st Hl; [repeat split; reflexivity |].
    cbn [sync_each].
    assert (sync_one get now st x
            = ((fst (fst st),
                (snd (fst st)
                 ++ [GetCallRequest (PyStr.or_empty (vapi_call_id x))])%list,
                snd st), None)) as Step.
    { destruct (Hl x (or_introl eq_refl)) as [D | [v [E U]]].
      - apply sync_one_down. exact D.
      - apply (sync_one_in_sync now st x v E U). }
    rewrite Step.
    destruct (IH (fst (fst st),
                  (snd (fst st)
                   ++ [GetCallRequest (PyStr.or_empty (vapi_call_id x))])%list,
                  snd st)) as (T & N & E).
    { intros call Hc. apply Hl. right. exact Hc. }
    cbn [fst snd] in T, N, E. repeat split; assumption. }
  destruct (Loop (c :: calls) (db, [], 0) H') as (T & N & E).
  destruct (sync_each get now (c :: calls) (db, [], 0)) as [[[db' sent] n] [e |]];
    cbn [fst snd] in T, N, E; [discriminate |].
  cbn [table outcome]. subst. split; reflexivity.
Qed.

Lemma NoDup_pk_filter (P : Call -> bool) (db : list Call) :
  List.NoDup (map pk db) -> List.NoDup (map pk (List.filter P db)).
Proof.
  induction db as [| c db IH]; intros N; [constructor |].
  cbn [map] in N. apply List.NoDup_cons_iff in N. destruct N as [Nc N].
  cbn [List.filter]. destruct (P c); [| exact (IH N)].
  cbn [map]. apply List.NoDup_cons_iff. split; [| exact (IH N)].
  intros Hin. apply Nc. apply in_map_iff in Hin. destruct Hin as (x & Hx & Hf).
  apply filter_In in Hf. apply in_map_iff. exists x. tauto.
Qed.

Lemma save_in_other (now : Z) (fields : list string) (instance row : Call)
    (db : list Call) :
  In row db -> pk row <> pk instance -> In row (snd (save now fields instance db)).
Proof.
  intros Hr Hp. unfold save. cbn [snd]. apply in_map_iff. exists row.
  split; [| exact Hr]. rewrite pre_save_pk.
  destruct (String.eqb (pk row) (pk instance)) eqn:E; [| reflexivity].
  apply String.eqb_eq in E. contradiction.
Qed.

Lemma reconcile_pk (call : Call) (vapi_data : VapiData) :
  pk (fst (_reconcile_call_from_vapi call vapi_data)) = pk call.
Proof. apply (pull_advances call vapi_data). Qed.

(** One turn of the loop, row by row. *)
Lemma sync_one_rows (now : Z) (db : list Call) (sent : list Request) (n : Z)
    (call : Call) :
  List.NoDup (map pk db) -> In call db -> is_stale_queued created_at now call = true ->
  Forall2
    (fun row row' =>
       advances row row' /\ keeps_written row row'
       /\ (is_stale_queued created_at now row = false -> row' = row))
    db (fst (fst (fst (sync_one get now (db, sent, n) call)))).
Proof.
  intros N Hc Hs. unfold sync_one.
  assert (Forall2
    (fun row row' =>
       advances row row' /\ keeps_written row row'
       /\ (is_stale_queued created_at now row = false -> row' = row)) db db) as Same.
  { apply Forall2_refl_on. intros row.
    split; [apply advances_refl |]. split; [apply keeps_written_refl | tauto]. }
  destruct (get _) as [vapi_data |]; [| exact Same].
  pose proof (pull_advances call vapi_data) as A.
  pose proof (pull_keeps call vapi_data) as K.
  destruct (_reconcile_call_from_vapi call vapi_data) as [c [[| f fs] | e]];
    [exact Same | | exact Same].
  cbn [fst snd] in *. apply save_pointwise with (call := call); try assumption.
  - apply A.
  - intros row. split; [apply advances_refl |].
    split; [apply keeps_written_refl | tauto].
  - split; [apply written_advances; exact A |].
    split; [apply written_keeps; exact K |].
    intros Hn. rewrite Hs in Hn. discriminate.
Qed.

Lemma sync_one_pks (now : Z) (st : Sweep) (call : Call) :
  map pk (fst (fst (fst (sync_one get now st call)))) = map pk (fst (fst st)).
Proof.
  destruct st as [[db sent] n]. unfold sync_one.
  destruct (get _) as [vapi_data |]; [| reflexivity].
  destruct (_reconcile_call_from_vapi call vapi_data) as [c [[| f fs] | e]];
    [reflexivity | | reflexivity].
  cbn [fst]. apply save_pks.
Qed.

Lemma sync_one_in_other (now : Z) (st : Sweep) (call row : Call) :
  In row (fst (fst st)) -> pk row <> pk call ->
  In row (fst (fst (fst (sync_one get now st call)))).
Proof.
  destruct st as [[db sent] n]. unfold sync_one. cbn [fst]. intros Hr Hp.
  destruct (get _) as [vapi_data |]; [| exact Hr].
  pose proof (reconcile_pk call vapi_data) as P.
  destruct (_reconcile_call_from_vapi call vapi_data) as [c [[| f fs] | e]];
    [exact Hr | | exact Hr].
  cbn [fst] in *. apply save_in_other; [exact Hr | congruence].
Qed.

Lemma sweep_rows (now : Z) (calls : list Call) :
  forall (db : list Call) (sent : list Request) (n : Z),
  List.NoDup (map pk db) -> List.NoDup (map pk calls) ->
  (forall c, In c calls -> In c db /\ is_stale_queued created_at now c = true) ->
  Forall2
    (fun row row' =>
       advances row row' /\ keeps_written row row'
       /\ (is_stale_queued created_at now row = false -> row' = row))
    db (fst (fst (fst (sync_each get now calls (db, sent, n))))).
Proof.
  induction calls as [| c calls IH]; intros db sent n N Nc Hin; cbn [sync_each].
  - cbn [fst]. apply Forall2_refl_on. intros row.
    split; [apply advances_refl |]. split; [apply keeps_written_refl | tauto].
  - cbn [map] in Nc. apply List.NoDup_cons_iff in Nc. destruct Nc as [Nh Nc].
    destruct (Hin c (or_introl eq_refl)) as [Hc Hs].
    pose proof (sync_one_rows now db sent n c N Hc Hs) as Step.
    pose proof (sync_one_pks now (db, sent, n) c) as Pks.
    assert (forall c', In c' calls ->
              In c' (fst (fst (fst (sync_one get now (db, sent, n) c))))
              /\ is_stale_queued created_at now c' = true) as Hin'.
    { intros c' Hc'. destruct (Hin c' (or_intror Hc')) as [Hd Hs'].
      split; [| exact Hs']. apply sync_one_in_other; [exact Hd |].
      intros E. apply Nh. rewrite <- E. apply in_map. exact Hc'. }
    destruct (sync_one get now (db, sent, n) c) as [[[db1 sent1] n1] [e |]];
      cbn [fst] in *; [exact Step |].
    eapply Forall2_trans_on; [| exact Step |].
    + intros x y z (A1 & K1 & F1) (A2 & K2 & F2).
      split; [exact (advances_trans _ _ _ A1 A2) |].
      split; [exact (keeps_written_trans _ _ _ K1 K2) |].
      intros Hx. pose proof (F1 Hx) as E1. subst y. exact (F2 Hx).
    + apply IH; [rewrite Pks; exact N | exact Nc | exact Hin'].
Qed.

(** X12.  [sync_stale_queued_calls] adds and removes no row.  A call that
    it did not select is left as it was; a call that it selected is the same
    call, no earlier in the lifecycle, and keeps the transcript, summary,
    analysis and timestamps it had. *)
Theorem sync_stale_queued_calls_frame (now : Z) (db : list Call) :
  List.NoDup (map pk db) ->
  Forall2
    (fun row row' =>
       advances row row' /\ keeps_written row row'
       /\ (is_stale_queued created_at now row = false -> row' = row))
    db (table (sync_stale_queued_calls created_at get now db)).
Proof.
  intros N. unfold sync_stale_queued_calls.
  pose proof (sweep_rows now (List.filter (is_stale_queued created_at now) db)
                db [] 0 N (NoDup_pk_filter _ db N)) as R.
  destruct (List.filter (is_stale_queued created_at now) db) as [| c calls] eqn:F.
  - cbn [table]. apply Forall2_refl_on. intros row.
    split; [apply advances_refl |]. split; [apply keeps_written_refl | tauto].
  - assert (forall x, In x (c :: calls) ->
              In x db /\ is_stale_queued created_at now x = true) as Hin.
    { intros x Hx. rewrite <- F in Hx. apply filter_In in Hx. exact Hx. }
    specialize (R Hin).
    destruct (sync_each get now (c :: calls) (db, [], 0)) as [[[db' sent] n] [e |]];
      exact R.
Qed.

End Sweeps.

Lemma sync_stale_queued_calls_nothing_new_witness :
  let created := fun _ : string => 0 in
  let down := Sample.failing "provider unavailable" in
  let db := [Sample.call "queued"] in
  List.filter (is_stale_queued created 1000000000) db = db
  /\ table (sync_stale_queued_calls created down 1000000000 db) = db
  /\ outcome (sync_stale_queued_calls created down 1000000000 db) = Returned 0.
Proof.
  cbv zeta. split; [reflexivity |].
  apply (sync_stale_queued_calls_nothing_new (fun _ => 0)
           (Sample.failing "provider unavailable") 1000000000 [Sample.call "queued"]).
  intros call _ _. left. exists (VapiAPIError "provider unavailable"). reflexivity.
Defined.

Lemma sync_stale_queued_calls_frame_witness :
  let created := fun _ : string => 0 in
  let busy := Sample.answering (Sample.snapshot "ended" "customer-busy" None None None) in
  let db := [Sample.call "queued"] in
  Forall2
    (fun row row' =>
       advances row row' /\ keeps_written row row'
       /\ (is_stale_queued created 1000000000 row = false -> row' = row))
    db (table (sync_stale_queued_calls created busy 1000000000 db))
  /\ map status (table (sync_stale_queued_calls created busy 1000000000 db)) = ["busy"].
Proof.
  cbv zeta. split.
  - apply (sync_stale_queued_calls_frame (fun _ => 0)
             (Sample.answering (Sample.snapshot "ended" "customer-busy" None None None))
             1000000000 [Sample.call "queued"]).
    cbn [map]. constructor; [simpl; tauto | constructor].
  - vm_compute. reflexivity.
Defined.

(** ** The service functions on one call: [get_call], [cancel_call],
    [sync_call_status] *)

Section ServiceCalls.

Variable get : string -> Outcome VapiData.
Variable stop : string -> Outcome unit.
Variables (now : Z) (call_id user_ : string).

Lemma row_of_some (db : list Call) (call : Call) :
  row_of call_id user_ db = Some call ->
  In call db /\ pk call = call_id /\ user call = user_.
Proof.
  unfold row_of. intros F. apply List.find_some in F. destruct F as [Hin E].
  apply andb_prop in E. destruct E as [E1 E2].
  apply String.eqb_eq in E1, E2. tauto.
Qed.

Lemma pre_save_advances (fields : list string) (call instance : Call) :
  advances call instance -> advances call (pre_save now fields instance).
Proof. unfold pre_save. destruct (str_in _ _); intros H; exact H. Qed.

Lemma pre_save_keeps_written (fields : list string) (call instance : Call) :
  keeps_written call instance -> keeps_written call (pre_save now fields instance).
Proof. unfold pre_save. destruct (str_in _ _); intros H; exact H. Qed.

Lemma pull_fields_nonempty (call : Call) (vapi_data : VapiData) :
  pull_fields call vapi_data <> [].
Proof. destruct (pull_fields_head call vapi_data) as [rest E]. rewrite E. discriminate. Qed.

(** What one poll and reconciliation of the instance [call], which is a row
    of the table, leaves when the reconciler reads the answer without
    raising: the instance is the row the table then holds. *)
Lemma poll_stored (db : list Call) (call : Call) (vapi_data : VapiData) :
  row_of call_id user_ db = Some call ->
  pull_raises vapi_data = None ->
  let w := _reconcile_call_from_vapi call vapi_data in
  let served : Call * list Call :=
    match snd w with
    | Returned (f :: fs) => save now (f :: fs) (fst w) db
    | _ => (fst w, db)
    end in
  row_of call_id user_ (snd served) = Some (fst served)
  /\ advances call (fst served) /\ keeps_written call (fst served).
Proof.
  intros F PR. cbv zeta.
  pose proof (pull_advances call vapi_data) as A.
  pose proof (pull_keeps call vapi_data) as K.
  pose proof (pull_fields_cover now call vapi_data) as C. cbv zeta in C.
  destruct C as [_ C].
  pose proof (pull_fields_nonempty call vapi_data) as Ne.
  rewrite reconcile_closed in *. rewrite PR in *.
  destruct (_is_valid_status_transition _ _); cbn [fst snd] in *.
  2: { split; [exact F |]. split; assumption. }
  destruct (pull_fields call vapi_data) as [| f fs] eqn:PF; [contradiction Ne; reflexivity |].
  split; [| split; [apply pre_save_advances | apply pre_save_keeps_written]; assumption].
  unfold row_of in *. rewrite find_after_save, F. cbn [option_map save fst].
  rewrite pre_save_pk. destruct A as [A _]. rewrite A, String.eqb_refl, C.
  reflexivity.
Qed.

(** The call [get_call] returns continues the row it found, and the row
    the table then holds: it is that row unless the reconciliation raised,
    in which case the table holds the row as it was. *)
Lemma get_call_returns (db : list Call) (call : Call) :
  outcome (get_call get now call_id user_ db) = Returned call ->
  exists call0 row,
    row_of call_id user_ db = Some call0
    /\ row_of call_id user_ (table (get_call get now call_id user_ db)) = Some row
    /\ advances call0 call /\ keeps_written call0 call
    /\ advances row call /\ keeps_written row call
    /\ ((forall vid vapi_data, get vid = Returned vapi_data ->
           pull_raises vapi_data = None) -> row = call).
Proof.
  unfold get_call. fold (row_of call_id user_ db).
  destruct (row_of call_id user_ db) as [call0 |] eqn:F; [| discriminate].
  assert (exists call0' row,
            Some call0 = Some call0' /\ row_of call_id user_ db = Some row
            /\ advances call0' call0 /\ keeps_written call0' call0
            /\ advances row call0 /\ keeps_written row call0
            /\ ((forall vid vapi_data, get vid = Returned vapi_data ->
                   pull_raises vapi_data = None) -> row = call0)) as Stay.
  { exists call0, call0. split; [reflexivity |]. split; [exact F |].
    split; [apply advances_refl |]. split; [apply keeps_written_refl |].
    split; [apply advances_refl |]. split; [apply keeps_written_refl |].
    reflexivity. }
  destruct (str_in (status call0) ACTIVE_STATUSES && PyStr.truthy_opt (vapi_call_id call0)).
  2: { cbn [outcome table]. intros H. injection H as <-. exact Stay. }
  destruct (get _) as [vapi_data | e] eqn:G.
  2: { cbn [outcome table]. intros H. injection H as <-. exact Stay. }
  pose proof (pull_advances call0 vapi_data) as A.
  pose proof (pull_keeps call0 vapi_data) as K.
  destruct (pull_raises vapi_data) as [e |] eqn:PR.
  - destruct (_reconcile_call_from_vapi call0 vapi_data) as [c [[| f fs] | e']] eqn:W;
      cbn [fst] in A, K.
    1, 3: cbn [outcome table]; intros H; injection H as <-;
      exists call0, call0; split; [reflexivity |]; split; [exact F |];
      split; [exact A |]; split; [exact K |]; split; [exact A |]; split; [exact K |];
      intros Rd; rewrite (Rd _ _ G) in PR; discriminate.
    rewrite reconcile_closed, PR in W.
    destruct (_is_valid_status_transition _ _); discriminate.
  - pose proof (poll_stored db call0 vapi_data F PR) as P. cbv zeta in P.
    destruct (_reconcile_call_from_vapi call0 vapi_data) as [c [[| f fs] | e']];
      cbn [fst snd] in *.
    1, 3: cbn [outcome table]; intros H; injection H as <-;
      exists call0, c; split; [reflexivity |]; split; [apply P |];
      split; [exact A |]; split; [exact K |];
      split; [apply advances_refl |]; split; [apply keeps_written_refl |];
      reflexivity.
    destruct (save now (f :: fs) c db) as [c' d]. cbn [fst snd] in P.
    cbn [outcome table]. intros H. injection H as <-.
    exists call0, c'. split; [reflexivity |]. split; [apply P |].
    split; [apply P |]. split; [apply P |].
    split; [apply advances_refl |]. split; [apply keeps_written_refl |].
    reflexivity.
Qed.

(** The rows of a table after one of the three functions, against the rows
    before. *)
Lemma get_call_rows (db : list Call) :
  List.NoDup (map pk db) ->
  Forall2
    (fun row row' =>
       advances row row' /\ keeps_written row row'
       /\ (pk row <> call_id \/ user row <> user_ -> row' = row))
    db (table (get_call get now call_id user_ db)).
Proof.
  intros N.
  assert (forall row, advances row row /\ keeps_written row row
                      /\ (pk row <> call_id \/ user row <> user_ -> row = row)) as Same.
  { intros row. split; [apply advances_refl |].
    split; [apply keeps_written_refl | reflexivity]. }
  unfold get_call. fold (row_of call_id user_ db).
  destruct (row_of call_id user_ db) as [call0 |] eqn:F;
    [| apply Forall2_refl_on; exact Same].
  destruct (str_in (status call0) ACTIVE_STATUSES && PyStr.truthy_opt (vapi_call_id call0));
    [| apply Forall2_refl_on; exact Same].
  destruct (get _) as [vapi_data | e]; [| apply Forall2_refl_on; exact Same].
  pose proof (pull_advances call0 vapi_data) as A.
  pose proof (pull_keeps call0 vapi_data) as K.
  destruct (_reconcile_call_from_vapi call0 vapi_data) as [c [[| f fs] | e]];
    [apply Forall2_refl_on; exact Same | | apply Forall2_refl_on; exact Same].
  cbn [fst] in A, K.
  destruct (save now (f :: fs) c db) as [c' d] eqn:S.
  cbn [table]. change d with (snd (c', d)). rewrite <- S.
  apply row_of_some in F. destruct F as (Hin & Hp & Hu).
  apply save_pointwise with (call := call0); try assumption.
  - apply A.
  - split; [apply written_advances; exact A |].
    split; [apply written_keeps; exact K |].
    intros [H | H]; contradiction.
Qed.

Lemma rows_trans (a b c : Call) :
  advances a b /\ keeps_written a b
  /\ (pk a <> call_id \/ user a <> user_ -> b = a) ->
  advances b c /\ keeps_written b c
  /\ (pk b <> call_id \/ user b <> user_ -> c = b) ->
  advances a c /\ keeps_written a c
  /\ (pk a <> call_id \/ user a <> user_ -> c = a).
Proof.
  intros (A1 & K1 & F1) (A2 & K2 & F2).
  split; [exact (advances_trans _ _ _ A1 A2) |].
  split; [exact (keeps_written_trans _ _ _ K1 K2) |].
  intros H. pose proof (F1 H) as E. subst b. exact (F2 H).
Qed.

(** A second save, of an instance made from the call [get_call] returned. *)
Lemma second_save_rows (db : list Call) (call instance : Call) (fields : list string) :
  List.NoDup (map pk db) ->
  outcome (get_call get now call_id user_ db) = Returned call ->
  advances call instance -> keeps_written call instance ->
  Forall2
    (fun row row' =>
       advances row row' /\ keeps_written row row'
       /\ (pk row <> call_id \/ user row <> user_ -> row' = row))
    db (snd (save now fields instance (table (get_call get now call_id user_ db)))).
Proof.
  intros N O A K. pose proof (get_call_rows db N) as R.
  destruct (get_call_returns db call O) as (call0 & row & _ & F & _ & _ & A1 & K1 & _).
  apply row_of_some in F. destruct F as (Hin & Hp & Hu).
  pose proof (advances_trans _ _ _ A1 A) as A2.
  pose proof (keeps_written_trans _ _ _ K1 K) as K2.
  eapply Forall2_trans_on; [exact rows_trans | exact R |].
  apply save_pointwise with (call := row); try assumption.
  - rewrite (Forall2_pks _ _ _ (fun a b H => proj1 (proj1 H)) R). exact N.
  - apply A2.
  - intros r. split; [apply advances_refl |].
    split; [apply keeps_written_refl | reflexivity].
  - split; [apply written_advances; exact A2 |].
    split; [apply written_keeps; exact K2 |].
    intros [H | H]; contradiction.
Qed.

(** X13.  Whatever [get_call], [cancel_call] and [sync_call_status] do for
    the call [call_id] of the user, they add and remove no row, and they
    leave every call of another user, and every other call of the user, as
    it was.  The call itself stays the same call of the same user for the
    same contact under the same provider id, moves to no earlier status,
    and keeps the transcript, summary, analysis and timestamps it had. *)
Theorem service_calls_frame (db : list Call) :
  List.NoDup (map pk db) ->
  let rows_kept :=
    Forall2
      (fun row row' =>
         advances row row' /\ keeps_written row row'
         /\ (pk row <> call_id \/ user row <> user_ -> row' = row)) db in
  rows_kept (table (get_call get now call_id user_ db))
  /\ rows_kept (table (cancel_call get stop now call_id user_ db))
  /\ rows_kept (table (sync_call_status get now call_id user_ db)).
Proof.
  intros N. cbv zeta. pose proof (get_call_rows db N) as R.
  split; [exact R |]. split.
  - unfold cancel_call.
    destruct (outcome (get_call get now call_id user_ db)) as [call | e] eqn:O;
      [| exact R].
    destruct (str_in (status call) TERMINAL_STATUSES); [exact R |].
    destruct (negb (PyStr.truthy_opt (vapi_call_id call))); [exact R |].
    destruct (stop _) as [[] | e]; [| exact R].
    destruct (save now ["status"; "updated_at"] _ _) as [c d] eqn:S.
    cbn [table]. change d with (snd (c, d)). rewrite <- S.
    apply (second_save_rows db call); try assumption.
    + apply advances_to_terminal; try reflexivity. call_simpl. cbn. tauto.
    + unfold keeps_written. call_simpl. tauto.
  - unfold sync_call_status.
    destruct (outcome (get_call get now call_id user_ db)) as [call | e] eqn:O;
      [| exact R].
    destruct (negb (PyStr.truthy_opt (vapi_call_id call))); [exact R |].
    destruct (get _) as [vapi_data | e]; [| exact R].
    pose proof (pull_advances call vapi_data) as A.
    pose proof (pull_keeps call vapi_data) as K.
    destruct (_reconcile_call_from_vapi call vapi_data) as [c [[| f fs] | e]];
      [exact R | | exact R].
    cbn [fst] in A, K.
    destruct (save now (f :: fs) c _) as [c' d] eqn:S.
    cbn [table]. change d with (snd (c', d)). rewrite <- S.
    apply (second_save_rows db call); assumption.
Qed.

(** After a [cancel_call] that returned, the call returned and the row of
    the table are cancelled; they are the same unless a reconciliation
    raised. *)
Lemma cancel_call_returns (db : list Call) (call : Call) :
  outcome (cancel_call get stop now call_id user_ db) = Returned call ->
  status call = CallStatus.CANCELLED
  /\ exists row,
       row_of call_id user_ (table (cancel_call get stop now call_id user_ db))
       = Some row
       /\ status row = CallStatus.CANCELLED
       /\ ((forall vid vapi_data, get vid = Returned vapi_data ->
              pull_raises vapi_data = None) -> row = call).
Proof.
  revert call. intros call'. unfold cancel_call.
  destruct (outcome (get_call get now call_id user_ db)) as [call | e] eqn:O;
    [| discriminate].
  destruct (get_call_returns db call O) as (call0 & row & _ & F & _ & _ & A & _ & Rd).
  destruct (str_in (status call) TERMINAL_STATUSES); [discriminate |].
  destruct (negb (PyStr.truthy_opt (vapi_call_id call))); [discriminate |].
  destruct (stop _) as [[] | e]; [| discriminate].
  destruct (save now ["status"; "updated_at"] _ _) as [c d] eqn:S.
  pose proof (f_equal fst S) as Sc. pose proof (f_equal snd S) as Sd.
  cbn [fst snd] in Sc, Sd. clear S. cbn [table outcome].
  intros H. injection H as <-. subst d c. cbn [save fst].
  split; [reflexivity |].
  exists (write_fields ["status"; "updated_at"]
            (pre_save now ["status"; "updated_at"] (set_status CallStatus.CANCELLED call))
            row).
  split; [| split; [reflexivity |]].
  - unfold row_of in *. rewrite find_after_save, F. cbn [option_map].
    rewrite pre_save_pk. cbn [set_status pk]. destruct A as [A _].
    rewrite A, String.eqb_refl. reflexivity.
  - intros Readable. rewrite (Rd Readable). destruct call. reflexivity.
Qed.



End ServiceCalls.

Lemma service_calls_frame_witness :
  let busy := Sample.answering (Sample.snapshot "ended" "customer-busy" None None None) in
  let db := [Sample.call "queued"] in
  Forall2
    (fun row row' =>
       advances row row' /\ keeps_written row row'
       /\ (pk row <> "call-1" \/ user row <> "user-1" -> row' = row))
    db (table (sync_call_status busy 100 "call-1" "user-1" db))
  /\ map status (table (sync_call_status busy 100 "call-1" "user-1" db)) = ["busy"].
Proof.
  cbv zeta. split.
  - apply (service_calls_frame
             (Sample.answering (Sample.snapshot "ended" "customer-busy" None None None))
             (fun _ => Returned tt) 100 "call-1" "user-1" [Sample.call "queued"]).
    cbn [map]. constructor; [simpl; tauto | constructor].
  - vm_compute. reflexivity.
Defined.


Section ServiceRequests.

Variable get : string -> Outcome VapiData.
Variable stop : string -> Outcome unit.
Variables (now : Z) (call_id user_ : string) (db : list Call).

(** X15.  A call id that is not the id of a call of the user, be it the id
    of another user's call, is answered as not found by [get_call],
    [cancel_call] and [sync_call_status] alike: the same error, no request
    to the provider, the table untouched. *)
Theorem foreign_call_not_found :
  (forall row, In row db -> pk row = call_id -> user row <> user_) ->
  let not_found : Served Call :=
    mkServed db [] (Raised (CallNotFoundError ("Call " ++ call_id ++ " not found."))) in
  get_call get now call_id user_ db = not_found
  /\ cancel_call get stop now call_id user_ db = not_found
  /\ sync_call_status get now call_id user_ db = not_found.
Proof.
  intros H. cbv zeta.
  assert (get_call get now call_id user_ db
          = mkServed db [] (Raised (CallNotFoundError ("Call " ++ call_id ++ " not found."))))
    as G.
  { unfold get_call. destruct (List.find _ db) as [call |] eqn:F; [| reflexivity].
    apply List.find_some in F. destruct F as [Hin E]. apply andb_prop in E.
    destruct E as [E1 E2]. apply String.eqb_eq in E1, E2.
    contradiction (H call Hin E1). }
  split; [exact G |]. unfold cancel_call, sync_call_status. rewrite G.
  split; reflexivity.
Qed.

(** X16.  For a call with a provider id, [get_call] asks the provider once
    if the stored status is active and not at all otherwise, and
    [sync_call_status] asks once more after it, whatever the first answer
    was: an active call is polled twice by one [sync_call_status]. *)
Theorem sync_call_status_polls (call : Call) (vid : string) :
  row_of call_id user_ db = Some call ->
  vapi_call_id call = Some vid -> vid <> "" ->
  requests (get_call get now call_id user_ db)
  = (if str_in (status call) ACTIVE_STATUSES then [GetCallRequest vid] else [])
  /\ requests (sync_call_status get now call_id user_ db)
     = (requests (get_call get now call_id user_ db) ++ [GetCallRequest vid])%list.
Proof.
  intros F V Ne.
  assert (PyStr.truthy_opt (Some vid) = true) as T.
  { destruct vid; [contradiction Ne; reflexivity | reflexivity]. }
  assert (requests (get_call get now call_id user_ db)
          = (if str_in (status call) ACTIVE_STATUSES then [GetCallRequest vid] else [])
          /\ exists call', outcome (get_call get now call_id user_ db) = Returned call')
    as [R [call' O]].
  { unfold get_call. fold (row_of call_id user_ db). rewrite F, V, T.
    destruct (str_in (status call) ACTIVE_STATUSES); cbn [andb PyStr.or_empty];
      [| split; [reflexivity | eexists; reflexivity]].
    destruct (get vid) as [vapi_data | e];
      [| split; [reflexivity | eexists; reflexivity]].
    destruct (_reconcile_call_from_vapi call vapi_data) as [c [[| f fs] | e]];
      [split; [reflexivity | eexists; reflexivity] |
       | split; [reflexivity | eexists; reflexivity]].
    destruct (save now (f :: fs) c db) as [c' d].
    split; [reflexivity | eexists; reflexivity]. }
  split; [exact R |].
  destruct (get_call_returns get now call_id user_ db call' O)
    as (call0 & row & F0 & _ & A & _).
  rewrite F in F0. injection F0 as <-.
  destruct A as (_ & _ & _ & V' & _). rewrite V in V'.
  unfold sync_call_status. rewrite O, V', T. cbn [negb PyStr.or_empty].
  destruct (get vid) as [vapi_data | e]; [| reflexivity].
  destruct (_reconcile_call_from_vapi call' vapi_data) as [c [[| f fs] | e]];
    [reflexivity | | reflexivity].
  destruct (save now (f :: fs) c _) as [c' d]. reflexivity.
Qed.

(** X17.  When the provider cannot be reached, [get_call] still returns
    the call as stored, while [sync_call_status] raises the provider's error;
    neither writes to the table. *)
Theorem provider_unreachable (call : Call) (vid : string) (exc : Exc) :
  row_of call_id user_ db = Some call ->
  vapi_call_id call = Some vid -> vid <> "" ->
  get vid = Raised exc ->
  outcome (get_call get now call_id user_ db) = Returned call
  /\ table (get_call get now call_id user_ db) = db
  /\ outcome (sync_call_status get now call_id user_ db) = Raised exc
  /\ table (sync_call_status get now call_id user_ db) = db.
Proof.
  intros F V Ne G.
  assert (PyStr.truthy_opt (Some vid) = true) as T.
  { destruct vid; [contradiction Ne; reflexivity | reflexivity]. }
  assert (outcome (get_call get now call_id user_ db) = Returned call
          /\ table (get_call get now call_id user_ db) = db) as [O Tb].
  { unfold get_call. fold (row_of call_id user_ db). rewrite F, V, T.
    destruct (str_in (status call) ACTIVE_STATUSES); cbn [andb PyStr.or_empty];
      [rewrite G |]; split; reflexivity. }
  split; [exact O |]. split; [exact Tb |].
  unfold sync_call_status. rewrite O, Tb, V, T. cbn [negb PyStr.or_empty].
  rewrite G. split; reflexivity.
Qed.

(** A call that is terminal in the table is not cancelled: no request is
    made, nothing is written. *)
Lemma cancel_call_terminal (call : Call) :
  row_of call_id user_ db = Some call -> In (status call) TERMINAL_STATUSES ->
  cancel_call get stop now call_id user_ db
  = mkServed db []
      (Raised (CallNotCancellableError
         "Cannot cancel a call that is already completed, failed, or cancelled.")).
Proof.
  intros F Ht.
  assert (str_in (status call) ACTIVE_STATUSES = false) as Na.
  { cbn in Ht. repeat (destruct Ht as [<- | Ht]; [reflexivity |]). destruct Ht. }
  assert (get_call get now call_id user_ db = mkServed db [] (Returned call)) as G.
  { unfold get_call. fold (row_of call_id user_ db). rewrite F, Na. reflexivity. }
  unfold cancel_call. rewrite G. cbn [outcome table requests].
  apply str_in_iff in Ht. rewrite Ht. reflexivity.
Qed.

End ServiceRequests.

(** X18.  A call is cancelled at most once: after a [cancel_call] that
    returned, a second one for the same call raises the not-cancellable
    error, whatever the provider would answer, asks the provider nothing and
    leaves the table as the first one left it. *)
Theorem cancel_call_once (get get' : string -> Outcome VapiData)
    (stop stop' : string -> Outcome unit) (now now' : Z) (call_id user_ : string)
    (db : list Call) (call : Call) :
  let first := cancel_call get stop now call_id user_ db in
  outcome first = Returned call ->
  cancel_call get' stop' now' call_id user_ (table first)
  = mkServed (table first) []
      (Raised (CallNotCancellableError
         "Cannot cancel a call that is already completed, failed, or cancelled.")).
Proof.
  cbv zeta. intros O.
  destruct (cancel_call_returns get stop now call_id user_ db call O)
    as (_ & row & F & S & _).
  apply (cancel_call_terminal get' stop' now' call_id user_ _ row F).
  rewrite S. cbn. tauto.
Qed.

Lemma foreign_call_not_found_witness :
  let db := [Sample.call "queued"] in
  get_call (Sample.failing "unused") 100 "call-1" "user-2" db
  = mkServed db [] (Raised (CallNotFoundError "Call call-1 not found."))
  /\ cancel_call (Sample.failing "unused") (fun _ => Returned tt) 100 "call-1" "user-2" db
     = mkServed db [] (Raised (CallNotFoundError "Call call-1 not found."))
  /\ sync_call_status (Sample.failing "unused") 100 "call-1" "user-2" db
     = mkServed db [] (Raised (CallNotFoundError "Call call-1 not found.")).
Proof.
  cbv zeta.
  apply (foreign_call_not_found (Sample.failing "unused") (fun _ => Returned tt) 100
           "call-1" "user-2" [Sample.call "queued"]).
  intros row [<- | []] _. discriminate.
Defined.

Lemma sync_call_status_polls_witness :
  let live := Sample.answering (Sample.snapshot "in-progress" "" None None None) in
  requests (get_call live 100 "call-1" "user-1" [Sample.call "queued"])
  = [GetCallRequest "vapi-1"]
  /\ requests (sync_call_status live 100 "call-1" "user-1" [Sample.call "queued"])
     = [GetCallRequest "vapi-1"; GetCallRequest "vapi-1"].
Proof.
  cbv zeta.
  destruct (sync_call_status_polls
              (Sample.answering (Sample.snapshot "in-progress" "" None None None))
              100 "call-1" "user-1" [Sample.call "queued"] (Sample.call "queued")
              "vapi-1" eq_refl eq_refl) as [G S].
  - discriminate.
  - split; [exact G |]. rewrite S, G. reflexivity.
Defined.

Lemma provider_unreachable_witness :
  let down := Sample.failing "provider unavailable" in
  let db := [Sample.call "ringing"] in
  outcome (get_call down 100 "call-1" "user-1" db) = Returned (Sample.call "ringing")
  /\ table (get_call down 100 "call-1" "user-1" db) = db
  /\ outcome (sync_call_status down 100 "call-1" "user-1" db)
     = Raised (VapiAPIError "provider unavailable")
  /\ table (sync_call_status down 100 "call-1" "user-1" db) = db.
Proof.
  cbv zeta.
  apply (provider_unreachable (Sample.failing "provider unavailable") 100 "call-1"
           "user-1" [Sample.call "ringing"] (Sample.call "ringing") "vapi-1"
           (VapiAPIError "provider unavailable") eq_refl eq_refl).
  - discriminate.
  - reflexivity.
Defined.

Lemma cancel_call_once_witness :
  let down := Sample.failing "provider unavailable" in
  let first :=
    cancel_call down (fun _ => Returned tt) 100 "call-1" "user-1" [Sample.call "queued"] in
  outcome first = Returned (set_updated_at 100 (Sample.call "cancelled"))
  /\ cancel_call down (fun _ => Returned tt) 200 "call-1" "user-1" (table first)
     = mkServed (table first) []
         (Raised (CallNotCancellableError
            "Cannot cancel a call that is already completed, failed, or cancelled.")).
Proof.
  cbv zeta. split; [reflexivity |].
  apply (cancel_call_once (Sample.failing "provider unavailable")
           (Sample.failing "provider unavailable") (fun _ => Returned tt)
           (fun _ => Returned tt) 100 200 "call-1" "user-1" [Sample.call "queued"]
           (set_updated_at 100 (Sample.call "cancelled"))).
  reflexivity.
Defined.

(** ** Admission: [create_call] *)

Section Admission.

Variable create : OutboundCall -> Outcome (option string).
Variables (now : Z) (new_id : string).
Variables (contacts : list Contact) (scripts : list CallScript).
Variables (user_ contact_id assistant_id_ phone_number_id_ : string).
Variables (script_id_ custom_prompt first_message : option string).
Variables (call_goals : json) (metadata_ : option (gmap string json)).
Variable db : list Call.

Let served : Served Call :=
  create_call create now new_id contacts scripts user_ contact_id assistant_id_
    phone_number_id_ script_id_ custom_prompt first_message call_goals metadata_ db.

Lemma active_count_app (l1 l2 : list Call) (u : string) :
  _get_active_call_count (l1 ++ l2) u
  = _get_active_call_count l1 u + _get_active_call_count l2 u.
Proof.
  unfold _get_active_call_count. rewrite List.filter_app, List.length_app. lia.
Qed.

(** The request [create_call] makes, if it makes one, and the row it
    leaves for it. *)
Lemma create_call_sent :
  (requests served = [] /\ table served = db /\ exists exc, outcome served = Raised exc)
  \/ (exists k payload row,
         In k contacts /\ contact_pk k = contact_id /\ contact_user k = user_
         /\ _get_active_call_count db user_ < MAX_PENDING_CALLS
         /\ requests served = [CreateCallRequest payload]
         /\ oc_customer_number payload = contact_phone k
         /\ oc_customer_name payload = contact_name k
         /\ oc_assistant_id payload = assistant_id_
         /\ oc_phone_number_id payload = phone_number_id_
         /\ oc_metadata payload
            = <["userId" := JStr user_]>
                (<["contactId" := JStr contact_id]>
                   (<["internalCallId" := JStr new_id]> (default ∅ metadata_)))
         /\ (Forall (fun r => pk r <> new_id) db -> table served = (db ++ [row])%list)
         /\ pk row = new_id /\ user row = user_ /\ contact row = contact_id
         /\ match create payload with
            | Returned response_id =>
                outcome served = Returned row
                /\ status row = CallStatus.QUEUED /\ vapi_call_id row = response_id
            | Raised exc =>
                outcome served = Raised exc
                /\ status row = CallStatus.FAILED /\ vapi_call_id row = None
            end).
Proof.
  unfold served, create_call.
  destruct (MAX_PENDING_CALLS <=? _get_active_call_count db user_) eqn:L;
    [left; cbn; eauto |].
  apply Z.leb_gt in L.
  destruct (List.find _ contacts) as [k |] eqn:F; [| left; cbn; eauto].
  apply List.find_some in F. destruct F as [Hk E]. apply andb_prop in E.
  destruct E as [E1 E2]. apply String.eqb_eq in E1, E2.
  destruct (resolve_script scripts user_ script_id_ custom_prompt first_message
              call_goals) as [[[cp fm] cg] | e]; [| left; cbn; eauto].
  cbv zeta. right. exists k.
  match goal with
  | |- context [create ?p] => set (payload := p); destruct (create payload) eqn:C
  end.
  - exists payload.
    destruct (save now ["vapi_call_id"; "status"; "updated_at"] _ _) as [c d] eqn:S.
    pose proof (f_equal fst S) as Sc. pose proof (f_equal snd S) as Sd.
    cbn [fst snd] in Sc, Sd. rewrite save_app in Sd.
    exists c. cbn [table requests outcome]. clear S. subst c d.
    repeat split; try assumption; try (rewrite E1; reflexivity); try reflexivity.
    + unfold payload. cbn [oc_metadata pending_call pk]. rewrite E1. reflexivity.
    + intros Fresh. rewrite save_others by exact Fresh.
      unfold save. cbn. rewrite String.eqb_refl. reflexivity.
    + rewrite C. repeat split.
  - exists payload.
    destruct (save now ["status"; "error_message"; "updated_at"] _ _) as [c d] eqn:S.
    pose proof (f_equal fst S) as Sc. pose proof (f_equal snd S) as Sd.
    cbn [fst snd] in Sc, Sd. rewrite save_app in Sd.
    exists c. cbn [table requests outcome]. clear S. subst c d.
    repeat split; try assumption; try (rewrite E1; reflexivity); try reflexivity.
    + unfold payload. cbn [oc_metadata pending_call pk]. rewrite E1. reflexivity.
    + intros Fresh. rewrite save_others by exact Fresh.
      unfold save. cbn. rewrite String.eqb_refl. reflexivity.
    + rewrite C. repeat split.
Qed.

(** X19.  [create_call] makes at most one request to the provider.  The
    number it has the provider dial is the phone of a contact of the
    requesting user, the one with the requested id, and no request is made
    while the user has two active calls.  In the metadata sent, the keys
    [userId], [contactId] and [internalCallId] are the server's, whatever the
    caller supplied under them; the caller's other keys pass through. *)
Theorem create_call_request (payload : OutboundCall) :
  In (CreateCallRequest payload) (requests served) ->
  requests served = [CreateCallRequest payload]
  /\ _get_active_call_count db user_ < MAX_PENDING_CALLS
  /\ (exists k, In k contacts /\ contact_pk k = contact_id /\ contact_user k = user_
                /\ oc_customer_number payload = contact_phone k
                /\ oc_customer_name payload = contact_name k)
  /\ oc_metadata payload !! "userId" = Some (JStr user_)
  /\ oc_metadata payload !! "contactId" = Some (JStr contact_id)
  /\ oc_metadata payload !! "internalCallId" = Some (JStr new_id)
  /\ (forall key, key <> "userId" -> key <> "contactId" -> key <> "internalCallId" ->
        oc_metadata payload !! key = default ∅ metadata_ !! key).
Proof.
  intros Hin.
  destruct create_call_sent
    as [(Hr & _) | (k & p & row & Hk & Kp & Ku & L & Hr & Pn & Pm & _ & _ & M & _)].
  - rewrite Hr in Hin. destruct Hin.
  - rewrite Hr in Hin. destruct Hin as [Hin | []]. injection Hin as ->.
    split; [exact Hr |]. split; [exact L |].
    split; [exists k; repeat split; assumption |].
    rewrite M. split; [apply lookup_insert_eq |].
    split; [rewrite lookup_insert_ne by discriminate; apply lookup_insert_eq |].
    split; [rewrite !lookup_insert_ne by discriminate; apply lookup_insert_eq |].
    intros key N1 N2 N3. rewrite !lookup_insert_ne by congruence. reflexivity.
Qed.

Lemma active_count_one (row : Call) (u : string) :
  _get_active_call_count [row] u
  = if String.eqb (user row) u && str_in (status row) ACTIVE_STATUSES then 1 else 0.
Proof.
  unfold _get_active_call_count. cbn [List.filter].
  destruct (String.eqb (user row) u && str_in (status row) ACTIVE_STATUSES); reflexivity.
Qed.

(** X20.  [create_call] leaves the rows of the table as they were and adds
    at most one.  It changes the number of active calls of no other user;
    the requesting user has one more when it returns, never more than the
    limit, and as many as before when it raises. *)
Theorem create_call_active_count :
  Forall (fun row => pk row <> new_id) db ->
  (exists added, table served = (db ++ added)%list /\ (length added <= 1)%nat)
  /\ (forall u, u <> user_ ->
        _get_active_call_count (table served) u = _get_active_call_count db u)
  /\ match outcome served with
     | Returned _ =>
         _get_active_call_count (table served) user_
         = _get_active_call_count db user_ + 1
         /\ _get_active_call_count (table served) user_ <= MAX_PENDING_CALLS
     | Raised _ =>
         _get_active_call_count (table served) user_ = _get_active_call_count db user_
     end.
Proof.
  intros Fresh.
  destruct create_call_sent
    as [(_ & Ht & e & Ho)
       | (k & p & row & _ & _ & _ & L & _ & _ & _ & _ & _ & _ & Ht & _ & Hu & _ & Hm)].
  - rewrite Ht, Ho. split; [exists []; rewrite app_nil_r; split; [reflexivity | cbn; lia] |].
    split; reflexivity.
  - specialize (Ht Fresh). rewrite Ht.
    split; [exists [row]; split; [reflexivity | cbn; lia] |].
    split.
    + intros u Hne. rewrite active_count_app, active_count_one, Hu.
      apply String.eqb_neq in Hne. rewrite String.eqb_sym in Hne. rewrite Hne.
      cbn [andb]. lia.
    + rewrite active_count_app, active_count_one, Hu, String.eqb_refl.
      destruct (create p) as [response_id | exc]; destruct Hm as (Ho & Hs & _);
        rewrite Ho, Hs; cbn [andb]; unfold MAX_PENDING_CALLS in *.
      * change (str_in CallStatus.QUEUED ACTIVE_STATUSES) with true. cbv iota. lia.
      * change (str_in CallStatus.FAILED ACTIVE_STATUSES) with false. cbv iota. lia.
Qed.

End Admission.

Lemma create_call_request_witness :
  let served :=
    create_call (fun _ => Returned (Some "vapi-9")) 100 "call-9" [Sample.contact_1] []
      "user-1" "contact-1" "assistant-1" "line-1" None None None JNull
      (Some (<["userId" := JStr "someone-else"]> ∅)) [] in
  exists payload,
    requests served = [CreateCallRequest payload]
    /\ oc_customer_number payload = "+15550100"
    /\ oc_metadata payload !! "userId" = Some (JStr "user-1").
Proof.
  cbv zeta.
  exists {| oc_assistant_id := "assistant-1"; oc_phone_number_id := "line-1";
            oc_customer_number := "+15550100"; oc_customer_name := "Ada";
            oc_custom_prompt := None; oc_first_message := None;
            oc_call_goals := JNull;
            oc_metadata :=
              <["userId" := JStr "user-1"]>
                (<["contactId" := JStr "contact-1"]>
                   (<["internalCallId" := JStr "call-9"]>
                      (<["userId" := JStr "someone-else"]> ∅))) |}.
  destruct (create_call_request (fun _ => Returned (Some "vapi-9")) 100 "call-9"
              [Sample.contact_1] [] "user-1" "contact-1" "assistant-1" "line-1" None
              None None JNull (Some (<["userId" := JStr "someone-else"]> ∅)) []
              {| oc_assistant_id := "assistant-1"; oc_phone_number_id := "line-1";
                 oc_customer_number := "+15550100"; oc_customer_name := "Ada";
                 oc_custom_prompt := None; oc_first_message := None;
                 oc_call_goals := JNull;
                 oc_metadata :=
                   <["userId" := JStr "user-1"]>
                     (<["contactId" := JStr "contact-1"]>
                        (<["internalCallId" := JStr "call-9"]>
                           (<["userId" := JStr "someone-else"]> ∅))) |})
    as (Hr & _ & _ & Hu & _).
  - left. reflexivity.
  - split; [exact Hr |]. split; [reflexivity | exact Hu].
Defined.

Lemma create_call_active_count_witness :
  let served :=
    create_call (fun _ => Returned (Some "vapi-9")) 100 "call-9" [Sample.contact_1] []
      "user-1" "contact-1" "assistant-1" "line-1" None None None JNull None
      [Sample.call "queued"] in
  _get_active_call_count (table served) "user-1" = 2
  /\ _get_active_call_count (table served) "user-2" = 0.
Proof.
  cbv zeta.
  destruct (create_call_active_count (fun _ => Returned (Some "vapi-9")) 100 "call-9"
              [Sample.contact_1] [] "user-1" "contact-1" "assistant-1" "line-1" None
              None None JNull None [Sample.call "queued"])
    as (_ & Ho & Hc).
  - constructor; [discriminate | constructor].
  - split.
    + apply (proj1 Hc).
    + apply (Ho "user-2"). discriminate.
Defined.

(** ** The webhook dispatcher on the table *)

Section Webhooks.

Variables (now : Z) (message : Message) (db : list Call).

(** X21.  A webhook event adds and removes no row, whether the handler
    returns or raises.  It leaves a row as it
    was unless the row carries the provider id of the event; it changes
    nothing at all when the event has no call id, or is neither a status
    update nor an end-of-call report.  The row it writes stays the same call
    of the same user for the same contact under the same provider id, and
    moves to no earlier status. *)
Theorem handle_webhook_frame :
  List.NoDup (map pk db) ->
  Forall2
    (fun row row' =>
       advances row row'
       /\ (vapi_call_id row <> Some (cd_id (m_call message))
           \/ cd_id (m_call message) = ""
           \/ (m_type message <> "status-update"
               /\ m_type message <> "end-of-call-report") ->
           row' = row))
    db (table (handle_webhook now message db)).
Proof.
  intros N.
  assert (forall row : Call,
            advances row row
            /\ (vapi_call_id row <> Some (cd_id (m_call message))
                \/ cd_id (m_call message) = ""
                \/ (m_type message <> "status-update"
                    /\ m_type message <> "end-of-call-report") ->
                row = row)) as Same.
  { intros row. split; [apply advances_refl | reflexivity]. }
  assert (forall (call instance : Call) (fields : list string),
            find_by_vapi_call_id db (cd_id (m_call message)) = Some call ->
            negb (PyStr.truthy (cd_id (m_call message))) = false ->
            (m_type message = "status-update" \/ m_type message = "end-of-call-report") ->
            advances call instance ->
            Forall2
              (fun row row' =>
                 advances row row'
                 /\ (vapi_call_id row <> Some (cd_id (m_call message))
                     \/ cd_id (m_call message) = ""
                     \/ (m_type message <> "status-update"
                         /\ m_type message <> "end-of-call-report") ->
                     row' = row))
              db (snd (save now fields instance db))) as Saved.
  { intros call instance fields F T Ty A. apply List.find_some in F.
    destruct F as [Hin V]. apply bool_decide_eq_true in V.
    apply save_pointwise with (call := call); try assumption.
    - apply A.
    - split; [apply written_advances; exact A |].
      intros [H | [H | [H1 H2]]].
      + contradiction.
      + rewrite H in T. discriminate.
      + destruct Ty; contradiction. }
  unfold handle_webhook.
  destruct (String.eqb (m_type message) "status-update") eqn:E1.
  - apply String.eqb_eq in E1. unfold _handle_status_update.
    destruct (VAPI_STATUS_MAP !! m_status message) as [ns |];
      [| apply Forall2_refl_on; exact Same].
    destruct (negb (PyStr.truthy ns)); [apply Forall2_refl_on; exact Same |].
    destruct (negb (PyStr.truthy (cd_id (m_call message)))) eqn:T;
      [apply Forall2_refl_on; exact Same |].
    destruct (find_by_vapi_call_id db (cd_id (m_call message))) as [call |] eqn:F;
      [| apply Forall2_refl_on; exact Same].
    pose proof (update_advances call message) as A. unfold after_status_update in A.
    destruct (status_update_apply call message) as [[call' fields] |];
      [| apply Forall2_refl_on; exact Same].
    apply (Saved call call' fields eq_refl eq_refl); [left; exact E1 | exact A].
  - destruct (String.eqb (m_type message) "end-of-call-report") eqn:E2;
      [| apply Forall2_refl_on; exact Same].
    apply String.eqb_eq in E2. unfold _handle_end_of_call_report.
    destruct (negb (PyStr.truthy (cd_id (m_call message)))) eqn:T;
      [apply Forall2_refl_on; exact Same |].
    destruct (find_by_vapi_call_id db (cd_id (m_call message))) as [call |] eqn:F;
      [| apply Forall2_refl_on; exact Same].
    pose proof (report_advances call message) as A.
    destruct (end_of_call_report_apply call message) as [call' [fields | e]];
      [| apply Forall2_refl_on; exact Same].
    apply (Saved call call' fields eq_refl eq_refl); [right; exact E2 | exact A].
Qed.

End Webhooks.

Lemma handle_webhook_frame_witness :
  let report := Sample.report "customer-busy" None None None in
  let db := [Sample.call "in-progress";
             {| pk := "call-2"; user := "user-2"; contact := "contact-7";
                script_id := None; vapi_call_id := Some "vapi-2";
                assistant_id := "assistant-1"; phone_number_id := Some "line-1";
                status := "ringing"; transcript := None; summary := None;
                analysis := None; started_at := None; ended_at := None;
                duration_seconds := None; metadata := None; error_message := None;
                updated_at := 0 |}] in
  map status (table (handle_webhook 100 report db)) = ["busy"; "ringing"]
  /\ Forall2
       (fun row row' =>
          advances row row'
          /\ (vapi_call_id row <> Some (cd_id (m_call report))
              \/ cd_id (m_call report) = ""
              \/ (m_type report <> "status-update"
                  /\ m_type report <> "end-of-call-report") ->
              row' = row))
       db (table (handle_webhook 100 report db)).
Proof.
  cbv zeta. split; [vm_compute; reflexivity |].
  apply (handle_webhook_frame 100 (Sample.report "customer-busy" None None None)).
  cbn [map pk]. constructor; [| constructor; [| constructor]].
  - intros [H | []]. discriminate.
  - intros [].
Defined.

(** ** Summary extraction *)

Section Summaries.

Lemma rstrip_idem (s : string) : PyStr.rstrip (PyStr.rstrip s) = PyStr.rstrip s.
Proof.
  induction s as [| c t IH]; [reflexivity |]. cbn [PyStr.rstrip].
  destruct (PyStr.rstrip t) as [| a r] eqn:E.
  - destruct (PyStr.isspace c) eqn:S; [reflexivity |].
    cbn [PyStr.rstrip]. rewrite S. reflexivity.
  - cbn [PyStr.rstrip] in *. rewrite IH. reflexivity.
Qed.

Lemma rstrip_head (c : ascii) (t : string) :
  PyStr.isspace c = false -> exists r, PyStr.rstrip (String c t) = String c r.
Proof.
  intros S. cbn [PyStr.rstrip]. destruct (PyStr.rstrip t) as [| a r].
  - rewrite S. eauto.
  - eauto.
Qed.

Lemma lstrip_head (s : string) :
  PyStr.lstrip s = ""
  \/ exists c t, PyStr.lstrip s = String c t /\ PyStr.isspace c = false.
Proof.
  induction s as [| c t IH]; [left; reflexivity |]. cbn [PyStr.lstrip].
  destruct (PyStr.isspace c) eqn:S; [exact IH |]. right. eauto.
Qed.

Lemma strip_idem (s : string) : PyStr.strip (PyStr.strip s) = PyStr.strip s.
Proof.
  unfold PyStr.strip. destruct (lstrip_head s) as [E | (c & t & E & S)]; rewrite E.
  - reflexivity.
  - destruct (rstrip_head c t S) as [r R]. rewrite R.
    cbn [PyStr.lstrip]. rewrite S, <- R. apply rstrip_idem.
Qed.

Lemma truthy_iff (s : string) : PyStr.truthy s = true <-> s <> "".
Proof. destruct s; cbn; split; intros H; congruence. Qed.

Lemma scan_outputs_step (k : string) (entry : json) (rest : list (string * json))
    (fallback : string) :
  scan_outputs ((k, entry) :: rest) fallback
  = let* result := output_result entry in
    if negb (PyStr.truthy result) then scan_outputs rest fallback
    else
      let* is_summary := output_is_summary entry in
      if is_summary then Returned result
      else if negb (PyStr.truthy fallback) then scan_outputs rest result
      else scan_outputs rest fallback.
Proof. reflexivity. Qed.

Lemma scan_outputs_blank (outs : list (string * json)) (fallback : string) :
  Forall (fun kv => output_result (snd kv) = Returned "") outs ->
  scan_outputs outs fallback = Returned fallback.
Proof.
  induction 1 as [| [k e] outs He _ IH]; [reflexivity |].
  rewrite scan_outputs_step. cbn [snd] in He. rewrite He. exact IH.
Qed.

(** Past an entry that is blank, or that has a result and not the name. *)
Lemma scan_outputs_past (k : string) (e : json) (rest : list (string * json))
    (fallback : string) :
  output_result e = Returned ""
  \/ (exists r, output_result e = Returned r
                /\ output_is_summary e = Returned false) ->
  exists fallback',
    scan_outputs ((k, e) :: rest) fallback = scan_outputs rest fallback'
    /\ (fallback <> "" -> fallback' = fallback).
Proof.
  rewrite scan_outputs_step. intros [B | (r & R & N)].
  - rewrite B. exists fallback. split; [reflexivity | tauto].
  - rewrite R. cbn [bind]. destruct (negb (PyStr.truthy r)).
    + exists fallback. split; [reflexivity | tauto].
    + rewrite N. cbn [bind]. destruct (PyStr.truthy fallback) eqn:T; cbn [negb].
      * exists fallback. split; [reflexivity | tauto].
      * exists r. split; [reflexivity |]. intros Hf. apply truthy_iff in Hf.
        rewrite Hf in T. discriminate.
Qed.

Lemma scan_outputs_named (pre post : list (string * json)) (k : string) (e : json)
    (r fallback : string) :
  Forall (fun kv => output_result (snd kv) = Returned ""
                    \/ (exists r', output_result (snd kv) = Returned r'
                                   /\ output_is_summary (snd kv) = Returned false)) pre ->
  output_result e = Returned r -> r <> "" -> output_is_summary e = Returned true ->
  scan_outputs (pre ++ (k, e) :: post) fallback = Returned r.
Proof.
  intros Hpre Hr Ne Hn. revert fallback.
  induction Hpre as [| [k' e'] pre He' _ IH]; intros fallback; cbn [app].
  - rewrite scan_outputs_step, Hr. cbn [bind]. apply truthy_iff in Ne. rewrite Ne.
    cbn [negb]. rewrite Hn. reflexivity.
  - cbn [snd] in He'.
    destruct (scan_outputs_past k' e' (pre ++ (k, e) :: post) fallback He')
      as (fallback' & -> & _).
    apply IH.
Qed.

Lemma scan_outputs_raises (pre post : list (string * json)) (k : string) (e : json)
    (exc : Exc) (fallback : string) :
  Forall (fun kv => output_result (snd kv) = Returned ""
                    \/ (exists r', output_result (snd kv) = Returned r'
                                   /\ output_is_summary (snd kv) = Returned false)) pre ->
  output_result e = Raised exc
  \/ (exists r, output_result e = Returned r /\ r <> ""
                /\ output_is_summary e = Raised exc) ->
  scan_outputs (pre ++ (k, e) :: post) fallback = Raised exc.
Proof.
  intros Hpre He. revert fallback.
  induction Hpre as [| [k' e'] pre He' _ IH]; intros fallback; cbn [app].
  - rewrite scan_outputs_step. destruct He as [He | (r & Hr & Ne & Hn)].
    + rewrite He. reflexivity.
    + rewrite Hr. cbn [bind]. apply truthy_iff in Ne. rewrite Ne. cbn [negb].
      rewrite Hn. reflexivity.
  - cbn [snd] in He'.
    destruct (scan_outputs_past k' e' (pre ++ (k, e) :: post) fallback He')
      as (fallback' & -> & _).
    apply IH.
Qed.

Lemma scan_outputs_unnamed (outs : list (string * json)) (fallback : string) :
  Forall (fun kv => output_result (snd kv) = Returned ""
                    \/ (exists r', output_result (snd kv) = Returned r'
                                   /\ output_is_summary (snd kv) = Returned false)) outs ->
  fallback <> "" -> scan_outputs outs fallback = Returned fallback.
Proof.
  intros H Hf. induction H as [| [k e] outs He _ IH]; [reflexivity |].
  cbn [snd] in He.
  destruct (scan_outputs_past k e outs fallback He) as (fallback' & -> & Keep).
  rewrite (Keep Hf). exact IH.
Qed.

Lemma scan_outputs_empty (outs : list (string * json)) (fallback : string) :
  scan_outputs outs fallback = Returned "" ->
  fallback = "" /\ Forall (fun kv => output_result (snd kv) = Returned "") outs.
Proof.
  revert fallback. induction outs as [| [k e] outs IH]; intros fallback H.
  - injection H as H. split; [exact H | constructor].
  - rewrite scan_outputs_step in H.
    destruct (output_result e) as [r | x] eqn:R; cbn [bind] in H; [| discriminate].
    destruct (PyStr.truthy r) eqn:T; cbn [negb] in H.
    + exfalso. apply truthy_iff in T.
      destruct (output_is_summary e) as [[|] | x]; cbn [bind] in H; [| | discriminate].
      * injection H as H. contradiction.
      * destruct (negb (PyStr.truthy fallback)) eqn:Tf.
        -- apply IH in H. destruct H as [H _]. contradiction.
        -- apply IH in H. destruct H as [H _]. rewrite H in Tf. discriminate.
    + apply IH in H. destruct H as [Hf Ho]. split; [exact Hf |].
      constructor; [| exact Ho]. cbn [snd].
      destruct r; [exact R | discriminate].
Qed.

(** X22.  The summary taken from the structured outputs, when the payload
    has none of its own.  The scan returns the empty string exactly when
    every entry has a blank result.  The first entry with a result and a
    name containing "summary" wins, even over earlier entries with a result,
    and whatever comes after it, readable or not.  When no such entry exists
    and every entry can be read, the first entry with a result wins.  An
    entry that cannot be read (it is not a dict, or its result is a truthy
    value that is not a string, or it has a result and its name is such a
    value) makes the scan raise when the scan reaches it, that is, when no
    entry before it has both a result and the name. *)
Theorem scan_outputs_priority (outs : list (string * json)) :
  (scan_outputs outs "" = Returned ""
   <-> Forall (fun kv => output_result (snd kv) = Returned "") outs)
  /\ (forall pre k e post r,
        outs = (pre ++ (k, e) :: post)%list ->
        Forall (fun kv => output_result (snd kv) = Returned ""
                          \/ (exists r', output_result (snd kv) = Returned r'
                                         /\ output_is_summary (snd kv) = Returned false))
          pre ->
        output_result e = Returned r -> r <> "" ->
        output_is_summary e = Returned true ->
        scan_outputs outs "" = Returned r)
  /\ (forall pre k e post r,
        outs = (pre ++ (k, e) :: post)%list ->
        Forall (fun kv => output_result (snd kv) = Returned "") pre ->
        output_result e = Returned r -> r <> "" ->
        Forall (fun kv => output_result (snd kv) = Returned ""
                          \/ (exists r', output_result (snd kv) = Returned r'
                                         /\ output_is_summary (snd kv) = Returned false))
          outs ->
        scan_outputs outs "" = Returned r)
  /\ (forall pre k e post exc,
        outs = (pre ++ (k, e) :: post)%list ->
        Forall (fun kv => output_result (snd kv) = Returned ""
                          \/ (exists r', output_result (snd kv) = Returned r'
                                         /\ output_is_summary (snd kv) = Returned false))
          pre ->
        output_result e = Raised exc
        \/ (exists r, output_result e = Returned r /\ r <> ""
                      /\ output_is_summary e = Raised exc) ->
        scan_outputs outs "" = Raised exc).
Proof.
  split; [| split; [| split]].
  - split; [intros H; apply (scan_outputs_empty outs "" H) | apply scan_outputs_blank].
  - intros pre k e post r -> Hpre Hr Ne Hn. apply scan_outputs_named; assumption.
  - intros pre k e post r -> Hpre Hr Ne Hall.
    apply List.Forall_app in Hall. destruct Hall as [_ Hall].
    apply List.Forall_cons_iff in Hall. destruct Hall as [He Hpost]. cbn [snd] in He.
    assert (output_is_summary e = Returned false) as Hn.
    { destruct He as [He | (r' & _ & He)]; [| exact He].
      rewrite Hr in He. injection He as He. contradiction. }
    clear He.
    induction Hpre as [| [k' e'] pre He' _ IH]; cbn [app].
    + rewrite scan_outputs_step, Hr. cbn [bind]. pose proof Ne as T.
      apply truthy_iff in T. rewrite T. cbn [negb PyStr.truthy]. rewrite Hn.
      cbn [bind negb]. apply scan_outputs_unnamed; assumption.
    + rewrite scan_outputs_step. cbn [snd] in He'. rewrite He'. exact IH.
  - intros pre k e post exc -> Hpre He. apply scan_outputs_raises; assumption.
Qed.

Lemma scan_outputs_stripped (outs : list (string * json)) (fallback s : string) :
  PyStr.strip fallback = fallback ->
  scan_outputs outs fallback = Returned s -> PyStr.strip s = s.
Proof.
  revert fallback. induction outs as [| [k e] outs IH]; intros fallback Hf H.
  - injection H as <-. exact Hf.
  - rewrite scan_outputs_step in H. unfold output_result in H at 1.
    destruct (attr_get "result" e) as [result | x]; cbn [bind] in H; [| discriminate].
    destruct (str_or_empty "strip" result) as [text | x]; cbn [bind] in H;
      [| discriminate].
    destruct (negb (PyStr.truthy (PyStr.strip text))); [exact (IH _ Hf H) |].
    destruct (output_is_summary e) as [[|] | x]; cbn [bind] in H; [| | discriminate].
    + injection H as <-. apply strip_idem.
    + destruct (negb (PyStr.truthy fallback));
        [exact (IH _ (strip_idem text) H) | exact (IH _ Hf H)].
Qed.

(** X23.  A summary extracted from a payload, by either channel, has no
    white space at its ends; and the reconcilers store a summary only if it
    is not empty, so a stored summary that came from a payload is never
    blank. *)
Theorem extracted_summary_stripped (vapi_data : VapiData) (message : Message)
    (artifact : Artifact) (call : Call) :
  (forall s, _extract_summary vapi_data artifact = Returned s -> PyStr.strip s = s)
  /\ (forall s, _extract_summary_from_webhook message artifact = Returned s ->
        PyStr.strip s = s)
  /\ (summary (fst (_reconcile_call_from_vapi call vapi_data)) = summary call
      \/ exists s, summary (fst (_reconcile_call_from_vapi call vapi_data)) = Some s
                   /\ s <> "" /\ PyStr.strip s = s)
  /\ (summary (fst (end_of_call_report_apply call message)) = summary call
      \/ exists s, summary (fst (end_of_call_report_apply call message)) = Some s
                   /\ s <> "" /\ PyStr.strip s = s).
Proof.
  assert (forall v a s, _extract_summary v a = Returned s -> PyStr.strip s = s) as Pull.
  { intros v a s. unfold _extract_summary.
    destruct (PyStr.truthy (PyStr.strip (PyStr.or_empty (v_summary v))));
      [intros H; injection H as <-; apply strip_idem |].
    destruct (str_or_empty "strip" (dict_get "summary" (v_analysis v))) as [text | x];
      cbn [bind]; [| discriminate].
    destruct (PyStr.truthy (PyStr.strip text));
      [intros H; injection H as <-; apply strip_idem |].
    apply scan_outputs_stripped. reflexivity. }
  assert (forall m a s, _extract_summary_from_webhook m a = Returned s ->
                        PyStr.strip s = s) as Push.
  { intros m a s. unfold _extract_summary_from_webhook.
    destruct (PyStr.truthy (PyStr.strip (PyStr.or_empty (m_summary m))));
      [intros H; injection H as <-; apply strip_idem |].
    destruct (str_or_empty "strip" (dict_get "summary" (m_analysis m))) as [text | x];
      cbn [bind]; [| discriminate].
    destruct (PyStr.truthy (PyStr.strip text));
      [intros H; injection H as <-; apply strip_idem |].
    apply scan_outputs_stripped. reflexivity. }
  split; [apply Pull |]. split; [apply Push |]. split.
  - rewrite reconcile_closed.
    destruct (_is_valid_status_transition _ _); cbn [fst]; [| left; reflexivity].
    destruct (pull_raises vapi_data) as [e |] eqn:PR; cbn [fst].
    { left. unfold pull_partial.
      destruct (parse_datetime (v_startedAt vapi_data));
        [destruct (parse_datetime (v_endedAt vapi_data)) |]; reflexivity. }
    unfold pull_instance, folded. call_simpl.
    destruct (takes_summary call (pull_summary vapi_data)) eqn:T;
      [right; exists (pull_summary vapi_data) | left; reflexivity].
    split; [reflexivity |]. unfold takes_summary in T. apply andb_prop in T.
    destruct T as [T _]. apply truthy_iff in T. split; [exact T |].
    unfold pull_summary in *.
    destruct (_extract_summary vapi_data (v_artifact vapi_data)) as [s | x] eqn:E;
      cbn [returned_or] in *; [exact (Pull _ _ _ E) | contradiction T; reflexivity].
  - rewrite end_of_call_report_closed.
    destruct (push_raises message) as [e |] eqn:PR; cbn [fst].
    { left. reflexivity. }
    unfold push_instance, folded. call_simpl.
    destruct (takes_summary call (push_summary message)) eqn:T;
      [right; exists (push_summary message) | left; reflexivity].
    split; [reflexivity |]. unfold takes_summary in T. apply andb_prop in T.
    destruct T as [T _]. apply truthy_iff in T. split; [exact T |].
    unfold push_summary in *.
    destruct (_extract_summary_from_webhook message (m_artifact message)) as [s | x] eqn:E;
      cbn [returned_or] in *; [exact (Push _ _ _ E) | contradiction T; reflexivity].
Qed.

End Summaries.

(** ** Metadata *)

Section Metadata.

Lemma folded_metadata (call : Call) (ns : string) (t : option string) (s : string)
    (a m : gmap string json) (st en : option Z) :
  default ∅ (metadata (folded call ns t s a m st en)) = m.
Proof.
  unfold folded. call_simpl. unfold takes_metadata.
  destruct (bool_decide (m = default ∅ (metadata call))) eqn:E; cbn [negb].
  - apply bool_decide_eq_true in E. symmetry. exact E.
  - reflexivity.
Qed.

Lemma enrich_meta_keeps (base : gmap string json) (r s ms co cb : json) (key : string) :
  is_Some (base !! key) -> is_Some (enrich_meta base r s ms co cb !! key).
Proof.
  intros H. rewrite enrich_meta_lookup.
  repeat case_decide;
    try match goal with
        | |- context [if ?b then _ else _] => destruct b
        end; eauto.
Qed.

Lemma pull_partial_metadata (call : Call) (vapi_data : VapiData) :
  metadata (pull_partial call vapi_data) = metadata call.
Proof.
  unfold pull_partial.
  destruct (parse_datetime (v_startedAt vapi_data));
    [destruct (parse_datetime (v_endedAt vapi_data)) |]; reflexivity.
Qed.

(** X24.  Reconciliation, by either channel, removes no key of the
    metadata of a call and leaves every key untouched but the five it reads
    off the payload, also when it raises.  Those five are not
    first-write-wins: a recording URL in an end-of-call report that is read
    without raising replaces the stored one. *)
Theorem metadata_grows (call : Call) (vapi_data : VapiData) (message : Message)
    (key : string) :
  let before := default ∅ (metadata call) in
  let pulled := default ∅ (metadata (fst (_reconcile_call_from_vapi call vapi_data))) in
  let pushed := default ∅ (metadata (fst (end_of_call_report_apply call message))) in
  (is_Some (before !! key) -> is_Some (pulled !! key) /\ is_Some (pushed !! key))
  /\ (~ In key ["recordingUrl"; "stereoRecordingUrl"; "messages"; "cost"; "costBreakdown"] ->
      pulled !! key = before !! key /\ pushed !! key = before !! key)
  /\ (forall fields,
        snd (end_of_call_report_apply call message) = Returned fields ->
        Json.truthy (m_recordingUrl message) = true ->
        pushed !! "recordingUrl" = Some (m_recordingUrl message)).
Proof.
  cbv zeta.
  assert (Json.truthy (m_recordingUrl message) = true ->
          push_meta call message !! "recordingUrl" = Some (m_recordingUrl message))
    as Last.
  { intros T. unfold push_meta. rewrite enrich_meta_lookup. unfold Json.or_. rewrite T.
    repeat (case_decide; [discriminate |]). case_decide; [| congruence].
    rewrite T. reflexivity. }
  assert (let pushed :=
            default ∅ (metadata (fst (end_of_call_report_apply call message))) in
          (is_Some (default ∅ (metadata call) !! key) -> is_Some (pushed !! key))
          /\ (~ In key ["recordingUrl"; "stereoRecordingUrl"; "messages"; "cost";
                        "costBreakdown"] ->
              pushed !! key = default ∅ (metadata call) !! key)
          /\ (forall fields,
                snd (end_of_call_report_apply call message) = Returned fields ->
                Json.truthy (m_recordingUrl message) = true ->
                pushed !! "recordingUrl" = Some (m_recordingUrl message))) as Push.
  { cbv zeta. rewrite end_of_call_report_closed.
    destruct (push_raises message); cbn [fst snd].
    - unfold push_partial. call_simpl.
      split; [tauto |]. split; [reflexivity | discriminate].
    - unfold push_instance. rewrite folded_metadata.
      split; [intros H; unfold push_meta; apply enrich_meta_keeps; exact H |].
      split; [intros H; unfold push_meta; apply enrich_meta_other; exact H |].
      intros fields _. exact Last. }
  cbv zeta in Push. destruct Push as (P1 & P2 & P3).
  assert (let pulled :=
            default ∅ (metadata (fst (_reconcile_call_from_vapi call vapi_data))) in
          (is_Some (default ∅ (metadata call) !! key) -> is_Some (pulled !! key))
          /\ (~ In key ["recordingUrl"; "stereoRecordingUrl"; "messages"; "cost";
                        "costBreakdown"] ->
              pulled !! key = default ∅ (metadata call) !! key)) as Pull.
  { cbv zeta. rewrite reconcile_closed.
    destruct (_is_valid_status_transition _ _); cbn [fst]; [| tauto].
    destruct (pull_raises vapi_data); cbn [fst].
    - rewrite pull_partial_metadata. tauto.
    - unfold pull_instance. rewrite folded_metadata. unfold pull_meta.
      split; [intros H; apply enrich_meta_keeps; exact H |].
      intros H; apply enrich_meta_other; exact H. }
  cbv zeta in Pull. destruct Pull as (Q1 & Q2).
  split; [intros H; split; [exact (Q1 H) | exact (P1 H)] |].
  split; [intros H; split; [exact (Q2 H) | exact (P2 H)] | exact P3].
Qed.

End Metadata.

(** ** The guard and the end-reason mapping as functions *)

Section GuardOrder.

(** X25.  The transition guard, in both copies, compares the two statuses
    in [STATUS_ORDER] and does nothing else: no order exceeds 10, so the
    clause for terminal statuses admits nothing the comparison would refuse.
    The guard is therefore reflexive, transitive and total, and a stored
    status that [STATUS_ORDER] does not know accepts every transition. *)
Theorem transition_guard_is_order (a b c : string) :
  _is_valid_status_transition a b = (order a <=? order b)
  /\ _is_valid_transition a b = (order a <=? order b)
  /\ _is_valid_status_transition a a = true
  /\ (_is_valid_status_transition a b = true ->
      _is_valid_status_transition b c = true ->
      _is_valid_status_transition a c = true)
  /\ (_is_valid_status_transition a b = true \/ _is_valid_status_transition b a = true)
  /\ (STATUS_ORDER !! a = None -> _is_valid_status_transition a b = true).
Proof.
  assert (forall x y, _is_valid_status_transition x y = (order x <=? order y)) as G.
  { intros x y. pose proof (order_bounds x) as Bx. pose proof (order_bounds y) as By.
    destruct (order x <=? order y) eqn:E.
    - apply guard_iff. apply Z.leb_le in E. lia.
    - apply not_true_is_false. intros Hg. apply guard_iff in Hg.
      apply Z.leb_gt in E. lia. }
  split; [apply G |]. split; [rewrite guards_agree; apply G |].
  rewrite !G. split; [apply Z.leb_refl |]. split; [| split].
  - rewrite !Z.leb_le. lia.
  - rewrite !Z.leb_le. lia.
  - intros N. unfold order at 1. rewrite N. cbn [default].
    apply Z.leb_le. apply order_bounds.
Qed.

Lemma lower_char_idem (ch : ascii) :
  PyStr.lower_char (PyStr.lower_char ch) = PyStr.lower_char ch.
Proof.
  destruct ch as [b0 b1 b2 b3 b4 b5 b6 b7].
  destruct b0, b1, b2, b3, b4, b5, b6, b7; reflexivity.
Qed.

Lemma lower_char_replace (ch : ascii) :
  PyStr.lower_char (if Ascii.eqb ch "-" then "_"%char else ch)
  = if Ascii.eqb (PyStr.lower_char ch) "-" then "_"%char else PyStr.lower_char ch.
Proof.
  destruct ch as [b0 b1 b2 b3 b4 b5 b6 b7].
  destruct b0, b1, b2, b3, b4, b5, b6, b7; reflexivity.
Qed.

Lemma normalized_lower (reason : string) :
  normalized (PyStr.lower reason) = normalized reason.
Proof.
  unfold normalized. f_equal.
  induction reason as [| ch t IH]; [reflexivity |]. cbn [PyStr.lower].
  rewrite lower_char_idem, IH. reflexivity.
Qed.

Lemma normalized_replace (reason : string) :
  normalized (PyStr.replace "-" "_" reason) = normalized reason.
Proof.
  unfold normalized.
  induction reason as [| ch t IH]; [reflexivity |]. cbn [PyStr.lower PyStr.replace].
  rewrite IH, lower_char_replace. f_equal.
  destruct (Ascii.eqb (PyStr.lower_char ch) "-") eqn:E; [reflexivity |].
  rewrite E. reflexivity.
Qed.

Lemma map_ended_reason_normalized (r r' current : string) :
  normalized r' = normalized r ->
  _map_ended_reason r' current = _map_ended_reason r current.
Proof.
  intros E. unfold _map_ended_reason. rewrite !reason_lower_normalized, E. reflexivity.
Qed.

(** X26.  [_map_ended_reason] always answers a terminal status.  It reads
    the reason without regard to case or to the difference between hyphens
    and underscores; the current status matters only when it is terminal,
    and mapping again from the answer gives the answer. *)
Theorem map_ended_reason_total (reason current other : string) :
  In (_map_ended_reason reason current) TERMINAL_STATUSES
  /\ _map_ended_reason (PyStr.lower reason) current = _map_ended_reason reason current
  /\ _map_ended_reason (PyStr.replace "-" "_" reason) current
     = _map_ended_reason reason current
  /\ _map_ended_reason reason (_map_ended_reason reason current)
     = _map_ended_reason reason current
  /\ (~ In current TERMINAL_STATUSES -> ~ In other TERMINAL_STATUSES ->
      _map_ended_reason reason current = _map_ended_reason reason other).
Proof.
  split; [apply map_ended_reason_terminal |].
  split; [apply map_ended_reason_normalized, normalized_lower |].
  split; [apply map_ended_reason_normalized, normalized_replace |].
  split; [apply map_ended_reason_idem |].
  intros Hc Ho. unfold _map_ended_reason.
  destruct (str_in current TERMINAL_STATUSES) eqn:Ec;
    [apply str_in_iff in Ec; contradiction |].
  destruct (str_in other TERMINAL_STATUSES) eqn:Eo;
    [apply str_in_iff in Eo; contradiction |].
  reflexivity.
Qed.

End GuardOrder.

(** ** The loop of [sync_stale_queued_calls], row by row *)

Section SweepRows.

Variable created_at : string -> Z.
Variable get : string -> Outcome VapiData.




















End SweepRows.



(** ** Status updates *)

Section StatusUpdates.

Variables (now : Z) (message : Message) (db : list Call).



End StatusUpdates.

